(** * Customer health scoring and recovery playbooks

    A shallow embedding of [health_scoring_system.py]: the metric
    calculators, the composite scorer, the playbook templates, the trigger
    engine and the playbook/action lifecycle of [CustomerSuccessEngine].

    Numbers.  A Python [float] is an IEEE-754 binary64 value and is modelled
    by Rocq's primitive [float], whose operations are the same binary64
    operations (round to nearest, ties to even).  Signals that the callers
    pass as [int] or [bool] are identified with the float of the same value
    ([True] is [1.0], [False] is [0.0]); the calculators only divide,
    multiply, subtract and compare them, which agrees with Python's mixed
    arithmetic as long as the integers are exactly representable.  The one
    place where Python's float arithmetic raises, a division by zero, is
    kept explicit ([truediv]).  An integer signal beyond the range of
    binary64 makes Python raise [OverflowError] inside a calculator; such
    signals are not values of the embedding.

    State.  The engine's two dictionaries are insertion-ordered maps from
    strings; the objects stored in them are mutated in place by the Python
    code, which the embedding writes back under the key the object was
    found under.  Calls to [datetime.now()] are an input ([now]) of each
    operation: the code reads the clock several times while it builds a
    playbook (for the id, for [triggered_at], for every due date), and
    the one [now] stands for all of these readings.  The [logger] is an
    explicit event list. *)

From Stdlib Require Import ZArith QArith List String Ascii Bool Lia Floats.
From Stdlib Require Uint63.
Import ListNotations.

Set Warnings "-inexact-float".
Local Close Scope Q_scope.
Local Open Scope string_scope.
Local Open Scope float_scope.

(* ================================================================= *)
(** ** Python values and built-ins *)

(** The exceptions the module can raise: the two [raise ValueError(...)]
    of the engine and the interpreter's own [ZeroDivisionError]. *)
Inductive exn : Type :=
| ValueError (msg : string)
| ZeroDivisionError.

Inductive result (A : Type) : Type :=
| Ok (a : A)
| Raise (e : exn).
Arguments Ok {A} a.
Arguments Raise {A} e.

Definition bind {A B : Type} (m : result A) (k : A -> result B) : result B :=
  match m with
  | Ok a => k a
  | Raise e => Raise e
  end.

Notation "x <- m ;; k" := (bind m (fun x => k))
  (at level 61, m at next level, right associativity).

(** [min(a, b)] and [max(a, b)] with two arguments: the first argument is
    kept unless the second compares strictly below (above) it. *)
Definition py_min (a b : float) : float := if b <? a then b else a.
Definition py_max (a b : float) : float := if a <? b then b else a.

(** [a / b] on floats: [ZeroDivisionError] when [b == 0]. *)
Definition truediv (a b : float) : result float :=
  if b =? 0 then Raise ZeroDivisionError else Ok (a / b).

(** Truth value of a float: false exactly for zero. *)
Definition truthy (x : float) : bool := negb (x =? 0).

Definition truthy_opt (x : option float) : bool :=
  match x with
  | Some v => truthy v
  | None => false
  end.

(** [float(n)] for a non-negative Python [int] such as a [len]. *)
Definition float_of_nat (n : nat) : float :=
  of_uint63 (Uint63.of_Z (Z.of_nat n)).

Definition datetime := Z.

(** Insertion-ordered dictionaries with string keys. *)
Module Dict.
Section Ops.
Context {V : Type}.

Definition t := list (string * V).

Definition empty : t := [].

Fixpoint get (d : t) (k : string) : option V :=
  match d with
  | [] => None
  | (k', v) :: d' => if String.eqb k' k then Some v else get d' k
  end.

(** [d.get(k, default)] *)
Definition get_default (d : t) (k : string) (default : V) : V :=
  match get d k with
  | Some v => v
  | None => default
  end.

(** [d[k] = v]: an existing key keeps its position. *)
Fixpoint set (d : t) (k : string) (v : V) : t :=
  match d with
  | [] => [(k, v)]
  | (k', v') :: d' =>
      if String.eqb k' k then (k, v) :: d' else (k', v') :: set d' k v
  end.

Definition values (d : t) : list V := map snd d.

Definition mem (d : t) (k : string) : bool :=
  match get d k with
  | Some _ => true
  | None => false
  end.
End Ops.
Arguments t V : clear implicits.
End Dict.

(* ================================================================= *)
(** ** Data model *)

Inductive HealthTier : Type :=
| HEALTHY      (* 80-100 *)
| AT_RISK      (* 60-79 *)
| CRITICAL     (* 40-59 *)
| RED_ALERT.   (* 0-39 *)

Inductive PlaybookType : Type :=
| POST_INCIDENT_RECOVERY
| ENGAGEMENT_REVIVAL
| VALUE_ACCELERATION
| CHURN_PREVENTION
| TRUST_REBUILDING.

Inductive ActionStatus : Type :=
| PENDING
| IN_PROGRESS
| COMPLETED
| SKIPPED.

Definition PlaybookType_eqb (a b : PlaybookType) : bool :=
  match a, b with
  | POST_INCIDENT_RECOVERY, POST_INCIDENT_RECOVERY
  | ENGAGEMENT_REVIVAL, ENGAGEMENT_REVIVAL
  | VALUE_ACCELERATION, VALUE_ACCELERATION
  | CHURN_PREVENTION, CHURN_PREVENTION
  | TRUST_REBUILDING, TRUST_REBUILDING => true
  | _, _ => false
  end.

Definition ActionStatus_eqb (a b : ActionStatus) : bool :=
  match a, b with
  | PENDING, PENDING
  | IN_PROGRESS, IN_PROGRESS
  | COMPLETED, COMPLETED
  | SKIPPED, SKIPPED => true
  | _, _ => false
  end.

Record HealthMetrics : Type := mkHealthMetrics {
  engagement_score : float;
  value_realization_score : float;
  relationship_health_score : float;
  risk_indicators_score : float;
  calculated_at : datetime
}.

(** [HealthMetrics.calculate_composite_score] *)
Definition calculate_composite_score (self : HealthMetrics) : float :=
  let risk_contribution := (100 - risk_indicators_score self) * 0.10 in
  let composite :=
    engagement_score self * 0.35 +
    value_realization_score self * 0.30 +
    relationship_health_score self * 0.25 +
    risk_contribution in
  py_min 100 (py_max 0 composite).

(** [HealthMetrics.get_health_tier] *)
Definition get_health_tier (self : HealthMetrics) : HealthTier :=
  let score := calculate_composite_score self in
  if 80 <=? score then HEALTHY
  else if 60 <=? score then AT_RISK
  else if 40 <=? score then CRITICAL
  else RED_ALERT.

(** A value of a [success_metrics] dictionary. *)
Inductive PyValue : Type :=
| PyBool (b : bool)
| PyInt (n : Z)
| PyFloat (x : float)
| PyStr (s : string).

Record CustomerProfile : Type := mkCustomerProfile {
  customer_id : string;
  name : string;
  segment : string;                 (* enterprise, business, startup *)
  contract_value : float;
  start_date : datetime;
  renewal_date : datetime;
  industry : string;
  primary_contact : Dict.t string;
  success_manager : string;
  incident_impact_level : string;   (* high, medium, low *)
  current_health : option HealthMetrics;
  health_history : list HealthMetrics;
  is_post_incident : bool;
  last_engagement : option datetime;
  trust_rebuilding_required : bool;
  executive_escalation_required : bool
}.

(** The fields [status] and [success_metrics] of an action; the playbook's
    own [status] and [customer_id] carry the prefix [pb_]. *)
Record PlaybookAction : Type := mkPlaybookAction {
  action_id : string;
  title : string;
  description : string;
  assigned_to : string;
  due_date : datetime;
  priority : string;                (* high, medium, low *)
  estimated_effort_hours : Z;
  dependencies : list string;
  status : ActionStatus;
  completion_date : option datetime;
  outcome_notes : string;
  success_metrics : Dict.t PyValue
}.

Record RecoveryPlaybook : Type := mkRecoveryPlaybook {
  playbook_id : string;
  playbook_type : PlaybookType;
  pb_customer_id : string;
  triggered_by : string;
  triggered_at : datetime;
  target_completion_date : datetime;
  objectives : list string;
  success_criteria : Dict.t PyValue;
  actions : list PlaybookAction;
  pb_status : string;               (* active, completed, paused, cancelled *)
  completion_percentage : float;
  assigned_csm : string;
  executive_sponsor : option string;
  baseline_health_score : option float;
  current_health_score : option float;
  outcome_summary : string
}.

(** In-place assignments to the attributes of these objects. *)
Definition set_health (c : CustomerProfile) (h : HealthMetrics)
    (now : datetime) : CustomerProfile :=
  {| customer_id := customer_id c; name := name c; segment := segment c;
     contract_value := contract_value c; start_date := start_date c;
     renewal_date := renewal_date c; industry := industry c;
     primary_contact := primary_contact c;
     success_manager := success_manager c;
     incident_impact_level := incident_impact_level c;
     current_health := Some h;
     health_history := health_history c ++ [h];
     is_post_incident := is_post_incident c;
     last_engagement := Some now;
     trust_rebuilding_required := trust_rebuilding_required c;
     executive_escalation_required := executive_escalation_required c |}.

Definition set_executive_escalation_required (c : CustomerProfile)
    (b : bool) : CustomerProfile :=
  {| customer_id := customer_id c; name := name c; segment := segment c;
     contract_value := contract_value c; start_date := start_date c;
     renewal_date := renewal_date c; industry := industry c;
     primary_contact := primary_contact c;
     success_manager := success_manager c;
     incident_impact_level := incident_impact_level c;
     current_health := current_health c;
     health_history := health_history c;
     is_post_incident := is_post_incident c;
     last_engagement := last_engagement c;
     trust_rebuilding_required := trust_rebuilding_required c;
     executive_escalation_required := b |}.

(** [d.update(other)] *)
Definition dict_update {V : Type} (d other : Dict.t V) : Dict.t V :=
  fold_left (fun acc kv => Dict.set acc (fst kv) (snd kv)) other d.

(** The assignments of [update_playbook_action] to the action it found:
    [status], [outcome_notes], the completion stamp and the merged
    [success_metrics] ([None] and an empty dictionary merge nothing). *)
Definition update_action (a : PlaybookAction) (st : ActionStatus)
    (notes : string) (metrics : option (Dict.t PyValue)) (now : datetime)
    : PlaybookAction :=
  {| action_id := action_id a; title := title a;
     description := description a; assigned_to := assigned_to a;
     due_date := due_date a; priority := priority a;
     estimated_effort_hours := estimated_effort_hours a;
     dependencies := dependencies a;
     status := st;
     completion_date :=
       if ActionStatus_eqb st COMPLETED then Some now else completion_date a;
     outcome_notes := notes;
     success_metrics :=
       match metrics with
       | Some m => dict_update (success_metrics a) m
       | None => success_metrics a
       end |}.

Definition set_baseline_health_score (p : RecoveryPlaybook)
    (b : option float) : RecoveryPlaybook :=
  {| playbook_id := playbook_id p; playbook_type := playbook_type p;
     pb_customer_id := pb_customer_id p; triggered_by := triggered_by p;
     triggered_at := triggered_at p;
     target_completion_date := target_completion_date p;
     objectives := objectives p; success_criteria := success_criteria p;
     actions := actions p; pb_status := pb_status p;
     completion_percentage := completion_percentage p;
     assigned_csm := assigned_csm p;
     executive_sponsor := executive_sponsor p;
     baseline_health_score := b;
     current_health_score := current_health_score p;
     outcome_summary := outcome_summary p |}.

Definition set_actions (p : RecoveryPlaybook) (l : list PlaybookAction)
    (pct : float) : RecoveryPlaybook :=
  {| playbook_id := playbook_id p; playbook_type := playbook_type p;
     pb_customer_id := pb_customer_id p; triggered_by := triggered_by p;
     triggered_at := triggered_at p;
     target_completion_date := target_completion_date p;
     objectives := objectives p; success_criteria := success_criteria p;
     actions := l; pb_status := pb_status p;
     completion_percentage := pct;
     assigned_csm := assigned_csm p;
     executive_sponsor := executive_sponsor p;
     baseline_health_score := baseline_health_score p;
     current_health_score := current_health_score p;
     outcome_summary := outcome_summary p |}.

Definition set_outcome (p : RecoveryPlaybook) (st : string)
    (cur : option float) (summary : string) : RecoveryPlaybook :=
  {| playbook_id := playbook_id p; playbook_type := playbook_type p;
     pb_customer_id := pb_customer_id p; triggered_by := triggered_by p;
     triggered_at := triggered_at p;
     target_completion_date := target_completion_date p;
     objectives := objectives p; success_criteria := success_criteria p;
     actions := actions p; pb_status := st;
     completion_percentage := completion_percentage p;
     assigned_csm := assigned_csm p;
     executive_sponsor := executive_sponsor p;
     baseline_health_score := baseline_health_score p;
     current_health_score := cur;
     outcome_summary := summary |}.

(* ================================================================= *)
(** ** HealthScoreCalculator *)

Definition SignalBag := Dict.t float.

(** [self.weight_adjustments] *)
Definition weight_adjustments : Dict.t (Dict.t float) :=
  [ ("post_incident",
      [ ("relationship_health", 1.5); ("risk_indicators", 1.3) ]);
    ("enterprise",
      [ ("value_realization", 1.2); ("relationship_health", 1.1) ]) ].

(** [calculate_engagement_score] *)
Definition calculate_engagement_score (customer_data : SignalBag)
    : result float :=
  let score := 0 in
  let max_score := 100 in
  (* Login frequency (30 points) *)
  let login_frequency := Dict.get_default customer_data "logins_per_week" 0 in
  q <- truediv login_frequency 5 ;;
  let login_score := py_min 30 (q * 30) in
  let score := score + login_score in
  (* Feature adoption (25 points) *)
  let features_used := Dict.get_default customer_data "features_used" 0 in
  let total_features :=
    Dict.get_default customer_data "total_available_features" 10 in
  adoption_rate <-
    (if 0 <? total_features then truediv features_used total_features
     else Ok 0) ;;
  let adoption_score := adoption_rate * 25 in
  let score := score + adoption_score in
  (* Support interaction quality (20 points) *)
  let support_satisfaction :=
    Dict.get_default customer_data "support_satisfaction" 3.0 in
  q <- truediv (support_satisfaction - 1) 4 ;;
  let support_score := q * 20 in
  let score := score + support_score in
  (* Office hours participation (15 points) *)
  let office_hours_attendance :=
    Dict.get_default customer_data "office_hours_attendance_rate" 0 in
  let score := score + office_hours_attendance * 15 in
  (* Documentation/help usage (10 points) *)
  let help_usage := Dict.get_default customer_data "help_articles_viewed" 0 in
  q <- truediv help_usage 10 ;;
  let help_score := py_min 10 (q * 10) in
  let score := score + help_score in
  Ok (py_min max_score score).

(** [calculate_value_realization_score] *)
Definition calculate_value_realization_score (customer_data : SignalBag)
    : result float :=
  let score := 0 in
  let max_score := 100 in
  (* Goal achievement (40 points) *)
  let goals_achieved := Dict.get_default customer_data "goals_achieved" 0 in
  let total_goals := Dict.get_default customer_data "total_goals_set" 1 in
  goal_rate <-
    (if 0 <? total_goals then truediv goals_achieved total_goals
     else Ok 0) ;;
  let score := score + goal_rate * 40 in
  (* ROI metrics (30 points) *)
  let actual_roi := Dict.get_default customer_data "measured_roi" 0 in
  let expected_roi := Dict.get_default customer_data "expected_roi" 1 in
  roi_achievement <-
    (if 0 <? expected_roi
     then q <- truediv actual_roi expected_roi ;; Ok (py_min 1.0 q)
     else Ok 0) ;;
  let score := score + roi_achievement * 30 in
  (* Business outcome tracking (20 points) *)
  let outcomes_tracked :=
    Dict.get_default customer_data "business_outcomes_achieved" 0 in
  let score := score + py_min 20 (outcomes_tracked * 5) in
  (* Time to value achievement (10 points) *)
  let days_to_first_value :=
    Dict.get_default customer_data "days_to_first_value" 365 in
  let target_days :=
    Dict.get_default customer_data "target_days_to_value" 30 in
  q <- truediv (days_to_first_value - target_days) target_days ;;
  let time_score := py_max 0 (10 - q * 10) in
  let score := score + py_max 0 time_score in
  Ok (py_min max_score score).

(** [calculate_relationship_health_score] *)
Definition calculate_relationship_health_score (customer_data : SignalBag)
    : result float :=
  let score := 0 in
  let max_score := 100 in
  (* NPS/CSAT scores (35 points) *)
  let nps_score := Dict.get_default customer_data "nps_score" 0 in
  let csat_score := Dict.get_default customer_data "csat_score" 3.0 in
  nps_normalized <- truediv (nps_score + 100) 2 ;;
  q <- truediv nps_normalized 100 ;;
  let nps_contribution := q * 20 in
  q <- truediv (csat_score - 1) 4 ;;
  let csat_normalized := q * 100 in
  q <- truediv csat_normalized 100 ;;
  let csat_contribution := q * 15 in
  let score := score + (nps_contribution + csat_contribution) in
  (* Trust indicators (25 points) *)
  let trust_score := Dict.get_default customer_data "trust_index" 5.0 in
  q <- truediv (trust_score - 1) 9 ;;
  let trust_contribution := q * 25 in
  let score := score + trust_contribution in
  (* Stakeholder engagement (25 points) *)
  let stakeholder_engagement :=
    Dict.get_default customer_data "stakeholder_engagement_rate" 0.5 in
  let score := score + stakeholder_engagement * 25 in
  (* Communication responsiveness (15 points) *)
  let response_time_hours :=
    Dict.get_default customer_data "avg_response_time_hours" 48 in
  let target_response_hours := 24 in
  q <- truediv (response_time_hours - target_response_hours)
               target_response_hours ;;
  let responsiveness := py_max 0 (1 - q) in
  let score := score + responsiveness * 15 in
  Ok (py_min max_score score).

(** [calculate_risk_indicators_score] *)
Definition calculate_risk_indicators_score (customer_data : SignalBag)
    : result float :=
  let score := 0 in
  let max_score := 100 in
  (* Contract concerns (25 points) *)
  let contract_risk_level :=
    Dict.get_default customer_data "contract_risk_level" 0 in
  q <- truediv contract_risk_level 5 ;;
  let score := score + q * 25 in
  (* Payment issues (20 points) *)
  let payment_delays :=
    Dict.get_default customer_data "payment_delays_count" 0 in
  q <- truediv payment_delays 3 ;;
  let payment_risk := py_min 1.0 q in
  let score := score + payment_risk * 20 in
  (* Competitive activity (20 points) *)
  let competitive_activity :=
    Dict.get_default customer_data "competitive_evaluation" 0 in
  let score := if truthy competitive_activity then score + 20 else score in
  (* Usage decline (15 points) *)
  let usage_trend := Dict.get_default customer_data "usage_trend_30d" 0 in
  let score :=
    if usage_trend <? -0.2 then score + 15
    else if usage_trend <? -0.1 then score + 10
    else score in
  (* Support escalations (10 points) *)
  let escalations :=
    Dict.get_default customer_data "support_escalations_30d" 0 in
  q <- truediv escalations 3 ;;
  let escalation_risk := py_min 1.0 q in
  let score := score + escalation_risk * 10 in
  (* Team turnover (10 points) *)
  let key_contact_turnover :=
    Dict.get_default customer_data "key_contact_changes_90d" 0 in
  q <- truediv key_contact_turnover 2 ;;
  let turnover_risk := py_min 1.0 q in
  let score := score + turnover_risk * 10 in
  Ok (py_min max_score score).

(** [calculate_health_metrics] *)
Definition calculate_health_metrics (customer : CustomerProfile)
    (customer_data : SignalBag) (now : datetime) : result HealthMetrics :=
  engagement <- calculate_engagement_score customer_data ;;
  value_realization <- calculate_value_realization_score customer_data ;;
  relationship <- calculate_relationship_health_score customer_data ;;
  risk_indicators <- calculate_risk_indicators_score customer_data ;;
  (* Apply weight adjustments based on customer context *)
  let '(relationship, risk_indicators) :=
    if is_post_incident customer then
      let adjustments :=
        Dict.get_default weight_adjustments "post_incident" [] in
      (relationship * Dict.get_default adjustments "relationship_health" 1.0,
       risk_indicators * Dict.get_default adjustments "risk_indicators" 1.0)
    else (relationship, risk_indicators) in
  let '(value_realization, relationship) :=
    if String.eqb (segment customer) "enterprise" then
      let adjustments :=
        Dict.get_default weight_adjustments "enterprise" [] in
      (value_realization * Dict.get_default adjustments "value_realization" 1.0,
       relationship * Dict.get_default adjustments "relationship_health" 1.0)
    else (value_realization, relationship) in
  (* Ensure scores don't exceed 100 *)
  let engagement := py_min 100 engagement in
  let value_realization := py_min 100 value_realization in
  let relationship := py_min 100 relationship in
  let risk_indicators := py_min 100 risk_indicators in
  Ok {| engagement_score := engagement;
        value_realization_score := value_realization;
        relationship_health_score := relationship;
        risk_indicators_score := risk_indicators;
        calculated_at := now |}.

(* ================================================================= *)
(** ** The engine's state and its monad *)

Inductive LogLevel : Type := INFO | WARNING.

(** The records the module hands to [logger], by call site. *)
Inductive LogMessage : Type :=
| AddedCustomer (name cid : string)
| UpdatedHealth (name : string) (score : float) (tier : HealthTier)
| SignificantHealthDrop (name : string) (previous current : float)
| TriggeredPlaybook (t : PlaybookType) (name pid : string)
| PlaybookNotImplemented (t : PlaybookType)
| ExecutiveEscalationRequired (name reason : string)
| PlaybookAssigned (pid csm : string)
| UpdatedAction (aid pid : string) (st : ActionStatus)
| SignificantImprovement (pid : string) (improvement : float)
| ModestImprovement (pid : string) (improvement : float)
| NoImprovement (pid : string) (improvement : float)
| CompletedPlaybook (pid cid : string).

Record Engine : Type := mkEngine {
  customers : Dict.t CustomerProfile;
  active_playbooks : Dict.t RecoveryPlaybook;
  log : list (LogLevel * LogMessage)
}.

(** A method of the engine: it runs on the state, returns or raises, and
    leaves the state it reached. *)
Definition M (A : Type) : Type := Engine -> result A * Engine.

Definition ret {A : Type} (a : A) : M A := fun self => (Ok a, self).

Definition raise {A : Type} (e : exn) : M A := fun self => (Raise e, self).

Definition bindM {A B : Type} (m : M A) (k : A -> M B) : M B :=
  fun self =>
    match m self with
    | (Ok a, self') => k a self'
    | (Raise e, self') => (Raise e, self')
    end.

Definition lift {A : Type} (r : result A) : M A := fun self => (r, self).

Notation "x <~ m ;; k" := (bindM m (fun x => k))
  (at level 61, m at next level, right associativity).
Notation "m ;;; k" := (bindM m (fun _ => k))
  (at level 61, right associativity).

(** The three places of the state an assignment goes to. *)
Definition append_log (self : Engine) (r : LogLevel * LogMessage) : Engine :=
  {| customers := customers self;
     active_playbooks := active_playbooks self;
     log := log self ++ [r] |}.

Definition set_customer (self : Engine) (k : string) (c : CustomerProfile)
    : Engine :=
  {| customers := Dict.set (customers self) k c;
     active_playbooks := active_playbooks self;
     log := log self |}.

Definition set_playbook (self : Engine) (k : string) (p : RecoveryPlaybook)
    : Engine :=
  {| customers := customers self;
     active_playbooks := Dict.set (active_playbooks self) k p;
     log := log self |}.

Definition logger_info (msg : LogMessage) : M unit :=
  fun self => (Ok tt, append_log self (INFO, msg)).

Definition logger_warning (msg : LogMessage) : M unit :=
  fun self => (Ok tt, append_log self (WARNING, msg)).

(** [self.customers[k] = c] *)
Definition store_customer (k : string) (c : CustomerProfile) : M unit :=
  fun self => (Ok tt, set_customer self k c).

(** [self.active_playbooks[k] = p] *)
Definition store_playbook (k : string) (p : RecoveryPlaybook) : M unit :=
  fun self => (Ok tt, set_playbook self k p).

(** [a / b] on Python ints: [ZeroDivisionError] when [b == 0]. *)
Definition int_truediv (a b : nat) : result float :=
  match b with
  | O => Raise ZeroDivisionError
  | S _ => Ok (float_of_nat a / float_of_nat b)
  end.

(** [timedelta(days=n)], in seconds. *)
Definition days (n : Z) : Z := (n * 86400)%Z.
Definition weeks (n : Z) : Z := (n * 7 * 86400)%Z.

(** [CustomerSuccessEngine.__init__] *)
Definition init : Engine :=
  {| customers := Dict.empty; active_playbooks := Dict.empty; log := [] |}.

(** The first action with the given id: [next((a for a in ... ), None)]. *)
Definition find_action (aid : string) (l : list PlaybookAction)
    : option PlaybookAction :=
  find (fun a => String.eqb (action_id a) aid) l.

(** The action list after the in-place update of the action found. *)
Fixpoint replace_action (aid : string) (f : PlaybookAction -> PlaybookAction)
    (l : list PlaybookAction) : list PlaybookAction :=
  match l with
  | [] => []
  | a :: l' =>
      if String.eqb (action_id a) aid then f a :: l'
      else a :: replace_action aid f l'
  end.

(** [sum(1 for a in playbook.actions if a.status == ActionStatus.COMPLETED)] *)
Definition completed_count (l : list PlaybookAction) : nat :=
  List.length (filter (fun a => ActionStatus_eqb (status a) COMPLETED) l).

(* ================================================================= *)
(** ** PlaybookLibrary and CustomerSuccessEngine *)

(** Library functions the module calls and that are no part of it:
    [datetime.strftime('%Y%m%d')], the format specification [:.1f],
    [numpy.mean] and the built-in [round(x, 2)]. *)
Class Library : Type := mkLibrary {
  strftime_Ymd : datetime -> string;
  format_1f : float -> string;
  np_mean : list float -> float;
  round2 : float -> float
}.

Section Engine.
Context {lib : Library}.

(** [PlaybookLibrary.create_post_incident_recovery_playbook] *)
Definition create_post_incident_recovery_playbook
    (customer : CustomerProfile) (now : datetime) : RecoveryPlaybook :=
  let actions := [
    {| action_id := "pir_001";
       title := "Executive Apology Call";
       description := "Schedule and conduct executive-level apology call with customer leadership";
       assigned_to := "executive-team@company.com";
       due_date := (now + days 2)%Z;
       priority := "high";
       estimated_effort_hours := 2;
       dependencies := [];
       status := PENDING;
       completion_date := None;
       outcome_notes := EmptyString;
       success_metrics :=
         [("call_completed", PyBool false); ("trust_score_impact", PyInt 0)] |};
    {| action_id := "pir_002";
       title := "Detailed Incident Post-Mortem Sharing";
       description := "Share comprehensive post-mortem with customer including prevention measures";
       assigned_to := success_manager customer;
       due_date := (now + days 5)%Z;
       priority := "high";
       estimated_effort_hours := 4;
       dependencies := [];
       status := PENDING;
       completion_date := None;
       outcome_notes := EmptyString;
       success_metrics :=
         [("post_mortem_shared", PyBool false);
          ("customer_feedback_received", PyBool false)] |};
    {| action_id := "pir_003";
       title := "Trust Rebuilding Sessions";
       description := "Conduct weekly trust rebuilding sessions with customer stakeholders";
       assigned_to := success_manager customer;
       due_date := (now + weeks 4)%Z;
       priority := "medium";
       estimated_effort_hours := 16;
       dependencies := [];
       status := PENDING;
       completion_date := None;
       outcome_notes := EmptyString;
       success_metrics :=
         [("sessions_completed", PyInt 0);
          ("trust_score_improvement", PyInt 0)] |};
    {| action_id := "pir_004";
       title := "Enhanced Monitoring Setup";
       description := "Implement customer-specific monitoring and alerting";
       assigned_to := "engineering-team@company.com";
       due_date := (now + days 7)%Z;
       priority := "high";
       estimated_effort_hours := 8;
       dependencies := [];
       status := PENDING;
       completion_date := None;
       outcome_notes := EmptyString;
       success_metrics :=
         [("monitoring_implemented", PyBool false);
          ("customer_dashboard_access", PyBool false)] |};
    {| action_id := "pir_005";
       title := "Value Recovery Demonstration";
       description := "Demonstrate renewed value delivery through success metrics review";
       assigned_to := success_manager customer;
       due_date := (now + days 14)%Z;
       priority := "medium";
       estimated_effort_hours := 6;
       dependencies := [];
       status := PENDING;
       completion_date := None;
       outcome_notes := EmptyString;
       success_metrics :=
         [("value_demonstration_completed", PyBool false);
          ("roi_improvement_shown", PyBool false)] |} ] in
  {| playbook_id := "PIR-" ++ customer_id customer ++ "-" ++ strftime_Ymd now;
     playbook_type := POST_INCIDENT_RECOVERY;
     pb_customer_id := customer_id customer;
     triggered_by := "incident_impact";
     triggered_at := now;
     target_completion_date := (now + days 30)%Z;
     objectives := [
       "Restore customer trust and confidence";
       "Demonstrate commitment to reliability";
       "Strengthen relationship through transparency";
       "Prevent customer churn";
       "Position for future expansion" ];
     success_criteria := [
       ("trust_score_target", PyFloat 7.0);
       ("health_score_target", PyFloat 75.0);
       ("renewal_probability_target", PyFloat 0.85);
       ("nps_improvement_target", PyInt 20) ];
     actions := actions;
     pb_status := "active";
     completion_percentage := 0.0;
     assigned_csm := success_manager customer;
     executive_sponsor := None;
     baseline_health_score := None;
     current_health_score := None;
     outcome_summary := EmptyString |}.

(** [PlaybookLibrary.create_engagement_revival_playbook] *)
Definition create_engagement_revival_playbook
    (customer : CustomerProfile) (now : datetime) : RecoveryPlaybook :=
  let actions := [
    {| action_id := "er_001";
       title := "Usage Pattern Analysis";
       description := "Analyze customer usage patterns to identify engagement barriers";
       assigned_to := success_manager customer;
       due_date := (now + days 3)%Z;
       priority := "high";
       estimated_effort_hours := 4;
       dependencies := [];
       status := PENDING;
       completion_date := None;
       outcome_notes := EmptyString;
       success_metrics :=
         [("analysis_completed", PyBool false);
          ("barriers_identified", PyInt 0)] |};
    {| action_id := "er_002";
       title := "Personalized Training Program";
       description := "Design and deliver personalized training based on usage gaps";
       assigned_to := "training-team@company.com";
       due_date := (now + days 10)%Z;
       priority := "high";
       estimated_effort_hours := 12;
       dependencies := [];
       status := PENDING;
       completion_date := None;
       outcome_notes := EmptyString;
       success_metrics :=
         [("training_sessions_delivered", PyInt 0);
          ("feature_adoption_increase", PyInt 0)] |};
    {| action_id := "er_003";
       title := "Champion Identification Program";
       description := "Identify and develop internal champions within customer organization";
       assigned_to := success_manager customer;
       due_date := (now + days 14)%Z;
       priority := "medium";
       estimated_effort_hours := 8;
       dependencies := [];
       status := PENDING;
       completion_date := None;
       outcome_notes := EmptyString;
       success_metrics :=
         [("champions_identified", PyInt 0);
          ("champion_training_completed", PyBool false)] |};
    {| action_id := "er_004";
       title := "Integration Optimization";
       description := "Optimize existing integrations and identify new integration opportunities";
       assigned_to := "technical-team@company.com";
       due_date := (now + days 21)%Z;
       priority := "medium";
       estimated_effort_hours := 16;
       dependencies := [];
       status := PENDING;
       completion_date := None;
       outcome_notes := EmptyString;
       success_metrics :=
         [("integrations_optimized", PyInt 0);
          ("new_integrations_implemented", PyInt 0)] |} ] in
  {| playbook_id := "ER-" ++ customer_id customer ++ "-" ++ strftime_Ymd now;
     playbook_type := ENGAGEMENT_REVIVAL;
     pb_customer_id := customer_id customer;
     triggered_by := "low_engagement_score";
     triggered_at := now;
     target_completion_date := (now + days 28)%Z;
     objectives := [
       "Increase product engagement and adoption";
       "Improve user experience and satisfaction";
       "Develop internal champions";
       "Optimize workflow integration" ];
     success_criteria := [
       ("engagement_score_target", PyFloat 80.0);
       ("login_frequency_target", PyFloat 5.0);
       ("feature_adoption_target", PyFloat 0.7) ];
     actions := actions;
     pb_status := "active";
     completion_percentage := 0.0;
     assigned_csm := success_manager customer;
     executive_sponsor := None;
     baseline_health_score := None;
     current_health_score := None;
     outcome_summary := EmptyString |}.

(** [add_customer] *)
Definition add_customer (customer : CustomerProfile) : M unit :=
  store_customer (customer_id customer) customer ;;;
  logger_info (AddedCustomer (name customer) (customer_id customer)).

(** [_has_active_playbook] *)
Definition _has_active_playbook (customer_id : string)
    (playbook_type' : PlaybookType) : M bool :=
  fun self =>
    (Ok (existsb
           (fun pb =>
              String.eqb (pb_customer_id pb) customer_id &&
              PlaybookType_eqb (playbook_type pb) playbook_type' &&
              String.eqb (pb_status pb) "active")
           (Dict.values (active_playbooks self))),
     self).

(** [_notify_playbook_assignment] *)
Definition _notify_playbook_assignment (playbook : RecoveryPlaybook)
    : M unit :=
  logger_info (PlaybookAssigned (playbook_id playbook) (assigned_csm playbook)).

(** [_trigger_playbook] *)
Definition _trigger_playbook (customer : CustomerProfile)
    (playbook_type' : PlaybookType) (now : datetime) : M unit :=
  let instantiate (playbook : RecoveryPlaybook) : M unit :=
    (* Set baseline health score *)
    let playbook :=
      match current_health customer with
      | Some h =>
          set_baseline_health_score playbook
            (Some (calculate_composite_score h))
      | None => playbook
      end in
    store_playbook (playbook_id playbook) playbook ;;;
    logger_info (TriggeredPlaybook playbook_type' (name customer)
                   (playbook_id playbook)) ;;;
    (* Notify assigned team *)
    _notify_playbook_assignment playbook in
  match playbook_type' with
  | POST_INCIDENT_RECOVERY =>
      instantiate (create_post_incident_recovery_playbook customer now)
  | ENGAGEMENT_REVIVAL =>
      instantiate (create_engagement_revival_playbook customer now)
  | _ => logger_warning (PlaybookNotImplemented playbook_type')
  end.

(** [_escalate_to_executive]; the profile it returns is the object after
    the assignment. *)
Definition _escalate_to_executive (customer : CustomerProfile)
    (reason : string) : M CustomerProfile :=
  let customer := set_executive_escalation_required customer true in
  logger_warning (ExecutiveEscalationRequired (name customer) reason) ;;;
  ret customer.

(** One guarded rule of [_check_playbook_triggers]. *)
Definition ensure_playbook (customer : CustomerProfile)
    (playbook_type' : PlaybookType) (now : datetime) : M unit :=
  active <~ _has_active_playbook (customer_id customer) playbook_type' ;;
  if negb active then _trigger_playbook customer playbook_type' now
  else ret tt.

(** [_check_playbook_triggers]; the profile it returns is the object
    after the call. *)
Definition _check_playbook_triggers (customer : CustomerProfile)
    (previous_health : option HealthMetrics) (new_health : HealthMetrics)
    (now : datetime) : M CustomerProfile :=
  let current_tier := get_health_tier new_health in
  (* Post-incident recovery for customers still affected *)
  (if is_post_incident customer && trust_rebuilding_required customer
   then ensure_playbook customer POST_INCIDENT_RECOVERY now
   else ret tt) ;;;
  (* Critical/Red Alert health scores *)
  (match current_tier with
   | CRITICAL | RED_ALERT => ensure_playbook customer CHURN_PREVENTION now
   | _ => ret tt
   end) ;;;
  (* Low engagement specific triggers *)
  (if engagement_score new_health <? 60
   then ensure_playbook customer ENGAGEMENT_REVIVAL now
   else ret tt) ;;;
  (* Low value realization triggers *)
  (if value_realization_score new_health <? 50
   then ensure_playbook customer VALUE_ACCELERATION now
   else ret tt) ;;;
  (* Significant health drop triggers *)
  match previous_health with
  | Some previous_health =>
      let previous_score := calculate_composite_score previous_health in
      let current_score := calculate_composite_score new_health in
      if current_score <? previous_score - 15 then
        logger_warning (SignificantHealthDrop (name customer)
                          previous_score current_score) ;;;
        _escalate_to_executive customer "significant_health_drop"
      else ret customer
  | None => ret customer
  end.

(** [update_customer_health] *)
Definition update_customer_health (customer_id : string)
    (customer_data : SignalBag) (now : datetime) : M HealthMetrics :=
  fun self =>
    match Dict.get (customers self) customer_id with
    | None =>
        (Raise (ValueError ("Customer " ++ customer_id ++ " not found")), self)
    | Some customer =>
        (* Calculate new health metrics *)
        (new_health <~
           lift (calculate_health_metrics customer customer_data now) ;;
         (* Store previous health for comparison *)
         let previous_health := current_health customer in
         let customer := set_health customer new_health now in
         store_customer customer_id customer ;;;
         (* Check for playbook triggers *)
         customer <~
           _check_playbook_triggers customer previous_health new_health now ;;
         store_customer customer_id customer ;;;
         logger_info (UpdatedHealth (name customer)
                        (calculate_composite_score new_health)
                        (get_health_tier new_health)) ;;;
         ret new_health) self
    end.

(** [_complete_playbook]; the playbook it returns is the object after the
    call. *)
Definition _complete_playbook (playbook : RecoveryPlaybook)
    : M RecoveryPlaybook :=
  fun self =>
    let playbook :=
      set_outcome playbook "completed"
        (current_health_score playbook) (outcome_summary playbook) in
    (* Get current customer health for comparison *)
    let customer := Dict.get (customers self) (pb_customer_id playbook) in
    (playbook <~
       match customer with
       | Some {| current_health := Some h |} =>
           let current := calculate_composite_score h in
           let playbook :=
             set_outcome playbook (pb_status playbook) (Some current)
               (outcome_summary playbook) in
           (* Calculate improvement *)
           match baseline_health_score playbook with
           | Some baseline =>
               if truthy baseline then
                 let improvement := current - baseline in
                 let playbook :=
                   set_outcome playbook (pb_status playbook)
                     (current_health_score playbook)
                     ("Health score improved by " ++ format_1f improvement
                        ++ " points") in
                 (if 10 <=? improvement then
                    logger_info (SignificantImprovement
                                   (playbook_id playbook) improvement)
                  else if 0 <=? improvement then
                    logger_info (ModestImprovement
                                   (playbook_id playbook) improvement)
                  else
                    logger_warning (NoImprovement
                                      (playbook_id playbook) improvement)) ;;;
                 ret playbook
               else ret playbook
           | None => ret playbook
           end
       | _ => ret playbook
       end ;;
     logger_info (CompletedPlaybook (playbook_id playbook)
                    (pb_customer_id playbook)) ;;;
     ret playbook) self.

(** [update_playbook_action]; the playbook found under [playbook_id] is
    the object the assignments go to. *)
Definition update_playbook_action (playbook_id' action_id' : string)
    (status' : ActionStatus) (outcome_notes' : string)
    (success_metrics' : option (Dict.t PyValue)) (now : datetime) : M unit :=
  fun self =>
    match Dict.get (active_playbooks self) playbook_id' with
    | None =>
        (Raise (ValueError ("Playbook " ++ playbook_id' ++ " not found")),
         self)
    | Some playbook =>
        match find_action action_id' (actions playbook) with
        | None =>
            (Raise (ValueError ("Action " ++ action_id' ++
                                " not found in playbook " ++ playbook_id')),
             self)
        | Some _ =>
            let actions' :=
              replace_action action_id'
                (fun a => update_action a status' outcome_notes'
                            success_metrics' now)
                (actions playbook) in
            (* Update playbook completion percentage *)
            let completed_actions := completed_count actions' in
            (q <~ lift (int_truediv completed_actions
                          (List.length actions')) ;;
             let playbook := set_actions playbook actions' (q * 100) in
             store_playbook playbook_id' playbook ;;;
             logger_info (UpdatedAction action_id' playbook_id' status') ;;;
             (* Check if playbook is complete *)
             if completion_percentage playbook =? 100 then
               playbook <~ _complete_playbook playbook ;;
               store_playbook playbook_id' playbook
             else ret tt) self
        end
    end.

(** *** Reports *)

(** [health_distribution]: a counter per tier. *)
Record TierCounts : Type := mkTierCounts {
  healthy : nat;
  at_risk : nat;
  critical : nat;
  red_alert : nat
}.

Definition incr_tier (d : TierCounts) (t : HealthTier) : TierCounts :=
  match t with
  | HEALTHY => {| healthy := S (healthy d); at_risk := at_risk d;
                  critical := critical d; red_alert := red_alert d |}
  | AT_RISK => {| healthy := healthy d; at_risk := S (at_risk d);
                  critical := critical d; red_alert := red_alert d |}
  | CRITICAL => {| healthy := healthy d; at_risk := at_risk d;
                   critical := S (critical d); red_alert := red_alert d |}
  | RED_ALERT => {| healthy := healthy d; at_risk := at_risk d;
                    critical := critical d; red_alert := S (red_alert d) |}
  end.

Record Effectiveness : Type := mkEffectiveness {
  total_triggered : nat;
  completed : nat;
  successful : nat;
  success_rate : float;
  avg_completion_percentage : float
}.

Record RecoveryMetrics : Type := mkRecoveryMetrics {
  average_health_improvement : float;
  customers_with_improvement : nat;
  customers_with_decline : nat;
  significant_improvements : nat
}.

Record Report : Type := mkReport {
  report_generated_at : datetime;
  total_customers : nat;
  post_incident_customers : nat;
  health_distribution : TierCounts;
  report_active_playbooks : nat;
  recovery_metrics : RecoveryMetrics;
  playbook_effectiveness : list (PlaybookType * Effectiveness)
}.

(** The members of [PlaybookType], in definition order. *)
Definition all_playbook_types : list PlaybookType :=
  [ POST_INCIDENT_RECOVERY; ENGAGEMENT_REVIVAL; VALUE_ACCELERATION;
    CHURN_PREVENTION; TRUST_REBUILDING ].

(** The filter of the [successful] comprehension. *)
Definition is_successful (pb : RecoveryPlaybook) : bool :=
  match current_health_score pb, baseline_health_score pb with
  | Some current, Some baseline =>
      truthy current && truthy baseline && (baseline <? current)
  | _, _ => false
  end.

(** [_calculate_playbook_effectiveness]; [len(completed)] is not zero
    where the rate divides by it. *)
Definition _calculate_playbook_effectiveness (self : Engine)
    : list (PlaybookType * Effectiveness) :=
  flat_map
    (fun playbook_type' =>
       let relevant_playbooks :=
         filter (fun pb => PlaybookType_eqb (playbook_type pb) playbook_type')
                (Dict.values (active_playbooks self)) in
       match relevant_playbooks with
       | [] => []
       | _ :: _ =>
           let completed' :=
             filter (fun pb => String.eqb (pb_status pb) "completed")
                    relevant_playbooks in
           let successful' := filter is_successful completed' in
           [ (playbook_type',
              {| total_triggered := List.length relevant_playbooks;
                 completed := List.length completed';
                 successful := List.length successful';
                 success_rate :=
                   match completed' with
                   | [] => 0
                   | _ :: _ =>
                       float_of_nat (List.length successful') /
                       float_of_nat (List.length completed')
                   end;
                 avg_completion_percentage :=
                   np_mean (map completion_percentage relevant_playbooks)
              |}) ]
       end)
    all_playbook_types.

(** The loop of [generate_recovery_report] over [customers]: one step on
    its three accumulators. *)
Definition report_step
    (acc : TierCounts * nat * list float) (customer : CustomerProfile)
    : TierCounts * nat * list float :=
  let '(health_distribution', post_incident_customers', health_improvements)
    := acc in
  match current_health customer with
  | Some h =>
      let tier := get_health_tier h in
      let health_distribution' := incr_tier health_distribution' tier in
      if is_post_incident customer then
        let post_incident_customers' := S post_incident_customers' in
        (* Calculate improvement from first recorded health *)
        match health_history customer with
        | first :: _ :: _ =>
            let initial_score := calculate_composite_score first in
            let current_score := calculate_composite_score h in
            let improvement := current_score - initial_score in
            (health_distribution', post_incident_customers',
             (health_improvements ++ [improvement])%list)
        | _ =>
            (health_distribution', post_incident_customers',
             health_improvements)
        end
      else (health_distribution', post_incident_customers',
            health_improvements)
  | None => acc
  end.

(** [generate_recovery_report]; an empty [customer_id] is false like
    [None]. [round(0, 2)] of the integer [0] is [0]. *)
Definition generate_recovery_report (self : Engine)
    (customer_id : option string) (now : datetime) : Report :=
  let customers' :=
    match customer_id with
    | Some (String c s) =>
        match Dict.get (customers self) (String c s) with
        | Some customer => [customer]
        | None => []
        end
    | _ => Dict.values (customers self)
    end in
  let '(health_distribution', post_incident_customers', health_improvements)
    := fold_left report_step customers'
         ({| healthy := 0; at_risk := 0; critical := 0; red_alert := 0 |},
          O, []) in
  (* Count active playbooks *)
  let active_playbooks_count :=
    List.length
      (filter (fun pb => String.eqb (pb_status pb) "active")
              (Dict.values (active_playbooks self))) in
  (* Calculate averages *)
  let avg_health_improvement :=
    match health_improvements with
    | [] => 0
    | _ :: _ => round2 (np_mean health_improvements)
    end in
  {| report_generated_at := now;
     total_customers := List.length customers';
     post_incident_customers := post_incident_customers';
     health_distribution := health_distribution';
     report_active_playbooks := active_playbooks_count;
     recovery_metrics :=
       {| average_health_improvement := avg_health_improvement;
          customers_with_improvement :=
            List.length (filter (fun i => 0 <? i) health_improvements);
          customers_with_decline :=
            List.length (filter (fun i => i <? 0) health_improvements);
          significant_improvements :=
            List.length (filter (fun i => 15 <=? i) health_improvements) |};
     playbook_effectiveness := _calculate_playbook_effectiveness self |}.

End Engine.

(* ================================================================= *)
(** ** Vocabulary of the properties *)

Section Vocabulary.
Context {lib : Library}.

(** The test of [_has_active_playbook] on one playbook. *)
Definition is_active_for (cid : string) (t : PlaybookType)
    (pb : RecoveryPlaybook) : bool :=
  String.eqb (pb_customer_id pb) cid &&
  PlaybookType_eqb (playbook_type pb) t &&
  String.eqb (pb_status pb) "active".

(** How many registered playbooks are active for a customer and a kind. *)
Definition active_count (self : Engine) (cid : string) (t : PlaybookType)
    : nat :=
  List.length
    (filter (is_active_for cid t) (Dict.values (active_playbooks self))).

Definition at_most_one_active (self : Engine) : Prop :=
  forall cid t, active_count self cid t <= 1.

(** [_has_active_playbook] as a function of the registry. *)
Definition has_active (d : Dict.t RecoveryPlaybook) (cid : string)
    (t : PlaybookType) : bool :=
  existsb (is_active_for cid t) (Dict.values d).

(** One call of a public method, whether it returns or raises. *)
Inductive step : Engine -> Engine -> Prop :=
| step_add_customer : forall c self,
    step self (snd (add_customer c self))
| step_update_customer_health : forall cid data now self,
    step self (snd (update_customer_health cid data now self))
| step_update_playbook_action : forall pid aid st notes metrics now self,
    step self (snd (update_playbook_action pid aid st notes metrics now self)).

(** The states of an engine built by [__init__] and driven through its
    public methods. *)
Inductive reachable : Engine -> Prop :=
| reachable_init : reachable init
| reachable_step : forall self self',
    reachable self -> step self self' -> reachable self'.

(** Calls of the two updating entry points only. *)
Inductive update_step : Engine -> Engine -> Prop :=
| update_step_health : forall cid data now self,
    update_step self (snd (update_customer_health cid data now self))
| update_step_action : forall pid aid st notes metrics now self,
    update_step self
      (snd (update_playbook_action pid aid st notes metrics now self)).

Inductive updates : Engine -> Engine -> Prop :=
| updates_refl : forall self, updates self self
| updates_step : forall self self' self'',
    updates self self' -> update_step self' self'' -> updates self self''.

(** The derivation of [completion_percentage] from an action list. *)
Definition percentage_of (l : list PlaybookAction) : float :=
  float_of_nat (completed_count l) / float_of_nat (List.length l) * 100.

Definition all_completed (l : list PlaybookAction) : Prop :=
  Forall (fun a => status a = COMPLETED) l.

(** A status change along Pending, InProgress, Completed. *)
Definition forward (old new : ActionStatus) : bool :=
  match old, new with
  | PENDING, (PENDING | IN_PROGRESS | COMPLETED)
  | IN_PROGRESS, (IN_PROGRESS | COMPLETED)
  | COMPLETED, COMPLETED => true
  | _, _ => false
  end.

(** A call of [update_playbook_action] that returns and moves its action
    forward, and the sequences of such calls. *)
Inductive forward_step : Engine -> Engine -> Prop :=
| forward_step_intro :
    forall pid aid st notes metrics now self self' pb a,
      Dict.get (active_playbooks self) pid = Some pb ->
      find_action aid (actions pb) = Some a ->
      forward (status a) st = true ->
      update_playbook_action pid aid st notes metrics now self
        = (Ok tt, self') ->
      forward_step self self'.

Inductive forward_run : Engine -> Engine -> Prop :=
| forward_run_refl : forall self, forward_run self self
| forward_run_step : forall self self' self'',
    forward_run self self' -> forward_step self' self'' ->
    forward_run self self''.

(** What the templates and the lifecycle maintain of a registered
    playbook: four or five actions, and a percentage that is the one
    derived from them. *)
Definition playbook_ok (pb : RecoveryPlaybook) : Prop :=
  (List.length (actions pb) = 4%nat \/ List.length (actions pb) = 5%nat) /\
  completion_percentage pb = percentage_of (actions pb).

Definition playbooks_ok (self : Engine) : Prop :=
  Forall playbook_ok (Dict.values (active_playbooks self)).

(** A playbook as a template hands it to the registry. *)
Definition fresh_playbook (pb : RecoveryPlaybook) (cid : string)
    (t : PlaybookType) : Prop :=
  pb_customer_id pb = cid /\ playbook_type pb = t /\
  pb_status pb = "active" /\ current_health_score pb = None /\
  outcome_summary pb = EmptyString /\ playbook_ok pb.

(** The test of the drop rule of [_check_playbook_triggers]. *)
Definition significant_drop (previous_health : option HealthMetrics)
    (new_health : HealthMetrics) : bool :=
  match previous_health with
  | Some p =>
      calculate_composite_score new_health <?
      calculate_composite_score p - 15
  | None => false
  end.

(** The record [_escalate_to_executive] logs. *)
Definition is_escalation (r : LogLevel * LogMessage) : bool :=
  match snd r with
  | ExecutiveEscalationRequired _ _ => true
  | _ => false
  end.

(** The records the trigger rules log. *)
Definition is_trigger_msg (msg : LogMessage) : bool :=
  match msg with
  | TriggeredPlaybook _ _ _ | PlaybookAssigned _ _
  | PlaybookNotImplemented _ => true
  | _ => false
  end.

(** A relation between states that the trigger rules of a customer
    establish: it is a preorder, and it holds across a logged trigger
    record and across the registration of a fresh playbook of a kind the
    customer has no active playbook of. *)
Definition trigger_closed (cid : string) (R : Engine -> Engine -> Prop)
    : Prop :=
  (forall s, R s s) /\
  (forall s1 s2 s3, R s1 s2 -> R s2 s3 -> R s1 s3) /\
  (forall s lvl msg, is_trigger_msg msg = true ->
                     R s (append_log s (lvl, msg))) /\
  (forall s t pb,
     fresh_playbook pb cid t ->
     has_active (active_playbooks s) cid t = false ->
     R s (set_playbook s (playbook_id pb) pb)).

(** A sub-score that is at most 100, when there is one. *)
Definition at_most_100 (r : result float) : Prop :=
  match r with
  | Ok v => (v <=? 100) = true
  | Raise _ => True
  end.

Definition returns {A : Type} (r : result A) : Prop :=
  exists a, r = Ok a.

(** The four calculators. *)
Definition calculators : list (SignalBag -> result float) :=
  [ calculate_engagement_score; calculate_value_realization_score;
    calculate_relationship_health_score; calculate_risk_indicators_score ].

(** The default of every signal, as the calls of [customer_data.get]
    give them. *)
Definition signal_defaults : Dict.t float :=
  [ ("logins_per_week", 0); ("features_used", 0);
    ("total_available_features", 10); ("support_satisfaction", 3.0);
    ("office_hours_attendance_rate", 0); ("help_articles_viewed", 0);
    ("goals_achieved", 0); ("total_goals_set", 1); ("measured_roi", 0);
    ("expected_roi", 1); ("business_outcomes_achieved", 0);
    ("days_to_first_value", 365); ("target_days_to_value", 30);
    ("nps_score", 0); ("csat_score", 3.0); ("trust_index", 5.0);
    ("stakeholder_engagement_rate", 0.5); ("avg_response_time_hours", 48);
    ("contract_risk_level", 0); ("payment_delays_count", 0);
    ("competitive_evaluation", 0); ("usage_trend_30d", 0);
    ("support_escalations_30d", 0); ("key_contact_changes_90d", 0) ].

(** A result that is no [ValueError]. *)
Definition not_value_error {A : Type} (r : result A) : Prop :=
  match r with
  | Raise (ValueError _) => False
  | _ => True
  end.

(** The customers a report covers. *)
Definition reported_customers (self : Engine) (customer_id : option string)
    : list CustomerProfile :=
  match customer_id with
  | Some (String c s) =>
      match Dict.get (customers self) (String c s) with
      | Some customer => [customer]
      | None => []
      end
  | _ => Dict.values (customers self)
  end.

(** The customers whose improvement the report averages, and the
    improvement of one. *)
Definition has_improvement (c : CustomerProfile) : bool :=
  match current_health c with
  | Some _ => is_post_incident c && (2 <=? List.length (health_history c))%nat
  | None => false
  end.

Definition improvement_of (c : CustomerProfile) : float :=
  match current_health c, health_history c with
  | Some h, first :: _ =>
      calculate_composite_score h - calculate_composite_score first
  | _, _ => 0
  end.

(** The improvements as the specification words them: latest minus first
    composite of every customer with at least two history entries. *)
Definition spec_has_improvement (c : CustomerProfile) : bool :=
  (2 <=? List.length (health_history c))%nat.

Definition spec_improvement_of (c : CustomerProfile) : float :=
  match health_history c with
  | first :: _ =>
      calculate_composite_score (last (health_history c) first) -
      calculate_composite_score first
  | [] => 0
  end.

Definition spec_health_improvements (self : Engine) : list float :=
  map spec_improvement_of
    (filter spec_has_improvement (Dict.values (customers self))).

(** Completed playbooks of a kind, and those of them whose recorded
    current score is above the recorded baseline. *)
Definition completed_of (self : Engine) (t : PlaybookType)
    : list RecoveryPlaybook :=
  filter (fun pb => PlaybookType_eqb (playbook_type pb) t &&
                    String.eqb (pb_status pb) "completed")
         (Dict.values (active_playbooks self)).

Definition score_improved (pb : RecoveryPlaybook) : bool :=
  match current_health_score pb, baseline_health_score pb with
  | Some current, Some baseline => baseline <? current
  | _, _ => false
  end.

(** No recorded score of a playbook is zero. *)
Definition recorded_nonzero (x : option float) : Prop :=
  forall v, x = Some v -> truthy v = true.

Definition scores_nonzero (self : Engine) : Prop :=
  Forall (fun pb => recorded_nonzero (current_health_score pb) /\
                    recorded_nonzero (baseline_health_score pb))
         (Dict.values (active_playbooks self)).

End Vocabulary.

(* ================================================================= *)
(** ** A run of the engine *)

(** Stand-ins for the library functions in the concrete runs below. *)
Definition example_library : Library :=
  {| strftime_Ymd := fun _ => "20250101";
     format_1f := fun _ => "0.0";
     np_mean := fun l => fold_left PrimFloat.add l 0 / float_of_nat (List.length l);
     round2 := fun x => x |}.

(** The first customer and the first signals of
    [demonstrate_health_scoring_system]. *)
Definition enterprise_customer : CustomerProfile :=
  {| customer_id := "CUST-001";
     name := "TechCorp Enterprise";
     segment := "enterprise";
     contract_value := 500000;
     start_date := 0%Z;
     renewal_date := days 455%Z;
     industry := "Technology";
     primary_contact :=
       [("name", "Sarah Johnson"); ("email", "sarah.johnson@techcorp.com");
        ("role", "CTO")];
     success_manager := "csm-sarah@company.com";
     incident_impact_level := "high";
     current_health := None;
     health_history := [];
     is_post_incident := true;
     last_engagement := None;
     trust_rebuilding_required := true;
     executive_escalation_required := false |}.

Definition enterprise_data : SignalBag :=
  [ ("logins_per_week", 3); ("features_used", 6);
    ("total_available_features", 15); ("support_satisfaction", 2.5);
    ("office_hours_attendance_rate", 0.8); ("help_articles_viewed", 12);
    ("goals_achieved", 2); ("total_goals_set", 5); ("measured_roi", 1.2);
    ("expected_roi", 2.0); ("business_outcomes_achieved", 3);
    ("days_to_first_value", 45); ("target_days_to_value", 30);
    ("nps_score", -20); ("csat_score", 2.8); ("trust_index", 3.5);
    ("stakeholder_engagement_rate", 0.6); ("avg_response_time_hours", 36);
    ("contract_risk_level", 3); ("payment_delays_count", 0);
    ("competitive_evaluation", 1); ("usage_trend_30d", -0.15);
    ("support_escalations_30d", 2); ("key_contact_changes_90d", 1) ].

(** Signals of a customer in good health. *)
Definition healthy_data : SignalBag :=
  [ ("logins_per_week", 5); ("features_used", 9);
    ("total_available_features", 10); ("support_satisfaction", 4.5);
    ("office_hours_attendance_rate", 0.9); ("help_articles_viewed", 10);
    ("goals_achieved", 4); ("total_goals_set", 4); ("measured_roi", 2.0);
    ("expected_roi", 2.0); ("business_outcomes_achieved", 4);
    ("days_to_first_value", 30); ("target_days_to_value", 30);
    ("nps_score", 60); ("csat_score", 4.5); ("trust_index", 8.0);
    ("stakeholder_engagement_rate", 0.9); ("avg_response_time_hours", 12) ].

(** The customer is registered, scored in good health, scored again on
    the signals of the demonstration, sees the first action of its
    post-incident playbook completed, and is scored in good health
    again. *)
Definition run1 : Engine :=
  snd (add_customer enterprise_customer init).

Definition run2 : Engine :=
  snd (update_customer_health (lib := example_library)
         "CUST-001" healthy_data 1%Z run1).

Definition run3 : Engine :=
  snd (update_customer_health (lib := example_library)
         "CUST-001" enterprise_data 2%Z run2).

Definition run4 : Engine :=
  snd (update_playbook_action (lib := example_library)
         "PIR-CUST-001-20250101" "pir_001" COMPLETED "done" None 3%Z run3).

Definition run5 : Engine :=
  snd (update_customer_health (lib := example_library)
         "CUST-001" healthy_data 4%Z run4).

(** A customer that is not post-incident, scored twice. *)
Definition steady_customer : CustomerProfile :=
  {| customer_id := "CUST-002";
     name := "MidSize Solutions";
     segment := "business";
     contract_value := 75000;
     start_date := 0%Z;
     renewal_date := days 330%Z;
     industry := "Financial Services";
     primary_contact :=
       [("name", "Mike Chen"); ("email", "mike.chen@midsize.com");
        ("role", "Operations Director")];
     success_manager := "csm-mike@company.com";
     incident_impact_level := "medium";
     current_health := None;
     health_history := [];
     is_post_incident := false;
     last_engagement := None;
     trust_rebuilding_required := false;
     executive_escalation_required := false |}.

Definition steady1 : Engine :=
  snd (add_customer steady_customer init).

Definition steady2 : Engine :=
  snd (update_customer_health (lib := example_library)
         "CUST-002" enterprise_data 1%Z steady1).

Definition steady3 : Engine :=
  snd (update_customer_health (lib := example_library)
         "CUST-002" healthy_data 2%Z steady2).

(** The four actions of its engagement-revival playbook are completed. *)
Definition steady7 : Engine :=
  fold_left
    (fun s aid =>
       snd (update_playbook_action (lib := example_library)
              "ER-CUST-002-20250101" aid COMPLETED "done" None 3%Z s))
    ["er_001"; "er_002"; "er_003"; "er_004"] steady3.

(** The profile a state holds for a customer id. *)
Definition profile_in (self : Engine) (cid : string) : CustomerProfile :=
  match Dict.get (customers self) cid with
  | Some c => c
  | None => enterprise_customer
  end.

(** The playbook a state holds under a playbook id. *)
Definition profile_playbook (self : Engine) (pid : string)
    : RecoveryPlaybook :=
  match Dict.get (active_playbooks self) pid with
  | Some pb => pb
  | None => create_engagement_revival_playbook (lib := example_library)
              enterprise_customer 0%Z
  end.

(** The metrics of the first and of the second scoring of the run. *)
Definition run2_health : HealthMetrics := mkHealthMetrics 93.5 100 100 0 1%Z.

Definition run3_health : HealthMetrics :=
  match
    calculate_health_metrics (profile_in run2 "CUST-001") enterprise_data 2%Z
  with
  | Ok h => h
  | Raise _ => run2_health
  end.

(* ================================================================= *)
(** ** Vocabulary of the further properties *)

Section Values.

(** The rational number a binary64 value stands for, to read the drop rule
    over the numbers themselves: a finite value [(-1)^s * m * 2^e] is
    [scaled / 2^1074], where [scaled] is an integer because no exponent of
    a binary64 value is below -1074.  The zeros are 0; an infinity or a
    NaN, which a composite score never is, is given 0 as well. *)
Definition scaled (x : spec_float) : Z :=
  match x with
  | S754_finite s m e => cond_Zopp s (Zpos m * 2 ^ (e + 1074))%Z
  | _ => 0%Z
  end.

Definition float_value (x : float) : Q :=
  Qmake (scaled (Prim2SF x)) (2 ^ 1074).

(** A zero or a positive binary64 number. *)
Definition nonneg_finite (x : spec_float) : Prop :=
  match x with
  | S754_zero _ => True
  | S754_finite false m e => bounded prec emax m e = true
  | _ => False
  end.

(** The constants 15.0 and 100.0. *)
Definition SF15 : spec_float := S754_finite false 8444249301319680 (-49).
Definition SF100 : spec_float := S754_finite false 7036874417766400 (-46).

End Values.

Section MoreVocabulary.
Context {lib : Library}.

(** The fields of a profile that no method of the engine assigns. *)
Definition same_static_fields (c c' : CustomerProfile) : Prop :=
  customer_id c' = customer_id c /\ name c' = name c /\
  segment c' = segment c /\ contract_value c' = contract_value c /\
  start_date c' = start_date c /\ renewal_date c' = renewal_date c /\
  industry c' = industry c /\ primary_contact c' = primary_contact c /\
  success_manager c' = success_manager c /\
  incident_impact_level c' = incident_impact_level c /\
  is_post_incident c' = is_post_incident c /\
  trust_rebuilding_required c' = trust_rebuilding_required c.

(** The fields of a playbook that are set when it is created only. *)
Definition same_playbook_header (pb pb' : RecoveryPlaybook) : Prop :=
  playbook_id pb' = playbook_id pb /\
  playbook_type pb' = playbook_type pb /\
  pb_customer_id pb' = pb_customer_id pb /\
  triggered_by pb' = triggered_by pb /\
  triggered_at pb' = triggered_at pb /\
  target_completion_date pb' = target_completion_date pb /\
  objectives pb' = objectives pb /\
  success_criteria pb' = success_criteria pb /\
  assigned_csm pb' = assigned_csm pb /\
  executive_sponsor pb' = executive_sponsor pb /\
  baseline_health_score pb' = baseline_health_score pb.


(** The playbook [_trigger_playbook] registers for a customer: the
    template of the kind, with the composite of the customer's current
    health as its baseline; the kinds without a template have none. *)
Definition instantiated (customer : CustomerProfile) (t : PlaybookType)
    (now : datetime) : option RecoveryPlaybook :=
  let with_baseline pb :=
    match current_health customer with
    | Some h =>
        set_baseline_health_score pb (Some (calculate_composite_score h))
    | None => pb
    end in
  match t with
  | POST_INCIDENT_RECOVERY =>
      Some (with_baseline (create_post_incident_recovery_playbook
                             customer now))
  | ENGAGEMENT_REVIVAL =>
      Some (with_baseline (create_engagement_revival_playbook customer now))
  | _ => None
  end.

(** The registry after one guarded rule of [_check_playbook_triggers],
    and the records the rule logs. *)
Definition ensured (customer : CustomerProfile) (t : PlaybookType)
    (now : datetime) (d : Dict.t RecoveryPlaybook)
    : Dict.t RecoveryPlaybook :=
  if has_active d (customer_id customer) t then d
  else match instantiated customer t now with
       | Some pb => Dict.set d (playbook_id pb) pb
       | None => d
       end.

Definition ensured_log (customer : CustomerProfile) (t : PlaybookType)
    (now : datetime) (d : Dict.t RecoveryPlaybook)
    : list (LogLevel * LogMessage) :=
  if has_active d (customer_id customer) t then []
  else match instantiated customer t now with
       | Some pb =>
           [ (INFO, TriggeredPlaybook t (name customer) (playbook_id pb));
             (INFO, PlaybookAssigned (playbook_id pb) (assigned_csm pb)) ]
       | None => [ (WARNING, PlaybookNotImplemented t) ]
       end.

(** The kinds whose rule applies to a customer and new metrics, in the
    order of the rules. *)
Definition applicable_kinds (customer : CustomerProfile)
    (new_health : HealthMetrics) : list PlaybookType :=
  ((if is_post_incident customer && trust_rebuilding_required customer
    then [POST_INCIDENT_RECOVERY] else []) ++
   (match get_health_tier new_health with
    | CRITICAL | RED_ALERT => [CHURN_PREVENTION]
    | _ => []
    end) ++
   (if engagement_score new_health <? 60 then [ENGAGEMENT_REVIVAL] else []) ++
   (if value_realization_score new_health <? 50
    then [VALUE_ACCELERATION] else []))%list.

(** The registry and the log records after the rules of a list of kinds. *)
Definition rules_registry (customer : CustomerProfile) (now : datetime)
    (kinds : list PlaybookType) (d : Dict.t RecoveryPlaybook)
    : Dict.t RecoveryPlaybook :=
  fold_left (fun d t => ensured customer t now d) kinds d.

Fixpoint rules_log (customer : CustomerProfile) (now : datetime)
    (kinds : list PlaybookType) (d : Dict.t RecoveryPlaybook)
    : list (LogLevel * LogMessage) :=
  match kinds with
  | [] => []
  | t :: kinds' =>
      (ensured_log customer t now d ++
       rules_log customer now kinds' (ensured customer t now d))%list
  end.

(** The records of the drop rule. *)
Definition drop_log (customer : CustomerProfile)
    (previous_health : option HealthMetrics) (new_health : HealthMetrics)
    : list (LogLevel * LogMessage) :=
  match previous_health with
  | Some p =>
      if significant_drop previous_health new_health then
        [ (WARNING,
           SignificantHealthDrop (name customer)
             (calculate_composite_score p)
             (calculate_composite_score new_health));
          (WARNING,
           ExecutiveEscalationRequired (name customer)
             "significant_health_drop") ]
      else []
  | None => []
  end.

(** The ids the two templates give their playbooks. *)
Definition pir_id (cid : string) (now : datetime) : string :=
  "PIR-" ++ cid ++ "-" ++ strftime_Ymd now.

Definition er_id (cid : string) (now : datetime) : string :=
  "ER-" ++ cid ++ "-" ++ strftime_Ymd now.

(** What the engine maintains of its two registries.  A customer is
    stored under its own id.  A playbook is stored under its own id, is
    an instance of one of the two templates (its kind, the form of its
    id and the ids of its actions), is active or completed, belongs to a
    registered customer and has the composite of some metrics as its
    baseline.  The id carries the day of some reading of the clock: the
    templates read the clock once for the id and once more for
    [triggered_at], so nothing relates the two. *)
Definition customer_entry_ok (kv : string * CustomerProfile) : Prop :=
  customer_id (snd kv) = fst kv.

Definition template_instance (pb : RecoveryPlaybook) : Prop :=
  (playbook_type pb = POST_INCIDENT_RECOVERY /\
   (exists day, playbook_id pb = pir_id (pb_customer_id pb) day) /\
   map action_id (actions pb) =
     ["pir_001"; "pir_002"; "pir_003"; "pir_004"; "pir_005"]) \/
  (playbook_type pb = ENGAGEMENT_REVIVAL /\
   (exists day, playbook_id pb = er_id (pb_customer_id pb) day) /\
   map action_id (actions pb) = ["er_001"; "er_002"; "er_003"; "er_004"]).

Definition playbook_entry_ok (cs : Dict.t CustomerProfile)
    (kv : string * RecoveryPlaybook) : Prop :=
  playbook_id (snd kv) = fst kv /\
  template_instance (snd kv) /\
  (pb_status (snd kv) = "active" \/ pb_status (snd kv) = "completed") /\
  Dict.mem cs (pb_customer_id (snd kv)) = true /\
  (exists h, baseline_health_score (snd kv) =
               Some (calculate_composite_score h)).

Definition registry_ok (self : Engine) : Prop :=
  NoDup (map fst (customers self)) /\
  NoDup (map fst (active_playbooks self)) /\
  Forall customer_entry_ok (customers self) /\
  Forall (playbook_entry_ok (customers self)) (active_playbooks self).

(** The counter of a tier in [health_distribution], and the customers a
    report counts in it. *)
Definition tier_count (d : TierCounts) (t : HealthTier) : nat :=
  match t with
  | HEALTHY => healthy d
  | AT_RISK => at_risk d
  | CRITICAL => critical d
  | RED_ALERT => red_alert d
  end.

Definition HealthTier_eqb (a b : HealthTier) : bool :=
  match a, b with
  | HEALTHY, HEALTHY | AT_RISK, AT_RISK
  | CRITICAL, CRITICAL | RED_ALERT, RED_ALERT => true
  | _, _ => false
  end.

Definition has_health (c : CustomerProfile) : bool :=
  match current_health c with
  | Some _ => true
  | None => false
  end.

Definition in_tier (t : HealthTier) (c : CustomerProfile) : bool :=
  match current_health c with
  | Some h => HealthTier_eqb (get_health_tier h) t
  | None => false
  end.

(** What the templates and the action updates maintain of the actions of
    a playbook: pairwise distinct ids, a due date after the trigger and
    no later than the target completion date of the playbook, and a
    completion date on every completed action. *)
Definition action_ok (pb : RecoveryPlaybook) (a : PlaybookAction) : Prop :=
  (triggered_at pb < due_date a <= target_completion_date pb)%Z /\
  (status a = COMPLETED -> completion_date a <> None).

Definition actions_ok (pb : RecoveryPlaybook) : Prop :=
  NoDup (map action_id (actions pb)) /\ Forall (action_ok pb) (actions pb).

(** The signals each calculator reads. *)
Definition engagement_signals : list string :=
  [ "logins_per_week"; "features_used"; "total_available_features";
    "support_satisfaction"; "office_hours_attendance_rate";
    "help_articles_viewed" ].

Definition value_realization_signals : list string :=
  [ "goals_achieved"; "total_goals_set"; "measured_roi"; "expected_roi";
    "business_outcomes_achieved"; "days_to_first_value";
    "target_days_to_value" ].

Definition relationship_signals : list string :=
  [ "nps_score"; "csat_score"; "trust_index"; "stakeholder_engagement_rate";
    "avg_response_time_hours" ].

Definition risk_signals : list string :=
  [ "contract_risk_level"; "payment_delays_count"; "competitive_evaluation";
    "usage_trend_30d"; "support_escalations_30d"; "key_contact_changes_90d" ].

(** The tiers in order, worst first. *)
Definition tier_rank (t : HealthTier) : nat :=
  match t with
  | RED_ALERT => 0
  | CRITICAL => 1
  | AT_RISK => 2
  | HEALTHY => 3
  end.

End MoreVocabulary.

(* ================================================================= *)
(** ** Properties *)

Section Properties.
Context {lib : Library}.

(** *** Comparisons of binary64 values *)

Lemma SFcompare_antisym (x y : spec_float) :
  SFcompare y x = option_map CompOpp (SFcompare x y).
Proof.
  destruct x as [sx|sx| |sx mx ex], y as [sy|sy| |sy my ey]; simpl;
    try reflexivity;
    try (destruct sx; reflexivity);
    try (destruct sy; reflexivity);
    try (destruct sx, sy; reflexivity).
  destruct sx, sy; simpl; try reflexivity;
    rewrite (Z.compare_antisym ex ey);
    destruct (ex ?= ey)%Z; simpl; try reflexivity;
    rewrite (Pos.compare_cont_antisym mx my Eq); reflexivity.
Qed.

Lemma SFcompare_None (x y : spec_float) :
  SFcompare x y = None -> x = S754_nan \/ y = S754_nan.
Proof.
  destruct x, y; simpl; intros H; try discriminate; auto.
Qed.

Lemma eqb_refl_not_nan (x : float) :
  (x =? x) = true -> Prim2SF x <> S754_nan.
Proof.
  rewrite eqb_spec. intros H E. rewrite E in H. discriminate.
Qed.

Lemma ltb_leb (x y : float) : (x <? y) = true -> (x <=? y) = true.
Proof.
  rewrite ltb_spec, leb_spec. unfold SFltb, SFleb.
  destruct (SFcompare (Prim2SF x) (Prim2SF y)) as [[]|];
    intros; congruence.
Qed.

Lemma leb_not_nan_l (x y : float) : (x <=? y) = true -> (x =? x) = true.
Proof.
  rewrite leb_spec, eqb_spec. unfold SFleb, SFeqb.
  destruct (Prim2SF x) as [sx|sx| |sx mx ex], (Prim2SF y); simpl;
    try discriminate; try reflexivity; intros _;
    try (destruct sx; reflexivity);
    destruct sx; rewrite Z.compare_refl, Pos.compare_cont_refl; reflexivity.
Qed.

Lemma leb_not_nan_r (x y : float) : (x <=? y) = true -> (y =? y) = true.
Proof.
  rewrite leb_spec, eqb_spec. unfold SFleb, SFeqb.
  destruct (Prim2SF x), (Prim2SF y) as [sy|sy| |sy my ey]; simpl;
    try discriminate; try reflexivity; intros _;
    try (destruct sy; reflexivity);
    destruct sy; rewrite Z.compare_refl, Pos.compare_cont_refl; reflexivity.
Qed.

Lemma leb_refl (x : float) : (x =? x) = true -> (x <=? x) = true.
Proof.
  rewrite eqb_spec, leb_spec. unfold SFeqb, SFleb.
  destruct (SFcompare (Prim2SF x) (Prim2SF x)) as [[]|]; congruence.
Qed.

(** On values that are no NaN, [x <= y] fails exactly when [y < x]. *)
Lemma leb_negb_ltb (x y : float) :
  (x =? x) = true -> (y =? y) = true -> (x <=? y) = negb (y <? x).
Proof.
  intros Hx Hy. apply eqb_refl_not_nan in Hx, Hy.
  rewrite leb_spec, ltb_spec. unfold SFleb, SFltb.
  rewrite (SFcompare_antisym (Prim2SF x) (Prim2SF y)).
  destruct (SFcompare (Prim2SF x) (Prim2SF y)) as [[]|] eqn:E;
    try reflexivity.
  apply SFcompare_None in E. tauto.
Qed.

Lemma ltb_not_leb (x y : float) : (x <? y) = true -> (y <=? x) = false.
Proof.
  rewrite ltb_spec, leb_spec. unfold SFltb, SFleb.
  rewrite (SFcompare_antisym (Prim2SF x) (Prim2SF y)).
  destruct (SFcompare (Prim2SF x) (Prim2SF y)) as [[]|];
    simpl; congruence.
Qed.

(** Below a positive finite value [a], hence not above a larger one [b]. *)
Lemma SFltb_SFleb_trans (s : spec_float) (ma mb : positive) (ea eb : Z) :
  (ea < eb \/ (ea = eb /\ ma < mb)%positive)%Z ->
  SFltb s (S754_finite false ma ea) = true ->
  SFleb (S754_finite false mb eb) s = false.
Proof.
  intros Hab. unfold SFltb, SFleb.
  destruct s as [ss|ss| |ss m e]; simpl; try discriminate;
    try (destruct ss; simpl; congruence).
  destruct ss; simpl; [reflexivity|].
  destruct (Z.compare_spec e ea) as [He|He|He]; try discriminate.
  - subst e. intros Hm.
    destruct (Z.compare_spec eb ea) as [Hb|Hb|Hb]; try lia; try reflexivity.
    destruct Hab as [Hab|[_ Hab]]; [lia|].
    change (Pos.compare_cont Eq m ma) with (m ?= ma)%positive in Hm.
    change (Pos.compare_cont Eq mb m) with (mb ?= m)%positive.
    destruct (Pos.compare_spec m ma); try discriminate.
    destruct (Pos.compare_spec mb m); try reflexivity; lia.
  - intros _.
    destruct (Z.compare_spec eb e) as [Hb|Hb|Hb]; try lia; reflexivity.
Qed.

Lemma ltb_not_leb_above (s a b : float) (ma mb : positive) (ea eb : Z) :
  Prim2SF a = S754_finite false ma ea ->
  Prim2SF b = S754_finite false mb eb ->
  (ea < eb \/ (ea = eb /\ ma < mb)%positive)%Z ->
  (s <? a) = true -> (b <=? s) = false.
Proof.
  intros Ha Hb Hab. rewrite ltb_spec, leb_spec, Ha, Hb.
  apply SFltb_SFleb_trans. exact Hab.
Qed.

(** *** The composite score *)

Lemma py_clamp_cases (c : float) :
  py_min 100 (py_max 0 c) =
    if 0 <? c then (if c <? 100 then c else 100) else 0.
Proof.
  unfold py_min, py_max. destruct (0 <? c); reflexivity.
Qed.

Lemma py_clamp_range (c : float) :
  (0 <=? py_min 100 (py_max 0 c)) = true /\
  (py_min 100 (py_max 0 c) <=? 100) = true.
Proof.
  rewrite py_clamp_cases.
  destruct (0 <? c) eqn:H0; [destruct (c <? 100) eqn:H1|].
  - split; apply ltb_leb; assumption.
  - split; reflexivity.
  - split; reflexivity.
Qed.

Lemma composite_range (h : HealthMetrics) :
  (0 <=? calculate_composite_score h) = true /\
  (calculate_composite_score h <=? 100) = true.
Proof. apply py_clamp_range. Qed.

Lemma composite_not_nan (h : HealthMetrics) :
  (calculate_composite_score h =? calculate_composite_score h) = true.
Proof.
  apply (leb_not_nan_r 0). apply composite_range.
Qed.

(** C1. [calculate_composite_score] is the weighted sum of the four
    sub-scores, the risk score inverted, clamped by [min(100, max(0, .))];
    at the sub-scores (90, 90, 90, 0) it is exactly 91.0; and whatever the
    four sub-scores are (infinities and NaN included) the result lies
    between 0 and 100. *)
Theorem composite_score_formula_and_range :
  (forall h,
     calculate_composite_score h =
       py_min 100
         (py_max 0
            (engagement_score h * 0.35 + value_realization_score h * 0.30 +
             relationship_health_score h * 0.25 +
             (100 - risk_indicators_score h) * 0.10))) /\
  (forall t, calculate_composite_score (mkHealthMetrics 90 90 90 0 t) = 91) /\
  (forall h,
     (0 <=? calculate_composite_score h) = true /\
     (calculate_composite_score h <=? 100) = true).
Proof.
  split; [|split].
  - intros h. reflexivity.
  - intros t. reflexivity.
  - exact composite_range.
Qed.

(** *** The tier *)

Lemma tier_cases (h : HealthMetrics) :
  let s := calculate_composite_score h in
  get_health_tier h =
    if 80 <=? s then HEALTHY
    else if 60 <=? s then AT_RISK
    else if 40 <=? s then CRITICAL
    else RED_ALERT.
Proof. reflexivity. Qed.

Lemma leb_false_ltb (c : float) (h : HealthMetrics) :
  (c =? c) = true ->
  (c <=? calculate_composite_score h) = false ->
  (calculate_composite_score h <? c) = true.
Proof.
  intros Hc H.
  rewrite (leb_negb_ltb _ _ Hc (composite_not_nan h)) in H.
  destruct (calculate_composite_score h <? c); [reflexivity|discriminate].
Qed.

Lemma below_40_not_60 (s : float) : (s <? 40) = true -> (60 <=? s) = false.
Proof.
  apply (ltb_not_leb_above s 40 60 _ _ _ _ eq_refl eq_refl).
  right. split; [reflexivity|]. reflexivity.
Qed.

Lemma below_40_not_80 (s : float) : (s <? 40) = true -> (80 <=? s) = false.
Proof.
  apply (ltb_not_leb_above s 40 80 _ _ _ _ eq_refl eq_refl).
  left. reflexivity.
Qed.

Lemma below_60_not_80 (s : float) : (s <? 60) = true -> (80 <=? s) = false.
Proof.
  apply (ltb_not_leb_above s 60 80 _ _ _ _ eq_refl eq_refl).
  left. reflexivity.
Qed.

(** C2. The tier is Healthy exactly from 80, AtRisk exactly on [60, 80),
    Critical exactly on [40, 60) and RedAlert exactly below 40; the
    composites 80, 60 and 40 themselves fall in the higher tier. *)
Theorem health_tier_breakpoints :
  (forall h,
     let s := calculate_composite_score h in
     (get_health_tier h = HEALTHY <-> (80 <=? s) = true) /\
     (get_health_tier h = AT_RISK <->
        (60 <=? s) = true /\ (s <? 80) = true) /\
     (get_health_tier h = CRITICAL <->
        (40 <=? s) = true /\ (s <? 60) = true) /\
     (get_health_tier h = RED_ALERT <-> (s <? 40) = true)) /\
  (forall t,
     calculate_composite_score (mkHealthMetrics 80 80 80 20 t) = 80 /\
     get_health_tier (mkHealthMetrics 80 80 80 20 t) = HEALTHY /\
     calculate_composite_score (mkHealthMetrics 60 60 60 40 t) = 60 /\
     get_health_tier (mkHealthMetrics 60 60 60 40 t) = AT_RISK /\
     calculate_composite_score (mkHealthMetrics 40 40 40 60 t) = 40 /\
     get_health_tier (mkHealthMetrics 40 40 40 60 t) = CRITICAL).
Proof.
  split.
  - intros h s. rewrite (tier_cases h). fold s.
    assert (L80 := leb_false_ltb 80 h eq_refl).
    assert (L60 := leb_false_ltb 60 h eq_refl).
    assert (L40 := leb_false_ltb 40 h eq_refl).
    fold s in L80, L60, L40.
    assert (N80 := ltb_not_leb s 80).
    assert (N60 := ltb_not_leb s 60).
    assert (N40 := ltb_not_leb s 40).
    assert (T1 := below_40_not_60 s).
    assert (T2 := below_40_not_80 s).
    assert (T3 := below_60_not_80 s).
    destruct (80 <=? s) eqn:E80; [|destruct (60 <=? s) eqn:E60;
      [|destruct (40 <=? s) eqn:E40]].
    + repeat split; intros; try congruence.
      * destruct H as [_ H]. apply N80 in H. congruence.
      * destruct H as [_ H]. apply T3 in H. congruence.
      * apply T2 in H. congruence.
    + repeat split; intros; try congruence; auto.
      * destruct H as [_ H]. apply N60 in H. congruence.
      * apply T1 in H. congruence.
    + repeat split; intros; try congruence; auto.
      * destruct H; congruence.
      * apply N40 in H. congruence.
    + repeat split; intros; try congruence; auto.
      * destruct H; congruence.
      * destruct H; congruence.
  - intros t. repeat split; reflexivity.
Qed.

(** *** The calculators *)

Lemma get_set_same {V : Type} (d : Dict.t V) (k : string) (v : V) :
  Dict.get (Dict.set d k v) k = Some v.
Proof.
  induction d as [|[k' v'] d IH]; simpl.
  - rewrite String.eqb_refl. reflexivity.
  - destruct (String.eqb k' k) eqn:E; simpl.
    + rewrite String.eqb_refl. reflexivity.
    + rewrite E. exact IH.
Qed.

Lemma get_set_other {V : Type} (d : Dict.t V) (k k' : string) (v : V) :
  k <> k' -> Dict.get (Dict.set d k v) k' = Dict.get d k'.
Proof.
  intros Hk. induction d as [|[k0 v0] d IH]; simpl.
  - destruct (String.eqb_spec k k'); [contradiction|reflexivity].
  - destruct (String.eqb_spec k0 k) as [->|Hk0]; simpl.
    + destruct (String.eqb_spec k k'); [contradiction|reflexivity].
    + destruct (String.eqb k0 k'); [reflexivity|exact IH].
Qed.

Lemma get_default_set (d : SignalBag) (k k' : string) (v default : float) :
  Dict.get d k = None ->
  Dict.get_default (Dict.set d k v) k' default =
    if String.eqb k k' then v else Dict.get_default d k' default.
Proof.
  intros Hnone. unfold Dict.get_default.
  destruct (String.eqb_spec k k') as [<-|Hk].
  - rewrite get_set_same. reflexivity.
  - rewrite (get_set_other d k k' v Hk). reflexivity.
Qed.

Lemma get_default_none (d : SignalBag) (k : string) (default : float) :
  Dict.get d k = None -> Dict.get_default d k default = default.
Proof. unfold Dict.get_default. intros ->. reflexivity. Qed.

Lemma bind_at_most_100 {A : Type} (m : result A) (k : A -> result float) :
  (forall a, at_most_100 (k a)) -> at_most_100 (bind m k).
Proof. destruct m; simpl; auto. Qed.

Lemma bind_returns {A B : Type} (m : result A) (k : A -> result B) :
  returns m -> (forall a, returns (k a)) -> returns (bind m k).
Proof. intros [a ->] Hk. simpl. apply Hk. Qed.

Lemma bind_not_value_error {A B : Type} (m : result A) (k : A -> result B) :
  not_value_error m -> (forall a, not_value_error (k a)) ->
  not_value_error (bind m k).
Proof. destruct m as [a|[msg|]]; simpl; auto. Qed.

Lemma py_min_100_le (x : float) : (py_min 100 x <=? 100) = true.
Proof.
  unfold py_min. destruct (x <? 100) eqn:E.
  - apply ltb_leb. exact E.
  - reflexivity.
Qed.

Lemma truediv_returns (a b : float) :
  (b =? 0) = false -> returns (truediv a b).
Proof. intros H. unfold truediv. rewrite H. eexists. reflexivity. Qed.

Lemma truediv_not_value_error (a b : float) :
  not_value_error (truediv a b).
Proof. unfold truediv. destruct (b =? 0); exact I. Qed.

Lemma positive_not_zero (x : float) : (0 <? x) = true -> (x =? 0) = false.
Proof.
  rewrite ltb_spec, FloatAxioms.eqb_spec. unfold SFltb, SFeqb.
  change (Prim2SF 0) with (S754_zero false).
  destruct (Prim2SF x) as [s|s| |s m e]; simpl; try discriminate;
    destruct s; simpl; congruence.
Qed.

Lemma guarded_truediv_returns (a b : float) :
  returns (if 0 <? b then truediv a b else Ok 0).
Proof.
  destruct (0 <? b) eqn:E.
  - apply truediv_returns, positive_not_zero, E.
  - eexists. reflexivity.
Qed.

Lemma guarded_truediv_not_value_error (a b : float) :
  not_value_error (if 0 <? b then truediv a b else Ok 0).
Proof. destruct (0 <? b); [apply truediv_not_value_error|exact I]. Qed.

Lemma engagement_at_most_100 (d : SignalBag) :
  at_most_100 (calculate_engagement_score d).
Proof.
  unfold calculate_engagement_score. cbv zeta.
  repeat (apply bind_at_most_100; intros ?). apply py_min_100_le.
Qed.

Lemma value_realization_at_most_100 (d : SignalBag) :
  at_most_100 (calculate_value_realization_score d).
Proof.
  unfold calculate_value_realization_score. cbv zeta.
  repeat (apply bind_at_most_100; intros ?). apply py_min_100_le.
Qed.

Lemma relationship_at_most_100 (d : SignalBag) :
  at_most_100 (calculate_relationship_health_score d).
Proof.
  unfold calculate_relationship_health_score. cbv zeta.
  repeat (apply bind_at_most_100; intros ?). apply py_min_100_le.
Qed.

Lemma risk_at_most_100 (d : SignalBag) :
  at_most_100 (calculate_risk_indicators_score d).
Proof.
  unfold calculate_risk_indicators_score. cbv zeta.
  repeat (apply bind_at_most_100; intros ?). apply py_min_100_le.
Qed.

Lemma engagement_returns (d : SignalBag) :
  returns (calculate_engagement_score d).
Proof.
  unfold calculate_engagement_score. cbv zeta.
  repeat (apply bind_returns;
          [ first [ apply truediv_returns; reflexivity
                  | apply guarded_truediv_returns ]
          | intros ? ]).
  eexists. reflexivity.
Qed.

Lemma relationship_returns (d : SignalBag) :
  returns (calculate_relationship_health_score d).
Proof.
  unfold calculate_relationship_health_score. cbv zeta.
  repeat (apply bind_returns;
          [ first [ apply truediv_returns; reflexivity
                  | apply guarded_truediv_returns ]
          | intros ? ]).
  eexists. reflexivity.
Qed.

Lemma risk_returns (d : SignalBag) :
  returns (calculate_risk_indicators_score d).
Proof.
  unfold calculate_risk_indicators_score. cbv zeta.
  repeat (apply bind_returns;
          [ first [ apply truediv_returns; reflexivity
                  | apply guarded_truediv_returns ]
          | intros ? ]).
  eexists. reflexivity.
Qed.

Lemma value_realization_returns (d : SignalBag) :
  (Dict.get_default d "target_days_to_value" 30 =? 0) = false ->
  returns (calculate_value_realization_score d).
Proof.
  intros Ht. unfold calculate_value_realization_score. cbv zeta.
  apply bind_returns; [apply guarded_truediv_returns|intros ?].
  apply bind_returns.
  { destruct (0 <? _) eqn:E; [|eexists; reflexivity].
    apply bind_returns; [|intros; eexists; reflexivity].
    apply truediv_returns, positive_not_zero, E. }
  intros ?.
  apply bind_returns; [apply truediv_returns, Ht|intros ?].
  eexists. reflexivity.
Qed.

Lemma value_realization_raises (d : SignalBag) :
  (Dict.get_default d "target_days_to_value" 30 =? 0) = true ->
  calculate_value_realization_score d = Raise ZeroDivisionError.
Proof.
  intros Ht. unfold calculate_value_realization_score. cbv zeta.
  destruct (guarded_truediv_returns
              (Dict.get_default d "goals_achieved" 0)
              (Dict.get_default d "total_goals_set" 1)) as [g ->].
  simpl bind.
  assert (Hroi : returns
            (if 0 <? Dict.get_default d "expected_roi" 1
             then q <- truediv (Dict.get_default d "measured_roi" 0)
                               (Dict.get_default d "expected_roi" 1) ;;
                  Ok (py_min 1.0 q)
             else Ok 0)).
  { destruct (0 <? _) eqn:E; [|eexists; reflexivity].
    apply bind_returns; [|intros; eexists; reflexivity].
    apply truediv_returns, positive_not_zero, E. }
  destruct Hroi as [r ->]. simpl bind.
  unfold truediv at 1. rewrite Ht. reflexivity.
Qed.

Lemma engagement_default (d : SignalBag) (k : string) (v : float) :
  In (k, v) signal_defaults -> Dict.get d k = None ->
  calculate_engagement_score (Dict.set d k v) = calculate_engagement_score d.
Proof.
  intros Hin H. unfold calculate_engagement_score.
  unfold signal_defaults in Hin. simpl in Hin.
  repeat (destruct Hin as [Hin|Hin];
          [injection Hin as <- <-;
           rewrite !(get_default_set _ _ _ _ _ H); simpl String.eqb;
           cbv iota; rewrite ?(get_default_none _ _ _ H); reflexivity|]).
  contradiction.
Qed.

Lemma value_realization_default (d : SignalBag) (k : string) (v : float) :
  In (k, v) signal_defaults -> Dict.get d k = None ->
  calculate_value_realization_score (Dict.set d k v) =
    calculate_value_realization_score d.
Proof.
  intros Hin H. unfold calculate_value_realization_score.
  unfold signal_defaults in Hin. simpl in Hin.
  repeat (destruct Hin as [Hin|Hin];
          [injection Hin as <- <-;
           rewrite !(get_default_set _ _ _ _ _ H); simpl String.eqb;
           cbv iota; rewrite ?(get_default_none _ _ _ H); reflexivity|]).
  contradiction.
Qed.

Lemma relationship_default (d : SignalBag) (k : string) (v : float) :
  In (k, v) signal_defaults -> Dict.get d k = None ->
  calculate_relationship_health_score (Dict.set d k v) =
    calculate_relationship_health_score d.
Proof.
  intros Hin H. unfold calculate_relationship_health_score.
  unfold signal_defaults in Hin. simpl in Hin.
  repeat (destruct Hin as [Hin|Hin];
          [injection Hin as <- <-;
           rewrite !(get_default_set _ _ _ _ _ H); simpl String.eqb;
           cbv iota; rewrite ?(get_default_none _ _ _ H); reflexivity|]).
  contradiction.
Qed.

Lemma risk_default (d : SignalBag) (k : string) (v : float) :
  In (k, v) signal_defaults -> Dict.get d k = None ->
  calculate_risk_indicators_score (Dict.set d k v) =
    calculate_risk_indicators_score d.
Proof.
  intros Hin H. unfold calculate_risk_indicators_score.
  unfold signal_defaults in Hin. simpl in Hin.
  repeat (destruct Hin as [Hin|Hin];
          [injection Hin as <- <-;
           rewrite !(get_default_set _ _ _ _ _ H); simpl String.eqb;
           cbv iota; rewrite ?(get_default_none _ _ _ H); reflexivity|]).
  contradiction.
Qed.

(** C6 at its failing inputs.  The calculators clamp their sum from
    above only, and not every component is clamped to its budget.  With
    [logins_per_week] at -100 the engagement sub-score is -590, below 0.
    A SignalBag without signals scores 10; an
    [office_hours_attendance_rate] of 2 raises that to 40, which is 30
    points from the component of 15 points, whereas the sibling
    components keep to their budget: [logins_per_week] at 1000 adds 30
    points, [help_articles_viewed] at 1000 adds 10.  With [nps_score] at
    -1000 the relationship sub-score is below 0 as well.  The rest of the
    claim holds: a sub-score that a calculator returns is at most 100,
    and a missing signal is scored as its default (a missing
    [support_satisfaction] as 3.0), so that adding the default under a
    missing key changes no sub-score. *)
Theorem sub_scores_leave_their_range :
  calculate_engagement_score [("logins_per_week", -100)] = Ok (-590) /\
  (-590 <? 0) = true /\
  calculate_engagement_score [] = Ok 10 /\
  calculate_engagement_score [("office_hours_attendance_rate", 2)] = Ok 40 /\
  calculate_engagement_score [("logins_per_week", 1000)] = Ok 40 /\
  calculate_engagement_score [("help_articles_viewed", 1000)] = Ok 20 /\
  (exists r,
     calculate_relationship_health_score [("nps_score", -1000)] = Ok r /\
     (r <? 0) = true) /\
  (forall d r,
     (calculate_engagement_score d = Ok r -> (r <=? 100) = true) /\
     (calculate_value_realization_score d = Ok r -> (r <=? 100) = true) /\
     (calculate_relationship_health_score d = Ok r -> (r <=? 100) = true) /\
     (calculate_risk_indicators_score d = Ok r -> (r <=? 100) = true)) /\
  (forall d k v,
     In (k, v) signal_defaults -> Dict.get d k = None ->
     Forall (fun calc => calc (Dict.set d k v) = calc d) calculators) /\
  In ("support_satisfaction", 3.0) signal_defaults.
Proof.
  do 6 (split; [reflexivity|]).
  split; [eexists; split; reflexivity|].
  split; [|split].
  - intros d r.
    assert (E := engagement_at_most_100 d).
    assert (V := value_realization_at_most_100 d).
    assert (R := relationship_at_most_100 d).
    assert (K := risk_at_most_100 d).
    repeat split; intros H; rewrite H in *; assumption.
  - intros d k v Hin Hnone. unfold calculators.
    repeat constructor.
    + apply engagement_default; assumption.
    + apply value_realization_default; assumption.
    + apply relationship_default; assumption.
    + apply risk_default; assumption.
  - unfold signal_defaults. simpl. tauto.
Qed.

(** C7 at its failing input: with [target_days_to_value] zero the
    value-realization calculator divides by it and raises
    [ZeroDivisionError], and so do [calculate_health_metrics] and
    [update_customer_health]; this is the only signal that makes a
    calculator raise. *)
Theorem value_realization_zero_target_days :
  calculate_value_realization_score [("target_days_to_value", 0)] =
    Raise ZeroDivisionError /\
  (forall d,
     calculate_value_realization_score d = Raise ZeroDivisionError <->
     (Dict.get_default d "target_days_to_value" 30 =? 0) = true) /\
  (forall c now,
     calculate_health_metrics c [("target_days_to_value", 0)] now =
       Raise ZeroDivisionError) /\
  (forall c now,
     fst (update_customer_health (customer_id c)
            [("target_days_to_value", 0)] now
            (snd (add_customer c init))) =
       Raise ZeroDivisionError).
Proof.
  split; [reflexivity|split; [|split]].
  - intros d. split.
    + intros H.
      destruct (Dict.get_default d "target_days_to_value" 30 =? 0) eqn:E;
        [reflexivity|].
      destruct (value_realization_returns d E) as [r Hr]. congruence.
    + apply value_realization_raises.
  - intros c now. unfold calculate_health_metrics.
    destruct (engagement_returns [("target_days_to_value", 0)]) as [e ->].
    reflexivity.
  - intros c now.
    assert (H : calculate_health_metrics c [("target_days_to_value", 0)] now
                = Raise ZeroDivisionError).
    { unfold calculate_health_metrics.
      destruct (engagement_returns [("target_days_to_value", 0)]) as [e ->].
      reflexivity. }
    unfold update_customer_health, add_customer, store_customer,
      logger_info, bindM, lift, append_log, set_customer.
    cbn [snd fst customers].
    rewrite get_set_same, H. reflexivity.
Qed.

(** *** The trigger rules *)

Lemma has_active_playbook_eq (self : Engine) (cid : string)
    (t : PlaybookType) :
  _has_active_playbook cid t self =
    (Ok (has_active (active_playbooks self) cid t), self).
Proof. reflexivity. Qed.

Lemma post_incident_recovery_fresh (customer : CustomerProfile)
    (now : datetime) (b : option float) :
  fresh_playbook
    (set_baseline_health_score
       (create_post_incident_recovery_playbook customer now) b)
    (customer_id customer) POST_INCIDENT_RECOVERY.
Proof.
  repeat split; try reflexivity. right. reflexivity.
Qed.

Lemma engagement_revival_fresh (customer : CustomerProfile)
    (now : datetime) (b : option float) :
  fresh_playbook
    (set_baseline_health_score
       (create_engagement_revival_playbook customer now) b)
    (customer_id customer) ENGAGEMENT_REVIVAL.
Proof.
  repeat split; try reflexivity. left. reflexivity.
Qed.

Lemma registration_closed (R : Engine -> Engine -> Prop) (cid : string)
    (t : PlaybookType) (pb : RecoveryPlaybook) (self : Engine)
    (r1 r2 : LogLevel * LogMessage) :
  trigger_closed cid R ->
  fresh_playbook pb cid t ->
  has_active (active_playbooks self) cid t = false ->
  is_trigger_msg (snd r1) = true -> is_trigger_msg (snd r2) = true ->
  R self (append_log (append_log (set_playbook self (playbook_id pb) pb) r1)
            r2).
Proof.
  intros (Hrefl & Htrans & Hlog & Hins) Hpb Hnone H1 H2.
  destruct r1 as [l1 m1], r2 as [l2 m2].
  apply Htrans with
    (s2 := append_log (set_playbook self (playbook_id pb) pb) (l1, m1)).
  - apply Htrans with (s2 := set_playbook self (playbook_id pb) pb).
    + apply (Hins self t pb Hpb Hnone).
    + apply Hlog. exact H1.
  - apply Hlog. exact H2.
Qed.

Lemma trigger_playbook_inv (R : Engine -> Engine -> Prop)
    (customer : CustomerProfile) (t : PlaybookType) (now : datetime)
    (self : Engine) :
  trigger_closed (customer_id customer) R ->
  has_active (active_playbooks self) (customer_id customer) t = false ->
  exists s', _trigger_playbook customer t now self = (Ok tt, s') /\
             R self s'.
Proof.
  intros HR Hnone.
  destruct t; unfold _trigger_playbook;
    try (eexists; split; [reflexivity|]; apply HR; reflexivity).
  - set (pb := match current_health customer with
               | Some h => set_baseline_health_score
                             (create_post_incident_recovery_playbook
                                customer now)
                             (Some (calculate_composite_score h))
               | None => create_post_incident_recovery_playbook customer now
               end).
    assert (Hpb : fresh_playbook pb (customer_id customer)
                    POST_INCIDENT_RECOVERY).
    { subst pb. destruct (current_health customer).
      - apply post_incident_recovery_fresh.
      - apply (post_incident_recovery_fresh customer now None). }
    eexists. split; [reflexivity|].
    apply (registration_closed R _ _ pb self (INFO, _) (INFO, _) HR Hpb Hnone);
      reflexivity.
  - set (pb := match current_health customer with
               | Some h => set_baseline_health_score
                             (create_engagement_revival_playbook
                                customer now)
                             (Some (calculate_composite_score h))
               | None => create_engagement_revival_playbook customer now
               end).
    assert (Hpb : fresh_playbook pb (customer_id customer)
                    ENGAGEMENT_REVIVAL).
    { subst pb. destruct (current_health customer).
      - apply engagement_revival_fresh.
      - apply (engagement_revival_fresh customer now None). }
    eexists. split; [reflexivity|].
    apply (registration_closed R _ _ pb self (INFO, _) (INFO, _) HR Hpb Hnone);
      reflexivity.
Qed.

Lemma ensure_playbook_inv (R : Engine -> Engine -> Prop)
    (customer : CustomerProfile) (t : PlaybookType) (now : datetime)
    (self : Engine) :
  trigger_closed (customer_id customer) R ->
  exists s', ensure_playbook customer t now self = (Ok tt, s') /\
             R self s'.
Proof.
  intros HR. unfold ensure_playbook, bindM.
  rewrite has_active_playbook_eq.
  destruct (has_active (active_playbooks self) (customer_id customer) t)
    eqn:E; cbn [negb].
  - exists self. split; [reflexivity|]. apply HR.
  - apply trigger_playbook_inv; assumption.
Qed.

(** The four guarded rules run to a state [s4] related to the first one,
    and the drop rule decides on that state. *)
Lemma check_triggers_inv (R : Engine -> Engine -> Prop)
    (customer : CustomerProfile) (previous_health : option HealthMetrics)
    (new_health : HealthMetrics) (now : datetime) (self : Engine) :
  trigger_closed (customer_id customer) R ->
  exists s4,
    R self s4 /\
    _check_playbook_triggers customer previous_health new_health now self =
      match previous_health with
      | Some p =>
          if calculate_composite_score new_health <?
             calculate_composite_score p - 15
          then
            (Ok (set_executive_escalation_required customer true),
             append_log
               (append_log s4
                  (WARNING,
                   SignificantHealthDrop (name customer)
                     (calculate_composite_score p)
                     (calculate_composite_score new_health)))
               (WARNING,
                ExecutiveEscalationRequired (name customer)
                  "significant_health_drop"))
          else (Ok customer, s4)
      | None => (Ok customer, s4)
      end.
Proof.
  intros HR. assert (HR' := HR). destruct HR' as (Hrefl & Htrans & _).
  unfold _check_playbook_triggers.
  assert (S1 : exists s1,
             (if is_post_incident customer &&
                 trust_rebuilding_required customer
              then ensure_playbook customer POST_INCIDENT_RECOVERY now
              else ret tt) self = (Ok tt, s1) /\ R self s1).
  { destruct (is_post_incident customer &&
              trust_rebuilding_required customer).
    - apply ensure_playbook_inv, HR.
    - exists self. split; [reflexivity|apply Hrefl]. }
  destruct S1 as (s1 & E1 & R1).
  assert (S2 : exists s2,
             (match get_health_tier new_health with
              | CRITICAL | RED_ALERT =>
                  ensure_playbook customer CHURN_PREVENTION now
              | _ => ret tt
              end) s1 = (Ok tt, s2) /\ R s1 s2).
  { destruct (get_health_tier new_health);
      try (exists s1; split; [reflexivity|apply Hrefl]);
      apply ensure_playbook_inv, HR. }
  destruct S2 as (s2 & E2 & R2).
  assert (S3 : exists s3,
             (if engagement_score new_health <? 60
              then ensure_playbook customer ENGAGEMENT_REVIVAL now
              else ret tt) s2 = (Ok tt, s3) /\ R s2 s3).
  { destruct (engagement_score new_health <? 60).
    - apply ensure_playbook_inv, HR.
    - exists s2. split; [reflexivity|apply Hrefl]. }
  destruct S3 as (s3 & E3 & R3).
  assert (S4 : exists s4,
             (if value_realization_score new_health <? 50
              then ensure_playbook customer VALUE_ACCELERATION now
              else ret tt) s3 = (Ok tt, s4) /\ R s3 s4).
  { destruct (value_realization_score new_health <? 50).
    - apply ensure_playbook_inv, HR.
    - exists s3. split; [reflexivity|apply Hrefl]. }
  destruct S4 as (s4 & E4 & R4).
  exists s4. split.
  { eapply Htrans; [eapply Htrans; [eapply Htrans|]|]; eassumption. }
  unfold bindM at 1. unfold bindM at 1. unfold bindM at 1. unfold bindM at 1.
  rewrite E1, E2, E3, E4.
  destruct previous_health as [p|]; [|reflexivity].
  destruct (calculate_composite_score new_health <?
            calculate_composite_score p - 15); reflexivity.
Qed.

(** *** [update_customer_health] *)

Lemma update_customer_health_unregistered (cid : string) (data : SignalBag)
    (now : datetime) (self : Engine) :
  Dict.get (customers self) cid = None ->
  update_customer_health cid data now self =
    (Raise (ValueError ("Customer " ++ cid ++ " not found")), self).
Proof. intros H. unfold update_customer_health. rewrite H. reflexivity. Qed.

Lemma update_customer_health_raises (cid : string) (data : SignalBag)
    (now : datetime) (self : Engine) (customer : CustomerProfile) (e : exn) :
  Dict.get (customers self) cid = Some customer ->
  calculate_health_metrics customer data now = Raise e ->
  update_customer_health cid data now self = (Raise e, self).
Proof.
  intros H E. unfold update_customer_health, bindM, lift.
  rewrite H, E. reflexivity.
Qed.

(** A call that computes the metrics [new_health]: the profile with the
    new health is stored, the rules run from there to a related state
    [s4], and the profile is stored again, escalated on a drop. *)
Lemma update_customer_health_inv (R : Engine -> Engine -> Prop)
    (cid : string) (data : SignalBag) (now : datetime) (self : Engine)
    (customer : CustomerProfile) (new_health : HealthMetrics) :
  Dict.get (customers self) cid = Some customer ->
  calculate_health_metrics customer data now = Ok new_health ->
  trigger_closed (customer_id customer) R ->
  let c1 := set_health customer new_health now in
  exists s4,
    R (set_customer self cid c1) s4 /\
    update_customer_health cid data now self =
      (Ok new_health,
       append_log
         match current_health customer with
         | Some p =>
             if calculate_composite_score new_health <?
                calculate_composite_score p - 15
             then
               set_customer
                 (append_log
                    (append_log s4
                       (WARNING,
                        SignificantHealthDrop (name customer)
                          (calculate_composite_score p)
                          (calculate_composite_score new_health)))
                    (WARNING,
                     ExecutiveEscalationRequired (name customer)
                       "significant_health_drop"))
                 cid (set_executive_escalation_required c1 true)
             else set_customer s4 cid c1
         | None => set_customer s4 cid c1
         end
         (INFO,
          UpdatedHealth (name customer)
            (calculate_composite_score new_health)
            (get_health_tier new_health))).
Proof.
  intros H E HR c1.
  destruct (check_triggers_inv R c1 (current_health customer) new_health now
              (set_customer self cid c1) HR) as (s4 & R4 & E4).
  exists s4. split; [exact R4|].
  unfold update_customer_health. rewrite H.
  unfold bindM at 1. unfold lift. rewrite E.
  unfold bindM at 1. unfold store_customer at 1.
  unfold bindM at 1. fold c1. rewrite E4.
  destruct (current_health customer) as [p|]; [|reflexivity].
  destruct (calculate_composite_score new_health <?
            calculate_composite_score p - 15); reflexivity.
Qed.

(** *** [update_playbook_action] *)

Lemma set_set {V : Type} (d : Dict.t V) (k : string) (v v' : V) :
  Dict.set (Dict.set d k v) k v' = Dict.set d k v'.
Proof.
  induction d as [|[k0 v0] d IH]; simpl.
  - rewrite String.eqb_refl. reflexivity.
  - destruct (String.eqb k0 k) eqn:E; simpl.
    + rewrite String.eqb_refl. reflexivity.
    + rewrite E, IH. reflexivity.
Qed.

Lemma replace_action_length (aid : string)
    (f : PlaybookAction -> PlaybookAction) (l : list PlaybookAction) :
  List.length (replace_action aid f l) = List.length l.
Proof.
  induction l as [|a l IH]; simpl; [reflexivity|].
  destruct (String.eqb (action_id a) aid); simpl; congruence.
Qed.

Lemma find_action_length (aid : string) (l : list PlaybookAction)
    (a : PlaybookAction) :
  find_action aid l = Some a -> exists n, List.length l = S n.
Proof.
  destruct l; simpl; [discriminate|]. intros _. eexists. reflexivity.
Qed.

Lemma complete_playbook_inv (pb : RecoveryPlaybook) (self : Engine) :
  exists pb' s',
    _complete_playbook pb self = (Ok pb', s') /\
    customers s' = customers self /\
    active_playbooks s' = active_playbooks self /\
    pb_status pb' = "completed" /\
    actions pb' = actions pb /\
    completion_percentage pb' = completion_percentage pb /\
    playbook_type pb' = playbook_type pb /\
    pb_customer_id pb' = pb_customer_id pb /\
    playbook_id pb' = playbook_id pb.
Proof.
  unfold _complete_playbook.
  cbn [pb_customer_id set_outcome].
  destruct (Dict.get (customers self) (pb_customer_id pb)) as [c|];
    [destruct c as [? ? ? ? ? ? ? ? ? ? [h|] ? ? ? ? ?]|];
    try (do 2 eexists; split; [reflexivity|]; repeat split; reflexivity).
  cbn [baseline_health_score set_outcome].
  destruct (baseline_health_score pb) as [b|];
    [destruct (truthy b)|];
    try (do 2 eexists; split; [reflexivity|]; repeat split; reflexivity).
  destruct (10 <=? calculate_composite_score h - b) eqn:E10;
    [|destruct (0 <=? calculate_composite_score h - b) eqn:E0].
  all: do 2 eexists; split;
    [unfold bindM; cbn; rewrite ?E10, ?E0; cbn; reflexivity|];
    repeat split; reflexivity.
Qed.

Lemma update_playbook_action_no_playbook (pid aid : string)
    (st : ActionStatus) (notes : string) (metrics : option (Dict.t PyValue))
    (now : datetime) (self : Engine) :
  Dict.get (active_playbooks self) pid = None ->
  update_playbook_action pid aid st notes metrics now self =
    (Raise (ValueError ("Playbook " ++ pid ++ " not found")), self).
Proof. intros H. unfold update_playbook_action. rewrite H. reflexivity. Qed.

Lemma update_playbook_action_no_action (pid aid : string)
    (st : ActionStatus) (notes : string) (metrics : option (Dict.t PyValue))
    (now : datetime) (self : Engine) (pb : RecoveryPlaybook) :
  Dict.get (active_playbooks self) pid = Some pb ->
  find_action aid (actions pb) = None ->
  update_playbook_action pid aid st notes metrics now self =
    (Raise (ValueError ("Action " ++ aid ++ " not found in playbook " ++ pid)),
     self).
Proof.
  intros H F. unfold update_playbook_action. rewrite H, F. reflexivity.
Qed.

(** A call that finds its playbook and its action returns; the registry
    changes at the playbook's key only, to a playbook with the updated
    actions and the percentage derived from them, completed when that is
    100 and otherwise with its status and its outcome untouched. *)
Lemma update_playbook_action_inv (pid aid : string) (st : ActionStatus)
    (notes : string) (metrics : option (Dict.t PyValue)) (now : datetime)
    (self : Engine) (pb : RecoveryPlaybook) (a : PlaybookAction) :
  Dict.get (active_playbooks self) pid = Some pb ->
  find_action aid (actions pb) = Some a ->
  let actions' :=
    replace_action aid (fun a => update_action a st notes metrics now)
      (actions pb) in
  exists pb' s',
    update_playbook_action pid aid st notes metrics now self = (Ok tt, s') /\
    customers s' = customers self /\
    active_playbooks s' = Dict.set (active_playbooks self) pid pb' /\
    actions pb' = actions' /\
    completion_percentage pb' = percentage_of actions' /\
    playbook_type pb' = playbook_type pb /\
    pb_customer_id pb' = pb_customer_id pb /\
    playbook_id pb' = playbook_id pb /\
    (if percentage_of actions' =? 100
     then pb_status pb' = "completed"
     else pb_status pb' = pb_status pb /\
          current_health_score pb' = current_health_score pb /\
          outcome_summary pb' = outcome_summary pb).
Proof.
  intros H F actions'.
  unfold update_playbook_action. rewrite H, F. fold actions'.
  destruct (find_action_length _ _ _ F) as [n Hn].
  assert (Hlen : List.length actions' = S n).
  { subst actions'. rewrite replace_action_length. exact Hn. }
  unfold bindM at 1. unfold lift, int_truediv. rewrite Hlen.
  rewrite <- Hlen. fold (percentage_of actions').
  set (pb1 := set_actions pb actions' (percentage_of actions')).
  unfold bindM at 1. unfold store_playbook at 1.
  unfold bindM at 1. unfold logger_info at 1.
  cbn [completion_percentage pb1 set_actions].
  destruct (percentage_of actions' =? 100) eqn:E.
  - set (s1 := append_log (set_playbook self pid pb1)
                 (INFO, UpdatedAction aid pid st)).
    destruct (complete_playbook_inv pb1 s1)
      as (pb2 & s2 & E2 & Hc & Hp & Hst & Hact & Hpct & Hty & Hcid & Hid).
    exists pb2. eexists. split.
    { unfold bindM. rewrite E2. reflexivity. }
    cbn [customers active_playbooks set_playbook].
    rewrite Hc, Hp. subst s1. cbn [customers active_playbooks append_log
                                   set_playbook].
    rewrite set_set.
    repeat split; try assumption; try reflexivity.
  - exists pb1. eexists. split; [reflexivity|].
    repeat split; reflexivity.
Qed.

(** *** Errors *)

Lemma engagement_not_value_error (d : SignalBag) :
  not_value_error (calculate_engagement_score d).
Proof.
  unfold calculate_engagement_score.
  cbv zeta.
  repeat (apply bind_not_value_error;
          [ first [ apply truediv_not_value_error
                  | apply guarded_truediv_not_value_error ]
          | intros ? ]).
  exact I.
Qed.

Lemma value_realization_not_value_error (d : SignalBag) :
  not_value_error (calculate_value_realization_score d).
Proof.
  unfold calculate_value_realization_score. cbv zeta.
  apply bind_not_value_error;
    [apply guarded_truediv_not_value_error|intros ?].
  apply bind_not_value_error.
  { destruct (0 <? _); [|exact I].
    apply bind_not_value_error;
      [apply truediv_not_value_error|intros; exact I]. }
  intros ?.
  apply bind_not_value_error; [apply truediv_not_value_error|intros ?].
  exact I.
Qed.

Lemma relationship_not_value_error (d : SignalBag) :
  not_value_error (calculate_relationship_health_score d).
Proof.
  unfold calculate_relationship_health_score.
  cbv zeta.
  repeat (apply bind_not_value_error;
          [ first [ apply truediv_not_value_error
                  | apply guarded_truediv_not_value_error ]
          | intros ? ]).
  exact I.
Qed.

Lemma risk_not_value_error (d : SignalBag) :
  not_value_error (calculate_risk_indicators_score d).
Proof.
  unfold calculate_risk_indicators_score.
  cbv zeta.
  repeat (apply bind_not_value_error;
          [ first [ apply truediv_not_value_error
                  | apply guarded_truediv_not_value_error ]
          | intros ? ]).
  exact I.
Qed.

Lemma health_metrics_not_value_error (c : CustomerProfile) (d : SignalBag)
    (now : datetime) :
  not_value_error (calculate_health_metrics c d now).
Proof.
  unfold calculate_health_metrics.
  apply bind_not_value_error; [apply engagement_not_value_error|intros ?].
  apply bind_not_value_error;
    [apply value_realization_not_value_error|intros ?].
  apply bind_not_value_error; [apply relationship_not_value_error|intros ?].
  apply bind_not_value_error; [apply risk_not_value_error|intros ?].
  destruct (is_post_incident c), (String.eqb (segment c) "enterprise");
    exact I.
Qed.

Lemma trigger_closed_trivial (cid : string) :
  trigger_closed cid (fun _ _ => True).
Proof. repeat split. Qed.

(** C8. [update_customer_health] raises its [ValueError] exactly for an
    unregistered [customer_id], [update_playbook_action] raises one exactly
    for a playbook id that is not registered or an action id that is not
    in the playbook, and returns otherwise; a raised [ValueError] leaves
    the state as it was.  Triggering a kind that has no template returns,
    logs one warning and leaves both registries as they were. *)
Theorem not_found_and_unimplemented :
  (forall cid data now self,
     ((exists msg,
         fst (update_customer_health cid data now self) =
           Raise (ValueError msg)) <->
      Dict.get (customers self) cid = None) /\
     (Dict.get (customers self) cid = None ->
      snd (update_customer_health cid data now self) = self)) /\
  (forall pid aid st notes metrics now self,
     let unknown :=
       Dict.get (active_playbooks self) pid = None \/
       exists pb, Dict.get (active_playbooks self) pid = Some pb /\
                  find_action aid (actions pb) = None in
     ((exists msg,
         fst (update_playbook_action pid aid st notes metrics now self) =
           Raise (ValueError msg)) <-> unknown) /\
     (fst (update_playbook_action pid aid st notes metrics now self) = Ok tt
      <-> ~ unknown) /\
     (unknown ->
      snd (update_playbook_action pid aid st notes metrics now self) = self))
  /\
  Forall
    (fun t =>
       forall customer now self,
         _trigger_playbook customer t now self =
           (Ok tt, append_log self (WARNING, PlaybookNotImplemented t)) /\
         customers (append_log self (WARNING, PlaybookNotImplemented t)) =
           customers self /\
         active_playbooks
           (append_log self (WARNING, PlaybookNotImplemented t)) =
           active_playbooks self)
    [VALUE_ACCELERATION; CHURN_PREVENTION; TRUST_REBUILDING].
Proof.
  split; [|split].
  - intros cid data now self. split; [split|].
    + intros [msg Hmsg].
      destruct (Dict.get (customers self) cid) as [customer|] eqn:G;
        [|reflexivity].
      exfalso.
      assert (N := health_metrics_not_value_error customer data now).
      destruct (calculate_health_metrics customer data now) as [h|e] eqn:E.
      * destruct (update_customer_health_inv (fun _ _ => True) cid data now
                    self customer h G E (trigger_closed_trivial _))
          as (s4 & _ & U).
        rewrite U in Hmsg. discriminate.
      * rewrite (update_customer_health_raises _ _ _ _ _ _ G E) in Hmsg.
        simpl in Hmsg. injection Hmsg as ->. exact N.
    + intros G. rewrite (update_customer_health_unregistered _ _ _ _ G).
      eexists. reflexivity.
    + intros G. rewrite (update_customer_health_unregistered _ _ _ _ G).
      reflexivity.
  - intros pid aid st notes metrics now self unknown.
    destruct (Dict.get (active_playbooks self) pid) as [pb|] eqn:G.
    + destruct (find_action aid (actions pb)) as [a|] eqn:F.
      * destruct (update_playbook_action_inv pid aid st notes metrics now
                    self pb a G F) as (pb' & s' & U & _).
        assert (Hk : ~ unknown).
        { intros [Hn|(pb0 & Hpb0 & Hf)]; [discriminate|].
          injection Hpb0 as <-. congruence. }
        rewrite U. cbn [fst snd]. repeat split.
        -- intros [msg Hm]. discriminate.
        -- intros Hu. contradiction.
        -- intros _. exact Hk.
        -- intros Hu. contradiction.
      * assert (Hk : unknown) by (right; exists pb; split; [reflexivity|exact F]).
        rewrite (update_playbook_action_no_action _ _ _ _ _ _ _ _ G F).
        cbn [fst snd]. repeat split.
        -- intros _. exact Hk.
        -- intros _. eexists. reflexivity.
        -- intros Hd. discriminate.
        -- intros Hn. contradiction.
    + assert (Hk : unknown) by (left; reflexivity).
      rewrite (update_playbook_action_no_playbook _ _ _ _ _ _ _ G).
      cbn [fst snd]. repeat split.
      * intros _. exact Hk.
      * intros _. eexists. reflexivity.
      * intros Hd. discriminate.
      * intros Hn. contradiction.
  - repeat constructor.
Qed.

(** *** The customers registry *)

Lemma trigger_closed_customers (cid : string) :
  trigger_closed cid (fun s s' => customers s' = customers s).
Proof.
  repeat split; try reflexivity. intros s1 s2 s3 H1 H2. congruence.
Qed.

Lemma update_customer_health_customers (cid : string) (data : SignalBag)
    (now : datetime) (self : Engine) (customer : CustomerProfile)
    (new_health : HealthMetrics) :
  Dict.get (customers self) cid = Some customer ->
  calculate_health_metrics customer data now = Ok new_health ->
  customers (snd (update_customer_health cid data now self)) =
    Dict.set (customers self) cid
      (if significant_drop (current_health customer) new_health
       then set_executive_escalation_required
              (set_health customer new_health now) true
       else set_health customer new_health now).
Proof.
  intros G E.
  destruct (update_customer_health_inv _ cid data now self customer
              new_health G E (trigger_closed_customers _))
    as (s4 & R4 & U).
  rewrite U. cbn [snd]. unfold significant_drop.
  destruct (current_health customer) as [p|];
    [destruct (calculate_composite_score new_health <?
               calculate_composite_score p - 15)|];
    cbn [customers append_log set_customer]; rewrite R4;
    cbn [customers set_customer]; apply set_set.
Qed.

Lemma update_playbook_action_customers (pid aid : string)
    (st : ActionStatus) (notes : string) (metrics : option (Dict.t PyValue))
    (now : datetime) (self : Engine) :
  customers (snd (update_playbook_action pid aid st notes metrics now self))
    = customers self.
Proof.
  destruct (Dict.get (active_playbooks self) pid) as [pb|] eqn:G.
  - destruct (find_action aid (actions pb)) as [a|] eqn:F.
    + destruct (update_playbook_action_inv pid aid st notes metrics now
                  self pb a G F) as (pb' & s' & U & Hc & _).
      rewrite U. exact Hc.
    + rewrite (update_playbook_action_no_action _ _ _ _ _ _ _ _ G F).
      reflexivity.
  - rewrite (update_playbook_action_no_playbook _ _ _ _ _ _ _ G).
    reflexivity.
Qed.

Lemma update_step_keeps_flag (self self' : Engine) (cid : string)
    (c : CustomerProfile) :
  update_step self self' ->
  Dict.get (customers self) cid = Some c ->
  executive_escalation_required c = true ->
  exists c', Dict.get (customers self') cid = Some c' /\
             executive_escalation_required c' = true.
Proof.
  intros Hstep G Hflag. destruct Hstep as [cid' data now self|].
  - destruct (Dict.get (customers self) cid') as [customer|] eqn:G'.
    + destruct (calculate_health_metrics customer data now) as [h|e] eqn:E.
      * rewrite (update_customer_health_customers _ _ _ _ _ _ G' E).
        destruct (String.eqb_spec cid' cid) as [->|Hne].
        -- rewrite get_set_same. eexists. split; [reflexivity|].
           assert (customer = c) by congruence. subst customer.
           destruct (significant_drop _ _); [reflexivity|exact Hflag].
        -- rewrite (get_set_other _ _ _ _ Hne). exists c. split; assumption.
      * rewrite (update_customer_health_raises _ _ _ _ _ _ G' E).
        exists c. split; assumption.
    + rewrite (update_customer_health_unregistered _ _ _ _ G').
      exists c. split; assumption.
  - rewrite update_playbook_action_customers. exists c. split; assumption.
Qed.

(** C10. Neither [update_customer_health] nor [update_playbook_action]
    assigns [False] to [executive_escalation_required]: a customer whose
    flag is set keeps it set through every sequence of calls of the two,
    whatever the calls compute. *)
Theorem escalation_flag_stays_set (self self' : Engine) (cid : string)
    (c : CustomerProfile) :
  Dict.get (customers self) cid = Some c ->
  executive_escalation_required c = true ->
  updates self self' ->
  exists c', Dict.get (customers self') cid = Some c' /\
             executive_escalation_required c' = true.
Proof.
  intros G Hflag Hrun. induction Hrun as [self|self s1 s2 Hrun IH Hstep].
  - exists c. split; assumption.
  - destruct (IH G) as (c1 & G1 & F1).
    exact (update_step_keeps_flag s1 s2 cid c1 Hstep G1 F1).
Qed.

(** *** The escalation *)

Lemma trigger_closed_log (cid : string) :
  trigger_closed cid
    (fun s s' =>
       customers s' = customers s /\
       exists l, log s' = (log s ++ l)%list /\
                 existsb is_escalation l = false).
Proof.
  repeat split.
  - exists []. rewrite app_nil_r. split; reflexivity.
  - destruct H as [H _], H0 as [H0 _]. congruence.
  - destruct H as (_ & l1 & H1 & N1), H0 as (_ & l2 & H2 & N2).
    exists (l1 ++ l2)%list. split.
    + rewrite H2, H1, app_assoc. reflexivity.
    + rewrite existsb_app, N1, N2. reflexivity.
  - exists [(lvl, msg)]. split; [reflexivity|].
    destruct msg; try discriminate; reflexivity.
  - exists []. cbn [log set_playbook]. rewrite app_nil_r.
    split; reflexivity.
Qed.

(** C5. A call of [update_customer_health] for a customer with a previous
    HealthMetrics that computes new ones logs the executive escalation
    exactly when the new composite is below the previous composite minus
    15, that is on a drop of more than 15 points, and the profile's flag
    afterwards is the old flag or that test: no state of the flag or of
    the playbooks gates it.  The escalation registers no playbook.  From
    a composite of 70 to one of 50 the test holds, from 50 to 48 it does
    not. *)
Theorem executive_escalation_on_drop :
  (forall cid data now self customer previous new_health,
     Dict.get (customers self) cid = Some customer ->
     current_health customer = Some previous ->
     calculate_health_metrics customer data now = Ok new_health ->
     let drop :=
       calculate_composite_score new_health <?
       calculate_composite_score previous - 15 in
     let s' := snd (update_customer_health cid data now self) in
     exists entries c',
       log s' = (log self ++ entries)%list /\
       existsb is_escalation entries = drop /\
       Dict.get (customers s') cid = Some c' /\
       executive_escalation_required c' =
         executive_escalation_required customer || drop) /\
  (forall customer reason self,
     fst (_escalate_to_executive customer reason self) =
       Ok (set_executive_escalation_required customer true) /\
     active_playbooks (snd (_escalate_to_executive customer reason self)) =
       active_playbooks self) /\
  (forall t1 t2 t3,
     let h70 := mkHealthMetrics 70 70 70 30 t1 in
     let h50 := mkHealthMetrics 50 50 50 50 t2 in
     let h48 := mkHealthMetrics 48 48 48 52 t3 in
     calculate_composite_score h70 = 70 /\
     calculate_composite_score h50 = 50 /\
     calculate_composite_score h48 = 48 /\
     significant_drop (Some h70) h50 = true /\
     significant_drop (Some h50) h48 = false).
Proof.
  split; [|split].
  - intros cid data now self customer previous new_health G P E drop s'.
    destruct (update_customer_health_inv _ cid data now self customer
                new_health G E (trigger_closed_log _))
      as (s4 & (Hc & l & Hl & Hn) & U).
    subst s'. rewrite U. cbn [snd]. rewrite P. fold drop.
    cbn [log set_customer] in Hl.
    destruct drop.
    + eexists. eexists. split; [|split; [|split]].
      * cbn [log append_log set_customer]. rewrite Hl.
        rewrite <- !app_assoc. reflexivity.
      * rewrite !existsb_app, Hn. reflexivity.
      * cbn [customers append_log set_customer]. apply get_set_same.
      * cbn. rewrite orb_true_r. reflexivity.
    + eexists. eexists. split; [|split; [|split]].
      * cbn [log append_log set_customer]. rewrite Hl.
        rewrite <- !app_assoc. reflexivity.
      * rewrite !existsb_app, Hn. reflexivity.
      * cbn [customers append_log set_customer]. apply get_set_same.
      * cbn. rewrite orb_false_r. reflexivity.
  - intros customer reason self. split; reflexivity.
  - intros t1 t2 t3. repeat split; reflexivity.
Qed.

(** *** At most one active playbook *)

Lemma filter_set_le {V : Type} (f : V -> bool) (d : Dict.t V) (k : string)
    (v : V) :
  List.length (filter f (Dict.values (Dict.set d k v))) <=
  List.length (filter f (Dict.values d)) + (if f v then 1 else 0).
Proof.
  unfold Dict.values. induction d as [|[k0 v0] d IH]; simpl.
  - destruct (f v); simpl; lia.
  - destruct (String.eqb k0 k); simpl.
    + destruct (f v), (f v0); simpl; lia.
    + destruct (f v0); simpl; lia.
Qed.

Lemma filter_set_replace_le {V : Type} (f : V -> bool) (d : Dict.t V)
    (k : string) (v v' : V) :
  Dict.get d k = Some v -> (f v' = true -> f v = true) ->
  List.length (filter f (Dict.values (Dict.set d k v'))) <=
  List.length (filter f (Dict.values d)).
Proof.
  unfold Dict.values. intros G Hf.
  induction d as [|[k0 v0] d IH]; simpl in *; [discriminate|].
  destruct (String.eqb k0 k); simpl.
  - injection G as ->. destruct (f v') eqn:E.
    + rewrite (Hf eq_refl). simpl. lia.
    + destruct (f v); simpl; lia.
  - specialize (IH G). destruct (f v0); simpl; lia.
Qed.

Lemma has_active_false_count (d : Dict.t RecoveryPlaybook) (cid : string)
    (t : PlaybookType) :
  has_active d cid t = false ->
  List.length (filter (is_active_for cid t) (Dict.values d)) = 0%nat.
Proof.
  unfold has_active. induction (Dict.values d) as [|pb l IH]; simpl.
  - reflexivity.
  - destruct (is_active_for cid t pb); simpl; [discriminate|exact IH].
Qed.

Lemma PlaybookType_eqb_eq (a b : PlaybookType) :
  PlaybookType_eqb a b = true -> a = b.
Proof. destruct a, b; simpl; congruence. Qed.

Lemma is_active_for_inv (cid : string) (t : PlaybookType)
    (pb : RecoveryPlaybook) :
  is_active_for cid t pb = true ->
  pb_customer_id pb = cid /\ playbook_type pb = t /\ pb_status pb = "active".
Proof.
  unfold is_active_for. intros H.
  apply andb_prop in H. destruct H as [H H3].
  apply andb_prop in H. destruct H as [H1 H2].
  apply String.eqb_eq in H1, H3. apply PlaybookType_eqb_eq in H2.
  auto.
Qed.

Lemma trigger_closed_count (cid0 : string) :
  trigger_closed cid0
    (fun s s' =>
       forall cid t,
         active_count s' cid t <= Nat.max 1 (active_count s cid t)).
Proof.
  repeat split.
  - intros s cid t. lia.
  - intros s1 s2 s3 H1 H2 cid t.
    specialize (H1 cid t). specialize (H2 cid t). lia.
  - intros s lvl msg _ cid t. unfold active_count.
    cbn [active_playbooks append_log]. lia.
  - intros s t0 pb Hpb Hnone cid t. unfold active_count.
    cbn [active_playbooks set_playbook].
    assert (L := filter_set_le (is_active_for cid t) (active_playbooks s)
                   (playbook_id pb) pb).
    destruct (is_active_for cid t pb) eqn:E.
    + apply is_active_for_inv in E. destruct E as (E1 & E2 & _).
      destruct Hpb as (F1 & F2 & _).
      subst cid t. rewrite F1, F2 in L |- *.
      rewrite (has_active_false_count _ _ _ Hnone) in L. lia.
    + lia.
Qed.

Lemma check_triggers_active_count (customer : CustomerProfile)
    (previous : option HealthMetrics) (new_health : HealthMetrics)
    (now : datetime) (self : Engine) (cid : string) (t : PlaybookType) :
  active_count
    (snd (_check_playbook_triggers customer previous new_health now self))
    cid t <= Nat.max 1 (active_count self cid t).
Proof.
  destruct (check_triggers_inv _ customer previous new_health now self
              (trigger_closed_count _)) as (s4 & R4 & U).
  rewrite U. specialize (R4 cid t).
  destruct previous as [p|];
    [destruct (calculate_composite_score new_health <?
               calculate_composite_score p - 15)|];
    exact R4.
Qed.

Lemma step_at_most_one_active (self self' : Engine) :
  step self self' -> at_most_one_active self -> at_most_one_active self'.
Proof.
  intros Hstep Hinv cid t. specialize (Hinv cid t).
  destruct Hstep as [c self|cid' data now self
                     |pid aid st notes metrics now self].
  - exact Hinv.
  - destruct (Dict.get (customers self) cid') as [customer|] eqn:G.
    + destruct (calculate_health_metrics customer data now) as [h|e] eqn:E.
      * destruct (update_customer_health_inv _ cid' data now self customer
                    h G E (trigger_closed_count _)) as (s4 & R4 & U).
        rewrite U. cbn [snd]. specialize (R4 cid t).
        assert (active_count s4 cid t <= 1).
        { unfold active_count in *.
          cbn [active_playbooks set_customer] in R4. lia. }
        destruct (current_health customer) as [p|];
          [destruct (calculate_composite_score h <?
                     calculate_composite_score p - 15)|];
          exact H.
      * rewrite (update_customer_health_raises _ _ _ _ _ _ G E). exact Hinv.
    + rewrite (update_customer_health_unregistered _ _ _ _ G). exact Hinv.
  - destruct (Dict.get (active_playbooks self) pid) as [pb|] eqn:G.
    + destruct (find_action aid (actions pb)) as [a|] eqn:F.
      * destruct (update_playbook_action_inv pid aid st notes metrics now
                    self pb a G F)
          as (pb' & s' & U & _ & Hp & _ & _ & Hty & Hcid & _ & Hst).
        rewrite U. cbn [snd]. unfold active_count in *. rewrite Hp.
        eapply Nat.le_trans; [|exact Hinv].
        apply (filter_set_replace_le _ _ _ pb pb' G).
        unfold is_active_for. rewrite Hty, Hcid.
        destruct (percentage_of _ =? 100).
        -- rewrite Hst. cbn. rewrite andb_false_r. discriminate.
        -- destruct Hst as [-> _]. auto.
      * rewrite (update_playbook_action_no_action _ _ _ _ _ _ _ _ G F).
        exact Hinv.
    + rewrite (update_playbook_action_no_playbook _ _ _ _ _ _ _ G).
      exact Hinv.
Qed.

(** C3. Whatever the state, an evaluation of the trigger rules leaves the
    number of active playbooks of a customer and a kind at most at the
    larger of 1 and what it was, and a second evaluation with the same
    profile and metrics as well: no evaluation brings a second active
    playbook of a kind.  In every state the engine reaches through its
    public methods, at most one playbook is active for a customer and a
    kind. *)
Theorem at_most_one_active_playbook_per_kind :
  (forall customer previous new_health now1 now2 self cid t,
     let s1 :=
       snd (_check_playbook_triggers customer previous new_health now1 self)
     in
     let s2 :=
       snd (_check_playbook_triggers customer previous new_health now2 s1)
     in
     active_count s1 cid t <= Nat.max 1 (active_count self cid t) /\
     active_count s2 cid t <= Nat.max 1 (active_count self cid t)) /\
  (forall self, reachable self -> at_most_one_active self).
Proof.
  split.
  - intros customer previous new_health now1 now2 self cid t s1 s2.
    assert (H1 := check_triggers_active_count customer previous new_health
                    now1 self cid t).
    assert (H2 := check_triggers_active_count customer previous new_health
                    now2 s1 cid t).
    fold s1 in H1. fold s2 in H2. split; lia.
  - intros self Hreach. induction Hreach as [|self self' _ IH Hstep].
    + intros cid t. unfold active_count. simpl. lia.
    + exact (step_at_most_one_active self self' Hstep IH).
Qed.

(** *** Completion percentage *)

Lemma get_In {V : Type} (d : Dict.t V) (k : string) (v : V) :
  Dict.get d k = Some v -> In v (Dict.values d).
Proof.
  unfold Dict.values. induction d as [|[k0 v0] d IH]; simpl;
    [discriminate|].
  destruct (String.eqb k0 k).
  - intros [= ->]. left. reflexivity.
  - intros H. right. apply IH, H.
Qed.

Lemma Forall_set {V : Type} (P : V -> Prop) (d : Dict.t V) (k : string)
    (v : V) :
  Forall P (Dict.values d) -> P v -> Forall P (Dict.values (Dict.set d k v)).
Proof.
  unfold Dict.values. intros H Hv.
  induction d as [|[k0 v0] d IH]; simpl in *.
  - constructor; [exact Hv|constructor].
  - inversion H as [|? ? H0 Hd]; subst.
    destruct (String.eqb k0 k); simpl; constructor; auto.
Qed.

Lemma completed_count_le (l : list PlaybookAction) :
  completed_count l <= List.length l.
Proof. unfold completed_count. apply filter_length_le. Qed.

Lemma completed_count_all (l : list PlaybookAction) :
  completed_count l = List.length l <-> all_completed l.
Proof.
  unfold completed_count, all_completed.
  induction l as [|a l IH]; simpl.
  - split; [constructor|reflexivity].
  - assert (L := filter_length_le
                   (fun a => ActionStatus_eqb (status a) COMPLETED) l).
    destruct (status a) eqn:E; simpl; split; intros H;
      try lia;
      try (inversion H; subst; congruence).
    + constructor; [exact E|]. apply IH. lia.
    + inversion H; subst. f_equal. apply IH. assumption.
Qed.

Lemma completed_count_replace (aid : string)
    (f : PlaybookAction -> PlaybookAction) (l : list PlaybookAction)
    (a : PlaybookAction) :
  find_action aid l = Some a ->
  (status a = COMPLETED -> status (f a) = COMPLETED) ->
  completed_count l <= completed_count (replace_action aid f l).
Proof.
  unfold find_action, completed_count. intros F Hf.
  induction l as [|a0 l IH]; simpl in *; [discriminate|].
  destruct (String.eqb (action_id a0) aid).
  - injection F as ->. simpl.
    destruct (status a) eqn:E; simpl;
      try (destruct (ActionStatus_eqb (status (f a)) COMPLETED);
           simpl; lia).
    rewrite (Hf eq_refl). simpl. lia.
  - specialize (IH F). simpl.
    destruct (ActionStatus_eqb (status a0) COMPLETED); simpl; lia.
Qed.

(** The percentages of a playbook of four or five actions, computed. *)
Lemma percentage_table (n k : nat) :
  (n = 4 \/ n = 5)%nat -> k <= n ->
  ((float_of_nat k / float_of_nat n * 100 =? 100) = true <-> k = n) /\
  (forall k', k <= k' -> k' <= n ->
     (float_of_nat k / float_of_nat n * 100 <=?
      float_of_nat k' / float_of_nat n * 100) = true).
Proof.
  intros Hn Hk.
  assert (K : (k = 0 \/ k = 1 \/ k = 2 \/ k = 3 \/ k = 4 \/ k = 5)%nat)
    by lia.
  split.
  - destruct Hn as [-> | ->];
      destruct K as [->|[->|[->|[->|[->| ->]]]]]; try lia;
      (split; [intros H; vm_compute in H; congruence
              |intros H; try discriminate H; reflexivity]).
  - intros k' Hk1 Hk2.
    assert (K' : (k' = 0 \/ k' = 1 \/ k' = 2 \/ k' = 3 \/ k' = 4 \/
                  k' = 5)%nat) by lia.
    destruct Hn as [-> | ->];
      destruct K as [->|[->|[->|[->|[->| ->]]]]]; try lia;
      destruct K' as [->|[->|[->|[->|[->| ->]]]]]; try lia;
      reflexivity.
Qed.

Lemma trigger_closed_playbooks_ok (cid : string) :
  trigger_closed cid (fun s s' => playbooks_ok s -> playbooks_ok s').
Proof.
  repeat split; auto.
  intros s t pb Hpb _ Hok. unfold playbooks_ok in *.
  cbn [active_playbooks set_playbook].
  apply Forall_set; [exact Hok|]. apply Hpb.
Qed.

Lemma step_playbooks_ok (self self' : Engine) :
  step self self' -> playbooks_ok self -> playbooks_ok self'.
Proof.
  intros Hstep Hinv.
  destruct Hstep as [c self|cid' data now self
                     |pid aid st notes metrics now self].
  - exact Hinv.
  - destruct (Dict.get (customers self) cid') as [customer|] eqn:G.
    + destruct (calculate_health_metrics customer data now) as [h|e] eqn:E.
      * destruct (update_customer_health_inv _ cid' data now self customer
                    h G E (trigger_closed_playbooks_ok _)) as (s4 & R4 & U).
        rewrite U. cbn [snd]. specialize (R4 Hinv).
        destruct (current_health customer) as [p|];
          [destruct (calculate_composite_score h <?
                     calculate_composite_score p - 15)|];
          exact R4.
      * rewrite (update_customer_health_raises _ _ _ _ _ _ G E). exact Hinv.
    + rewrite (update_customer_health_unregistered _ _ _ _ G). exact Hinv.
  - destruct (Dict.get (active_playbooks self) pid) as [pb|] eqn:G.
    + destruct (find_action aid (actions pb)) as [a|] eqn:F.
      * destruct (update_playbook_action_inv pid aid st notes metrics now
                    self pb a G F)
          as (pb' & s' & U & _ & Hp & Hact & Hpct & _).
        rewrite U. cbn [snd]. unfold playbooks_ok in *. rewrite Hp.
        apply Forall_set; [exact Hinv|].
        assert (Hpb : playbook_ok pb).
        { rewrite Forall_forall in Hinv. apply Hinv.
          apply (get_In _ _ _ G). }
        destruct Hpb as [Hlen _]. split.
        -- rewrite Hact, replace_action_length. exact Hlen.
        -- rewrite Hpct, Hact. reflexivity.
      * rewrite (update_playbook_action_no_action _ _ _ _ _ _ _ _ G F).
        exact Hinv.
    + rewrite (update_playbook_action_no_playbook _ _ _ _ _ _ _ G).
      exact Hinv.
Qed.

Lemma reachable_playbooks_ok (self : Engine) :
  reachable self -> playbooks_ok self.
Proof.
  intros H. induction H as [|self self' _ IH Hstep].
  - constructor.
  - exact (step_playbooks_ok self self' Hstep IH).
Qed.

Lemma trigger_closed_outcome (cid : string) :
  trigger_closed cid
    (fun s s' =>
       forall k pb',
         Dict.get (active_playbooks s') k = Some pb' ->
         Dict.get (active_playbooks s) k = Some pb' \/
         (pb_status pb' = "active" /\ current_health_score pb' = None /\
          outcome_summary pb' = EmptyString)).
Proof.
  repeat split.
  - intros s k pb' H. left. exact H.
  - intros s1 s2 s3 H1 H2 k pb' H.
    destruct (H2 k pb' H) as [H'|H']; [|right; exact H'].
    apply H1, H'.
  - intros s lvl msg _ k pb' H. left. exact H.
  - intros s t pb Hpb _ k pb' H. cbn [active_playbooks set_playbook] in H.
    destruct (String.eqb_spec (playbook_id pb) k) as [<-|Hk].
    + rewrite get_set_same in H. injection H as <-. right.
      destruct Hpb as (_ & _ & H1 & H2 & H3 & _). auto.
    + rewrite (get_set_other _ _ _ _ Hk) in H. left. exact H.
Qed.

Lemma forward_step_is_step (self self' : Engine) :
  forward_step self self' -> step self self'.
Proof.
  intros [pid aid st notes metrics now s s' pb a _ _ _ H].
  replace s' with
    (snd (update_playbook_action pid aid st notes metrics now s))
    by (rewrite H; reflexivity).
  apply step_update_playbook_action.
Qed.

Lemma forward_step_completed (self self' : Engine) (pid : string)
    (pb : RecoveryPlaybook) :
  forward_step self self' ->
  Dict.get (active_playbooks self) pid = Some pb ->
  exists pb',
    Dict.get (active_playbooks self') pid = Some pb' /\
    List.length (actions pb') = List.length (actions pb) /\
    completed_count (actions pb) <= completed_count (actions pb').
Proof.
  intros [pid0 aid st notes metrics now s s' pb0 a G F Hfw Hcall] Hget.
  destruct (update_playbook_action_inv pid0 aid st notes metrics now
              s pb0 a G F)
    as (pb' & s1 & U & _ & Hp & Hact & _).
  rewrite U in Hcall. injection Hcall as <-. rewrite Hp.
  destruct (String.eqb_spec pid0 pid) as [->|Hne].
  - rewrite get_set_same. exists pb'.
    assert (pb0 = pb) by congruence. subst pb0.
    split; [reflexivity|split].
    + rewrite Hact. apply replace_action_length.
    + rewrite Hact. apply completed_count_replace with (a := a);
        [exact F|].
      intros Hc. rewrite Hc in Hfw. cbn [status update_action].
      destruct st; simpl in Hfw; congruence.
  - rewrite (get_set_other _ _ _ _ Hne). exists pb.
    split; [exact Hget|split]; lia.
Qed.

Lemma forward_run_completed (self self' : Engine) (pid : string)
    (pb : RecoveryPlaybook) :
  forward_run self self' ->
  reachable self ->
  Dict.get (active_playbooks self) pid = Some pb ->
  reachable self' /\
  exists pb',
    Dict.get (active_playbooks self') pid = Some pb' /\
    List.length (actions pb') = List.length (actions pb) /\
    completed_count (actions pb) <= completed_count (actions pb').
Proof.
  intros Hrun Hreach Hget.
  induction Hrun as [self|self s1 s2 Hrun IH Hstep].
  - split; [exact Hreach|]. exists pb. split; [exact Hget|split]; lia.
  - destruct (IH Hreach Hget) as (Hr1 & pb1 & G1 & L1 & C1).
    split.
    + apply (reachable_step s1 s2 Hr1), forward_step_is_step, Hstep.
    + destruct (forward_step_completed s1 s2 pid pb1 Hstep G1)
        as (pb2 & G2 & L2 & C2).
      exists pb2. split; [exact G2|split]; lia.
Qed.

(** C4. After a call of [update_playbook_action] that returns, in a state
    the engine has reached: the playbook's [completion_percentage] is the
    count of its Completed actions over the count of its actions, times
    100; it is 100 exactly when every action is Completed; it is not
    below the percentage before when the call moves the action forward
    along Pending, InProgress, Completed, and no playbook's percentage
    is lower after a sequence of such calls; the playbook is completed when
    the percentage is 100, and otherwise its status, its
    [current_health_score] and its [outcome_summary] are what they were.
    [update_customer_health] sets no [current_health_score] and no
    [outcome_summary]: a playbook it leaves in the registry is one that
    was there or a new active one without either. *)
Theorem completion_percentage_lifecycle :
  (forall pid aid st notes metrics now self self',
     reachable self ->
     update_playbook_action pid aid st notes metrics now self
       = (Ok tt, self') ->
     exists pb pb' a,
       Dict.get (active_playbooks self) pid = Some pb /\
       find_action aid (actions pb) = Some a /\
       Dict.get (active_playbooks self') pid = Some pb' /\
       completion_percentage pb' =
         float_of_nat (completed_count (actions pb')) /
         float_of_nat (List.length (actions pb')) * 100 /\
       ((completion_percentage pb' =? 100) = true <->
        all_completed (actions pb')) /\
       (forward (status a) st = true ->
        (completion_percentage pb <=? completion_percentage pb') = true) /\
       (if completion_percentage pb' =? 100
        then pb_status pb' = "completed"
        else pb_status pb' = pb_status pb /\
             current_health_score pb' = current_health_score pb /\
             outcome_summary pb' = outcome_summary pb)) /\
  (forall self self' pid pb,
     reachable self -> forward_run self self' ->
     Dict.get (active_playbooks self) pid = Some pb ->
     exists pb',
       Dict.get (active_playbooks self') pid = Some pb' /\
       (completion_percentage pb <=? completion_percentage pb') = true) /\
  (forall cid data now self k pb',
     Dict.get
       (active_playbooks (snd (update_customer_health cid data now self))) k
       = Some pb' ->
     Dict.get (active_playbooks self) k = Some pb' \/
     (pb_status pb' = "active" /\ current_health_score pb' = None /\
      outcome_summary pb' = EmptyString)).
Proof.
  split; [|split].
  - intros pid aid st notes metrics now self self' Hreach Hcall.
    destruct (Dict.get (active_playbooks self) pid) as [pb|] eqn:G;
      [|rewrite (update_playbook_action_no_playbook _ _ _ _ _ _ _ G)
          in Hcall; discriminate].
    destruct (find_action aid (actions pb)) as [a|] eqn:F;
      [|rewrite (update_playbook_action_no_action _ _ _ _ _ _ _ _ G F)
          in Hcall; discriminate].
    destruct (update_playbook_action_inv pid aid st notes metrics now
                self pb a G F)
      as (pb' & s' & U & _ & Hp & Hact & Hpct & _ & _ & _ & Hst).
    rewrite U in Hcall. injection Hcall as <-.
    assert (Hpb : playbook_ok pb).
    { assert (Hok := reachable_playbooks_ok self Hreach).
      unfold playbooks_ok in Hok. rewrite Forall_forall in Hok.
      apply Hok, (get_In _ _ _ G). }
    destruct Hpb as [Hlen Hold].
    set (f := fun a => update_action a st notes metrics now) in *.
    assert (Hlen' : (List.length (actions pb') = 4 \/
                     List.length (actions pb') = 5)%nat).
    { rewrite Hact, replace_action_length. exact Hlen. }
    assert (T := percentage_table (List.length (actions pb'))
                   (completed_count (actions pb')) Hlen'
                   (completed_count_le _)).
    destruct T as [T100 _].
    exists pb, pb', a. repeat split; try assumption.
    + rewrite Hp. apply get_set_same.
    + rewrite Hpct, Hact. reflexivity.
    + rewrite Hpct, <- Hact. unfold percentage_of. intros H.
      apply completed_count_all, T100, H.
    + rewrite Hpct, <- Hact. unfold percentage_of. intros H.
      apply T100, completed_count_all, H.
    + intros Hfw. rewrite Hold, Hpct. unfold percentage_of.
      rewrite replace_action_length.
      apply percentage_table.
      * exact Hlen.
      * apply completed_count_le.
      * apply completed_count_replace with (a := a); [exact F|].
        intros Hc. rewrite Hc in Hfw. subst f. cbn [status update_action].
        destruct st; simpl in Hfw; congruence.
      * rewrite <- (replace_action_length aid f).
        apply completed_count_le.
    + rewrite Hpct. exact Hst.
  - intros self self' pid pb Hreach Hrun Hget.
    destruct (forward_run_completed self self' pid pb Hrun Hreach Hget)
      as (Hreach' & pb' & G' & L' & C').
    exists pb'. split; [exact G'|].
    assert (Hok : playbook_ok pb).
    { assert (H := reachable_playbooks_ok self Hreach).
      unfold playbooks_ok in H. rewrite Forall_forall in H.
      apply H, (get_In _ _ _ Hget). }
    assert (Hok' : playbook_ok pb').
    { assert (H := reachable_playbooks_ok self' Hreach').
      unfold playbooks_ok in H. rewrite Forall_forall in H.
      apply H, (get_In _ _ _ G'). }
    destruct Hok as [Hlen Hpct], Hok' as [_ Hpct'].
    rewrite Hpct, Hpct'. unfold percentage_of. rewrite L'.
    apply percentage_table.
    + exact Hlen.
    + apply completed_count_le.
    + exact C'.
    + rewrite <- L'. apply completed_count_le.
  - intros cid data now self k pb' H.
    destruct (Dict.get (customers self) cid) as [customer|] eqn:G.
    + destruct (calculate_health_metrics customer data now) as [h|e] eqn:E.
      * destruct (update_customer_health_inv _ cid data now self customer
                    h G E (trigger_closed_outcome _)) as (s4 & R4 & U).
        rewrite U in H. cbn [snd] in H. apply (R4 k pb').
        destruct (current_health customer) as [p|];
          [destruct (calculate_composite_score h <?
                     calculate_composite_score p - 15)|];
          exact H.
      * rewrite (update_customer_health_raises _ _ _ _ _ _ G E) in H.
        left. exact H.
    + rewrite (update_customer_health_unregistered _ _ _ _ G) in H.
      left. exact H.
Qed.

(** *** Reports *)

Lemma report_step_improvements (acc : TierCounts * nat * list float)
    (c : CustomerProfile) :
  snd (report_step acc c) =
    (snd acc ++ if has_improvement c then [improvement_of c] else [])%list.
Proof.
  destruct acc as [[d n] imps].
  unfold report_step, has_improvement, improvement_of.
  destruct (current_health c) as [h|];
    [|cbn [snd]; rewrite app_nil_r; reflexivity].
  destruct (is_post_incident c);
    [|cbn [snd andb]; rewrite app_nil_r; reflexivity].
  destruct (health_history c) as [|first [|second rest]];
    cbn [snd andb List.length Nat.leb];
    rewrite ?app_nil_r; reflexivity.
Qed.

Lemma fold_report_step (l : list CustomerProfile)
    (acc : TierCounts * nat * list float) :
  snd (fold_left report_step l acc) =
    (snd acc ++ map improvement_of (filter has_improvement l))%list.
Proof.
  revert acc. induction l as [|c l IH]; intros acc; simpl.
  - rewrite app_nil_r. reflexivity.
  - rewrite IH, report_step_improvements.
    destruct (has_improvement c); simpl.
    + rewrite <- app_assoc. reflexivity.
    + rewrite app_nil_r. reflexivity.
Qed.

Lemma filter_filter {A : Type} (f g : A -> bool) (l : list A) :
  filter f (filter g l) = filter (fun x => g x && f x) l.
Proof.
  induction l as [|a l IH]; simpl; [reflexivity|].
  destruct (g a); simpl; [destruct (f a)|]; rewrite IH; reflexivity.
Qed.

Lemma nonempty_filter {A : Type} (f : A -> bool) (l : list A) :
  filter f l <> [] <-> exists a, In a l /\ f a = true.
Proof.
  split.
  - destruct (filter f l) as [|a l'] eqn:E; [congruence|]. intros _.
    assert (H : In a (filter f l)) by (rewrite E; left; reflexivity).
    apply filter_In in H. exists a. exact H.
  - intros (a & Ha & Hf) E.
    assert (H : In a (filter f l)) by (apply filter_In; auto).
    rewrite E in H. exact H.
Qed.

Lemma PlaybookType_eqb_refl (t : PlaybookType) : PlaybookType_eqb t t = true.
Proof. destruct t; reflexivity. Qed.

(** The entry of a kind in [playbook_effectiveness]. *)
Lemma effectiveness_entry (self : Engine) (t : PlaybookType)
    (e : Effectiveness) :
  In (t, e) (_calculate_playbook_effectiveness self) ->
  let relevant :=
    filter (fun pb => PlaybookType_eqb (playbook_type pb) t)
           (Dict.values (active_playbooks self)) in
  relevant <> [] /\
  total_triggered e = List.length relevant /\
  completed e = List.length (completed_of self t) /\
  successful e =
    List.length (filter is_successful (completed_of self t)) /\
  success_rate e =
    match completed_of self t with
    | [] => 0
    | _ :: _ => float_of_nat (successful e) / float_of_nat (completed e)
    end.
Proof.
  intros H relevant. unfold _calculate_playbook_effectiveness in H.
  apply in_flat_map in H. destruct H as (t' & _ & H).
  unfold completed_of. rewrite <- filter_filter.
  destruct (filter (fun pb => PlaybookType_eqb (playbook_type pb) t')
              (Dict.values (active_playbooks self))) as [|pb0 rest] eqn:E;
    [contradiction|].
  destruct H as [H|[]]. injection H as -> <-.
  subst relevant. rewrite E. cbn [total_triggered completed successful
                                  success_rate].
  repeat split; try reflexivity. discriminate.
Qed.

Lemma effectiveness_present (self : Engine) (t : PlaybookType) :
  (exists e, In (t, e) (_calculate_playbook_effectiveness self)) <->
  (exists pb, In pb (Dict.values (active_playbooks self)) /\
              playbook_type pb = t).
Proof.
  split.
  - intros [e H]. destruct (effectiveness_entry self t e H) as [Hne _].
    apply nonempty_filter in Hne. destruct Hne as (pb & Hin & Hty).
    exists pb. split; [exact Hin|]. apply PlaybookType_eqb_eq, Hty.
  - intros (pb & Hin & Hty).
    unfold _calculate_playbook_effectiveness.
    assert (Hne : filter (fun pb => PlaybookType_eqb (playbook_type pb) t)
                    (Dict.values (active_playbooks self)) <> []).
    { apply nonempty_filter. exists pb. split; [exact Hin|].
      rewrite Hty. apply PlaybookType_eqb_refl. }
    destruct (filter (fun pb => PlaybookType_eqb (playbook_type pb) t)
                (Dict.values (active_playbooks self))) as [|pb0 rest] eqn:E;
      [congruence|].
    eexists. apply in_flat_map. exists t. split.
    + destruct t; simpl; tauto.
    + rewrite E. left. reflexivity.
Qed.

Lemma is_successful_score_improved (pb : RecoveryPlaybook) :
  recorded_nonzero (current_health_score pb) ->
  recorded_nonzero (baseline_health_score pb) ->
  is_successful pb = score_improved pb.
Proof.
  unfold is_successful, score_improved, recorded_nonzero. intros Hc Hb.
  destruct (current_health_score pb) as [c|]; [|reflexivity].
  destruct (baseline_health_score pb) as [b|]; [|reflexivity].
  rewrite (Hc c eq_refl), (Hb b eq_refl). reflexivity.
Qed.

Lemma filter_ext_Forall {A : Type} (P : A -> Prop) (f g : A -> bool)
    (l : list A) :
  Forall P l -> (forall a, P a -> f a = g a) -> filter f l = filter g l.
Proof.
  intros H Hfg. induction H as [|a l Ha _ IH]; simpl; [reflexivity|].
  rewrite (Hfg a Ha), IH. reflexivity.
Qed.

Lemma Forall_filter {A : Type} (P : A -> Prop) (f : A -> bool)
    (l : list A) :
  Forall P l -> Forall P (filter f l).
Proof.
  intros H. induction H as [|a l Ha _ IH]; simpl; [constructor|].
  destruct (f a); [constructor; assumption|assumption].
Qed.

(** C9, as the code has it.  The report's average improvement is
    [round(numpy.mean(improvements), 2)], 0 for no improvement, where the
    improvements are current minus first composite of the reported
    customers that have a current health, are post-incident and have at
    least two history entries, in registry order.  The effectiveness has
    an entry exactly for the kinds that have a playbook in the registry;
    its [success_rate] is successful over completed, 0 when no playbook
    of the kind is completed, where completed counts the playbooks of
    the kind with status completed and, no recorded score being zero,
    successful counts those of them whose current score is above the
    baseline. *)
Theorem recovery_report_aggregates (self : Engine)
    (customer_id : option string) (now : datetime) :
  let r := generate_recovery_report self customer_id now in
  let improvements :=
    map improvement_of
      (filter has_improvement (reported_customers self customer_id)) in
  average_health_improvement (recovery_metrics r) =
    match improvements with
    | [] => 0
    | _ :: _ => round2 (np_mean improvements)
    end /\
  (forall t,
     (exists e, In (t, e) (playbook_effectiveness r)) <->
     (exists pb, In pb (Dict.values (active_playbooks self)) /\
                 playbook_type pb = t)) /\
  (forall t e,
     In (t, e) (playbook_effectiveness r) ->
     completed e = List.length (completed_of self t) /\
     success_rate e =
       match completed_of self t with
       | [] => 0
       | _ :: _ => float_of_nat (successful e) / float_of_nat (completed e)
       end /\
     (scores_nonzero self ->
      successful e =
        List.length (filter score_improved (completed_of self t)))).
Proof.
  intros r improvements. split; [|split].
  - subst r improvements. unfold generate_recovery_report.
    fold (reported_customers self customer_id).
    assert (F := fold_report_step (reported_customers self customer_id)
                   ({| healthy := 0; at_risk := 0; critical := 0;
                       red_alert := 0 |}, O, [])).
    destruct (fold_left report_step (reported_customers self customer_id) _)
      as [[d n] imps].
    cbn [snd app] in F. subst imps.
    cbn [recovery_metrics average_health_improvement]. reflexivity.
  - intros t. subst r. unfold generate_recovery_report.
    destruct (fold_left report_step _ _) as [[d n] imps].
    cbn [playbook_effectiveness]. apply effectiveness_present.
  - intros t e H. subst r. unfold generate_recovery_report in H.
    destruct (fold_left report_step _ _) as [[d n] imps].
    cbn [playbook_effectiveness] in H.
    destruct (effectiveness_entry self t e H) as (_ & _ & Hc & Hs & Hr).
    repeat split; try assumption.
    intros Hnz. rewrite Hs. f_equal.
    apply filter_ext_Forall with
      (P := fun pb => recorded_nonzero (current_health_score pb) /\
                      recorded_nonzero (baseline_health_score pb)).
    + unfold completed_of. apply Forall_filter. exact Hnz.
    + intros pb [H1 H2]. apply is_successful_score_improved; assumption.
Qed.

(** *** The numbers behind binary64 values

    The subtraction and the comparison of the drop rule, read over the
    rational values of the floats: for values between 0 and 100 the
    difference with 15 is computed without rounding whenever it is
    positive, and it is not positive otherwise. *)

Local Open Scope Z_scope.

Lemma digits2_size (p : positive) : digits2_pos p = Pos.size p.
Proof. induction p; simpl; congruence. Qed.

Lemma size_bounds (p : positive) :
  2 ^ (Zpos (digits2_pos p) - 1) <= Zpos p < 2 ^ Zpos (digits2_pos p).
Proof.
  rewrite digits2_size. split.
  - assert (H := Pos.size_le p).
    assert (H0 : Zpos (2 ^ Pos.size p) <= Zpos p~0) by exact H.
    rewrite Pos2Z.inj_pow in H0.
    replace (Zpos (Pos.size p)) with (Z.succ (Zpos (Pos.size p) - 1)) in H0 by lia.
    rewrite Z.pow_succ_r in H0 by lia. lia.
  - assert (H := Pos.size_gt p).
    assert (H0 : Zpos p < Zpos (2 ^ Pos.size p)) by exact H.
    rewrite Pos2Z.inj_pow in H0. exact H0.
Qed.

Lemma iter_pos_iter {A : Type} (f : A -> A) (n : positive) (x : A) :
  SpecFloat.iter_pos f n x = Pos.iter f x n.
Proof.
  revert x. induction n as [n IH|n IH|]; intros x; simpl.
  - rewrite !IH. rewrite <- !Pos.iter_swap. reflexivity.
  - rewrite !IH. reflexivity.
  - reflexivity.
Qed.

Lemma iter_xO_Z (d n : positive) :
  Zpos (Pos.iter xO d n) = Zpos d * 2 ^ Zpos n.
Proof.
  induction n as [|n IH] using Pos.peano_ind.
  - simpl. lia.
  - rewrite Pos.iter_succ, Pos2Z.inj_xO, IH, Pos2Z.inj_succ.
    rewrite Z.pow_succ_r by lia. lia.
Qed.

Lemma iter_xO_digits (d n : positive) :
  Zpos (digits2_pos (Pos.iter xO d n)) = Zpos (digits2_pos d) + Zpos n.
Proof.
  induction n as [|n IH] using Pos.peano_ind.
  - simpl. lia.
  - rewrite Pos.iter_succ. simpl digits2_pos.
    rewrite Pos2Z.inj_succ, IH, Pos2Z.inj_succ. lia.
Qed.

Lemma shr_exact (d n : positive) :
  SpecFloat.iter_pos shr_1 n (Build_shr_record (Zpos (Pos.iter xO d n)) false false) =
  Build_shr_record (Zpos d) false false.
Proof.
  rewrite iter_pos_iter.
  induction n as [|n IH] using Pos.peano_ind.
  - reflexivity.
  - rewrite Pos.iter_succ_r, Pos.iter_succ. simpl shr_1. exact IH.
Qed.

Lemma fexp_eq (x : Z) : fexp prec emax x = Z.max (x - 53) (-1074).
Proof. reflexivity. Qed.

Lemma round_aux_canonical (m : positive) (e : Z) :
  fexp prec emax (Zpos (digits2_pos m) + e) = e ->
  e <= 971 ->
  binary_round_aux prec emax false (Zpos m) e loc_Exact = S754_finite false m e.
Proof.
  intros Hc He. unfold binary_round_aux, shr_fexp.
  cbn [Zdigits2 shr_record_of_loc]. rewrite Hc, Z.sub_diag.
  cbn [shr shr_m loc_of_shr_record round_nearest_even Zdigits2 shr_record_of_loc].
  rewrite Hc, Z.sub_diag. cbn [shr shr_m].
  change (emax - prec) with 971.
  destruct (Z.leb_spec e 971); [reflexivity | lia].
Qed.

Lemma binary_round_exact (d : positive) (e : Z) :
  -1074 <= e ->
  fexp prec emax (Zpos (digits2_pos d) + e) <= 971 ->
  (fexp prec emax (Zpos (digits2_pos d) + e) <= e \/
   exists d' : positive,
     Zpos d = Zpos d' * 2 ^ (fexp prec emax (Zpos (digits2_pos d) + e) - e)) ->
  exists (m' : positive) (e' : Z),
    binary_round prec emax false d e = S754_finite false m' e' /\
    bounded prec emax m' e' = true /\
    Zpos m' * 2 ^ (e' + 1074) = Zpos d * 2 ^ (e + 1074).
Proof.
  intros He Hfe Hdiv. unfold binary_round, shl_align.
  set (fe := fexp prec emax (Zpos (digits2_pos d) + e)) in *.
  destruct (fe - e) as [|k|k] eqn:Hk.
  - exists d, e. assert (Hc : fe = e) by lia.
    rewrite round_aux_canonical by (fold fe; lia).
    split; [reflexivity|]. split; [|reflexivity].
    unfold bounded, canonical_mantissa. fold fe. rewrite Hc, Z.eqb_refl.
    change (emax - prec) with 971. apply Z.leb_le. lia.
  - destruct Hdiv as [Hle | [d' Hd']]; [lia|].
    assert (Hd : d = Pos.iter xO d' k).
    { apply Pos2Z.inj. rewrite iter_xO_Z. exact Hd'. }
    exists d', (e + Zpos k).
    assert (Hdig : Zpos (digits2_pos d) = Zpos (digits2_pos d') + Zpos k).
    { rewrite Hd. apply iter_xO_digits. }
    assert (Hc : fexp prec emax (Zpos (digits2_pos d') + (e + Zpos k)) = e + Zpos k).
    { replace (Zpos (digits2_pos d') + (e + Zpos k)) with (Zpos (digits2_pos d) + e) by lia.
      fold fe. lia. }
    split; [|split].
    + unfold binary_round_aux, shr_fexp. cbn [Zdigits2 shr_record_of_loc].
      fold fe. rewrite Hk. cbn [shr].
      assert (Hshr : SpecFloat.iter_pos shr_1 k (Build_shr_record (Zpos d) false false) =
                     Build_shr_record (Zpos d') false false).
      { rewrite Hd. apply shr_exact. }
      rewrite Hshr.
      cbn [shr_m loc_of_shr_record round_nearest_even Zdigits2 shr_record_of_loc].
      rewrite Hc, Z.sub_diag. cbn [shr shr_m].
      change (emax - prec) with 971.
      destruct (Z.leb_spec (e + Zpos k) 971); [reflexivity | lia].
    + unfold bounded, canonical_mantissa. rewrite Hc, Z.eqb_refl.
      change (emax - prec) with 971. apply Z.leb_le. lia.
    + rewrite Hd'. replace (e + Zpos k + 1074) with (Zpos k + (e + 1074)) by lia.
      rewrite (Z.pow_add_r 2 (Zpos k) (e + 1074)) by lia. ring.
  - exists (Pos.iter xO d k), fe.
    assert (Hdig := iter_xO_digits d k).
    assert (Hc : fexp prec emax (Zpos (digits2_pos (Pos.iter xO d k)) + fe) = fe).
    { rewrite Hdig. replace (Zpos (digits2_pos d) + Zpos k + fe) with (Zpos (digits2_pos d) + e) by lia.
      reflexivity. }
    rewrite round_aux_canonical by (first [exact Hc | exact Hfe]).
    split; [reflexivity|]. split.
    + unfold bounded, canonical_mantissa. rewrite Hc, Z.eqb_refl.
      change (emax - prec) with 971. apply Z.leb_le. lia.
    + rewrite iter_xO_Z.
      assert (Hfe1 : -1074 <= fe) by (unfold fe; rewrite fexp_eq; lia).
      replace (e + 1074) with (Zpos k + (fe + 1074)) by lia.
      rewrite (Z.pow_add_r 2 (Zpos k) (fe + 1074)) by lia. ring.
Qed.

Lemma mantissa_bounds (m : positive) (e : Z) :
  bounded prec emax m e = true ->
  -1074 <= e <= 971 /\ Zpos m < 2 ^ 53 /\ (-1074 < e -> 2 ^ 52 <= Zpos m).
Proof.
  unfold bounded, canonical_mantissa. rewrite fexp_eq.
  change (emax - prec) with 971.
  intros H. apply andb_prop in H. destruct H as [Hc He].
  apply Z.eqb_eq in Hc. apply Z.leb_le in He.
  destruct (size_bounds m) as [Hlo Hhi].
  split; [lia|]. split.
  - apply Z.lt_le_trans with (1 := Hhi). apply Z.pow_le_mono_r; lia.
  - intros Hn. assert (Hd : Zpos (digits2_pos m) = 53) by lia.
    rewrite Hd in Hlo. exact Hlo.
Qed.

Lemma scaled_pos (m : positive) (e : Z) :
  -1074 <= e -> 0 < Zpos m * 2 ^ (e + 1074).
Proof.
  intros He. apply Z.mul_pos_pos; [lia|]. apply Z.pow_pos_nonneg; lia.
Qed.

Lemma scaled_lt_exponent (m1 m2 : positive) (e1 e2 : Z) :
  bounded prec emax m1 e1 = true -> bounded prec emax m2 e2 = true ->
  e1 < e2 ->
  Zpos m1 * 2 ^ (e1 + 1074) < Zpos m2 * 2 ^ (e2 + 1074).
Proof.
  intros H1 H2 Hlt.
  destruct (mantissa_bounds _ _ H1) as (He1 & Hm1 & _).
  destruct (mantissa_bounds _ _ H2) as (He2 & _ & Hm2).
  specialize (Hm2 ltac:(lia)).
  replace (e2 + 1074) with (Z.succ (e2 - e1 - 1) + (e1 + 1074)) by lia.
  rewrite (Z.pow_add_r 2 (Z.succ (e2 - e1 - 1)) (e1 + 1074)) by lia.
  rewrite Z.pow_succ_r by lia.
  assert (Ha : 0 < 2 ^ (e1 + 1074)) by (apply Z.pow_pos_nonneg; lia).
  assert (Hb : 0 < 2 ^ (e2 - e1 - 1)) by (apply Z.pow_pos_nonneg; lia).
  change (2 ^ 53) with 9007199254740992 in Hm1.
  change (2 ^ 52) with 4503599627370496 in Hm2.
  set (A := 2 ^ (e1 + 1074)) in *. set (B := 2 ^ (e2 - e1 - 1)) in *.
  assert (H3 : Zpos m1 * A < 9007199254740992 * A)
    by (apply Z.mul_lt_mono_pos_r; assumption).
  assert (H4 : 9007199254740992 <= Zpos m2 * (2 * B)) by nia.
  assert (H5 : 9007199254740992 * A <= Zpos m2 * (2 * B) * A)
    by (apply Z.mul_le_mono_nonneg_r; lia).
  lia.
Qed.

Lemma SFcompare_scaled (x y : spec_float) :
  nonneg_finite x -> nonneg_finite y ->
  SFcompare x y = Some (scaled x ?= scaled y).
Proof.
  destruct x as [sx|sx| |[|] mx ex]; try contradiction;
  destruct y as [sy|sy| |[|] my ey]; try contradiction; cbn [nonneg_finite];
  intros Hx Hy.
  - reflexivity.
  - cbn [SFcompare scaled cond_Zopp].
    destruct (mantissa_bounds _ _ Hy) as (He & _).
    assert (H := scaled_pos my ey ltac:(lia)).
    symmetry. f_equal. apply Z.compare_lt_iff. exact H.
  - cbn [SFcompare scaled cond_Zopp].
    destruct (mantissa_bounds _ _ Hx) as (He & _).
    assert (H := scaled_pos mx ex ltac:(lia)).
    symmetry. f_equal. apply Z.compare_gt_iff. exact H.
  - cbn [SFcompare scaled cond_Zopp]. f_equal. symmetry.
    destruct (Z.compare_spec ex ey) as [Heq|Hlt|Hgt].
    + subst ey.
      destruct (mantissa_bounds _ _ Hx) as (He & _).
      assert (Ha : 0 < 2 ^ (ex + 1074)) by (apply Z.pow_pos_nonneg; lia).
      change (Pos.compare_cont Eq mx my) with (Zpos mx ?= Zpos my).
      destruct (Z.compare_spec (Zpos mx) (Zpos my)) as [E|L|G].
      * rewrite E. apply Z.compare_refl.
      * apply Z.compare_lt_iff. apply Z.mul_lt_mono_pos_r; assumption.
      * apply Z.compare_gt_iff. apply Z.mul_lt_mono_pos_r; assumption.
    + apply Z.compare_lt_iff. apply scaled_lt_exponent; assumption.
    + apply Z.compare_gt_iff. apply scaled_lt_exponent; assumption.
Qed.

Lemma SFltb_scaled (x y : spec_float) :
  nonneg_finite x -> nonneg_finite y ->
  SFltb x y = true <-> scaled x < scaled y.
Proof.
  intros Hx Hy. unfold SFltb. rewrite (SFcompare_scaled x y Hx Hy).
  unfold Z.lt. destruct (scaled x ?= scaled y); split; congruence.
Qed.

Lemma SFleb_scaled (x y : spec_float) :
  nonneg_finite x -> nonneg_finite y ->
  SFleb x y = true <-> scaled x <= scaled y.
Proof.
  intros Hx Hy. unfold SFleb. rewrite (SFcompare_scaled x y Hx Hy).
  unfold Z.le. destruct (scaled x ?= scaled y); split; congruence.
Qed.

(** A float between 0 and 100 is a zero or a positive finite number. *)
Lemma between_0_100_nonneg_finite (p : float) :
  (0 <=? p)%float = true -> (p <=? 100)%float = true ->
  nonneg_finite (Prim2SF p).
Proof.
  rewrite !leb_spec. intros H0 H100.
  assert (Hv := Prim2SF_valid p).
  change (Prim2SF 0) with (S754_zero false) in H0.
  change (Prim2SF 100) with (S754_finite false 7036874417766400 (-46)) in H100.
  destruct (Prim2SF p) as [s|s| |s m e]; cbn [nonneg_finite].
  - exact I.
  - destruct s; discriminate.
  - discriminate.
  - destruct s; [discriminate|]. exact Hv.
Qed.

Lemma shl_align_fst (m : positive) (e ez : Z) :
  ez <= e -> Zpos (fst (shl_align m e ez)) = Zpos m * 2 ^ (e - ez).
Proof.
  intros Hle. unfold shl_align. destruct (ez - e) as [|k|k] eqn:Hk.
  - replace (e - ez) with 0 by lia. cbn [fst]. rewrite Z.pow_0_r. lia.
  - lia.
  - cbn [fst]. rewrite iter_xO_Z. f_equal. f_equal. lia.
Qed.

Lemma SFltb_negative_round (n : spec_float) (m e : Z) (l : location) :
  nonneg_finite n ->
  SFltb n (binary_round_aux prec emax true m e l) = false.
Proof.
  intros Hn. unfold binary_round_aux.
  destruct (shr_fexp prec emax m e l) as [mrs' e'].
  destruct (shr_fexp prec emax _ e' loc_Exact) as [mrs'' e''].
  destruct (shr_m mrs'') as [|q|q]; [| destruct (e'' <=? emax - prec) |];
    destruct n as [s|s| |[|] mn en]; try contradiction; reflexivity.
Qed.

Lemma SFltb_zero (n : spec_float) (s : bool) :
  nonneg_finite n -> SFltb n (S754_zero s) = false.
Proof.
  destruct n as [sn|sn| |[|] mn en]; try contradiction; reflexivity.
Qed.


Lemma SFsub_15_scaled (x n : spec_float) :
  nonneg_finite x -> nonneg_finite n ->
  scaled x <= scaled SF100 ->
  SFltb n (SF64sub x SF15) = true <-> scaled n + scaled SF15 < scaled x.
Proof.
  intros Hx Hn H100. unfold SF15, SF100 in *.
  assert (Hn0 : 0 <= scaled n).
  { destruct n as [s|s| |[|] mn en]; try contradiction; cbn [scaled cond_Zopp]; lia. }
  assert (H15 : bounded prec emax 8444249301319680 (-49) = true) by reflexivity.
  assert (Hc100 : bounded prec emax 7036874417766400 (-46) = true) by reflexivity.
  destruct x as [s|s| |[|] m e]; try contradiction; cbn [nonneg_finite] in Hx.
  - (* x is a zero *)
    assert (Hc := scaled_pos 8444249301319680 (-49) ltac:(lia)).
    cbn [scaled cond_Zopp] in *. unfold SF64sub. cbn [SFsub negb].
    split; [|lia].
    destruct n as [sn|sn| |[|] mn en]; try contradiction; discriminate.
  - destruct (mantissa_bounds _ _ Hx) as (He & Hm & Hm').
    unfold SF64sub. cbn [SFsub cond_Zopp].
    cbn [scaled cond_Zopp] in H100 |- *.
    destruct (Z.lt_ge_cases e (-49)) as [Hlt|Hge].
    + (* below 2^4: the difference is negative *)
      assert (Hs := scaled_lt_exponent _ _ _ _ Hx H15 Hlt).
      split; [|intros; lia].
      rewrite Z.min_l by lia.
      rewrite (shl_align_fst m e e) by lia.
      rewrite (shl_align_fst 8444249301319680 (-49) e) by lia.
      rewrite Z.sub_diag, Z.pow_0_r, Z.mul_1_r.
      assert (Hp : 2 <= 2 ^ (-49 - e)).
      { change 2 with (2 ^ 1) at 1. apply Z.pow_le_mono_r; lia. }
      change (2 ^ 53) with 9007199254740992 in Hm.
      destruct (Zpos m - 8444249301319680 * 2 ^ (-49 - e)) as [|d|d] eqn:HD; try lia.
      unfold binary_normalize, binary_round.
      destruct (shl_align d e _) as [mz ez].
      rewrite SFltb_negative_round by assumption. discriminate.
    + assert (He46 : e <= -46).
      { destruct (Z.le_gt_cases e (-46)) as [|Hgt]; [assumption|].
        assert (Hs := scaled_lt_exponent _ _ _ _ Hc100 Hx Hgt). lia. }
      rewrite Z.min_r by lia.
      rewrite (shl_align_fst m e (-49)) by lia.
      rewrite (shl_align_fst 8444249301319680 (-49) (-49)) by lia.
      rewrite Z.sub_diag, Z.pow_0_r, Z.mul_1_r.
      assert (Hsc : Zpos m * 2 ^ (e + 1074) - 8444249301319680 * 2 ^ (-49 + 1074) =
                    (Zpos m * 2 ^ (e - -49) - 8444249301319680) * 2 ^ (-49 + 1074)).
      { replace (e + 1074) with ((e - -49) + (-49 + 1074)) by lia.
        rewrite (Z.pow_add_r 2 (e - -49) (-49 + 1074)) by lia. ring. }
      assert (HW : 0 < 2 ^ (-49 + 1074)) by (apply Z.pow_pos_nonneg; lia).
      destruct (Zpos m * 2 ^ (e - -49) - 8444249301319680) as [|d|d] eqn:HD.
      * cbn [binary_normalize]. rewrite SFltb_zero by assumption.
        split; [discriminate|]. lia.
      * cbn [binary_normalize].
        assert (Hk : 0 < 2 ^ (e - -49)) by (apply Z.pow_pos_nonneg; lia).
        assert (Hd53 : Zpos d < 2 ^ (53 + (e - -49))).
        { rewrite Z.pow_add_r by lia.
          assert (Zpos m * 2 ^ (e - -49) < 2 ^ 53 * 2 ^ (e - -49))
            by (apply Z.mul_lt_mono_pos_r; assumption).
          lia. }
        destruct (size_bounds d) as [Hlo Hhi].
        assert (Hdig : Zpos (digits2_pos d) <= 53 + (e - -49)).
        { destruct (Z.le_gt_cases (Zpos (digits2_pos d)) (53 + (e - -49))) as [|Hgt];
            [assumption|].
          assert (2 ^ (53 + (e - -49)) <= 2 ^ (Zpos (digits2_pos d) - 1))
            by (apply Z.pow_le_mono_r; lia).
          lia. }
        destruct (binary_round_exact d (-49)) as (m' & e' & Hr & Hb & Hv).
        -- lia.
        -- rewrite fexp_eq. lia.
        -- rewrite fexp_eq.
           destruct (Z.le_gt_cases (Zpos (digits2_pos d)) 53) as [Hs|Hs];
             [left; lia|right].
           rewrite Z.max_l by lia.
           set (s := Zpos (digits2_pos d) + -49 - 53 - -49).
           set (k := e - -49) in *.
           assert (Hs1 : 0 < s <= k) by (unfold s; lia).
           assert (Hsplit : 2 ^ k = 2 ^ (k - s) * 2 ^ s).
           { rewrite <- Z.pow_add_r by lia. f_equal. lia. }
           assert (H49 : 8444249301319680 = 15 * 2 ^ (49 - k) * 2 ^ k).
           { rewrite <- Z.mul_assoc, <- Z.pow_add_r by lia.
             replace (49 - k + k) with 49 by lia. reflexivity. }
           assert (Hps : 0 < 2 ^ s) by (apply Z.pow_pos_nonneg; lia).
           set (q := (Zpos m - 15 * 2 ^ (49 - k)) * 2 ^ (k - s)).
           assert (Hq : Zpos d = q * 2 ^ s).
           { unfold q. rewrite <- Z.mul_assoc, <- Hsplit.
             rewrite Z.mul_sub_distr_r, <- H49. lia. }
           assert (Hq0 : 0 < q) by nia.
           exists (Z.to_pos q). rewrite Z2Pos.id by assumption. exact Hq.
        -- rewrite Hr.
           rewrite (SFltb_scaled n (S754_finite false m' e') Hn Hb).
           cbn [scaled cond_Zopp]. rewrite Hv. lia.
      * cbn [binary_normalize]. unfold binary_round.
        destruct (shl_align d (-49) _) as [mz ez].
        rewrite SFltb_negative_round by assumption.
        split; [discriminate|]. lia.
Qed.

Lemma drop_test_scaled (p n : float) :
  (0 <=? p)%float = true -> (p <=? 100)%float = true ->
  (0 <=? n)%float = true -> (n <=? 100)%float = true ->
  (n <? p - 15)%float = true <->
  scaled (Prim2SF n) + scaled SF15 < scaled (Prim2SF p).
Proof.
  intros Hp0 Hp100 Hn0 Hn100.
  assert (Hp := between_0_100_nonneg_finite p Hp0 Hp100).
  assert (Hn := between_0_100_nonneg_finite n Hn0 Hn100).
  rewrite ltb_spec, sub_spec.
  change (Prim2SF 15) with SF15.
  apply SFsub_15_scaled; try assumption.
  rewrite leb_spec in Hp100. change (Prim2SF 100) with SF100 in Hp100.
  apply SFleb_scaled; [assumption|reflexivity|assumption].
Qed.

Lemma Qlt_common_denominator (P : positive) (a b c : Z) :
  (inject_Z c < Qmake a P - Qmake b P)%Q <-> c * Zpos P < a - b.
Proof.
  unfold Qlt, Qminus, Qplus, Qopp, inject_Z. cbn [Qnum Qden].
  rewrite Pos2Z.inj_mul. nia.
Qed.

Lemma drop_test_value (p n : float) :
  (0 <=? p)%float = true -> (p <=? 100)%float = true ->
  (0 <=? n)%float = true -> (n <=? 100)%float = true ->
  (n <? p - 15)%float = true <->
  (inject_Z 15 < float_value p - float_value n)%Q.
Proof.
  intros Hp0 Hp100 Hn0 Hn100.
  rewrite (drop_test_scaled p n Hp0 Hp100 Hn0 Hn100).
  unfold float_value. rewrite Qlt_common_denominator.
  rewrite Pos2Z.inj_pow. unfold SF15. cbn [scaled cond_Zopp].
  replace (15 * Z.pos 2 ^ Z.pos 1074) with (8444249301319680 * 2 ^ (-49 + 1074)).
  - lia.
  - change (-49 + 1074) with 1025. change (Z.pos 1074) with (49 + 1025).
    rewrite (Z.pow_add_r 2 49 1025) by lia.
    change (2 ^ 49) with 562949953421312. lia.
Qed.

Local Close Scope Z_scope.

(** X1. The test [current_score < previous_score - 15] of the drop rule,
    computed in binary64, decides the drop of the two composite scores as
    rational numbers: it holds exactly when the previous composite exceeds
    the new one by more than 15.  No rounding of the subtraction can move
    a pair of composites across the threshold.  ([float_value] is the
    value of a float: of 91.0 it is 91, of 0.5 it is 1/2.) *)
Theorem drop_rule_is_exact :
  (forall previous new_health,
     significant_drop (Some previous) new_health = true <->
     Qlt (inject_Z 15)
         (Qminus (float_value (calculate_composite_score previous))
                 (float_value (calculate_composite_score new_health)))) /\
  Qeq (float_value 91) (inject_Z 91) /\
  Qeq (float_value 0.5) (Qmake 1 2).
Proof.
  split; [|split; vm_compute; reflexivity].
  intros previous new_health. unfold significant_drop.
  destruct (composite_range previous) as [Hp0 Hp100].
  destruct (composite_range new_health) as [Hn0 Hn100].
  apply drop_test_value; assumption.
Qed.

(** *** Registration and the updates of a profile *)

Lemma set_length {V : Type} (d : Dict.t V) (k : string) (v : V) :
  List.length (Dict.set d k v) =
    if Dict.mem d k then List.length d else S (List.length d).
Proof.
  unfold Dict.mem. induction d as [|[k' v'] d IH]; simpl.
  - reflexivity.
  - destruct (String.eqb k' k); simpl.
    + reflexivity.
    + rewrite IH. destruct (Dict.get d k); reflexivity.
Qed.

(** X2. [add_customer] stores the profile under its own [customer_id] and
    returns: the profile is what a lookup of that id gives afterwards,
    whatever was registered under it before (an existing profile, its
    health history included, is replaced); every other customer, and the
    playbooks, are as they were; the number of customers grows by one
    exactly when the id was not registered; one information record is
    logged; adding the same profile again changes no customer. *)
Theorem add_customer_registers :
  forall c self,
    let s' := snd (add_customer c self) in
    fst (add_customer c self) = Ok tt /\
    Dict.get (customers s') (customer_id c) = Some c /\
    (forall k, k <> customer_id c ->
       Dict.get (customers s') k = Dict.get (customers self) k) /\
    List.length (customers s') =
      (if Dict.mem (customers self) (customer_id c)
       then List.length (customers self)
       else S (List.length (customers self))) /\
    active_playbooks s' = active_playbooks self /\
    log s' =
      (log self ++ [(INFO, AddedCustomer (name c) (customer_id c))])%list /\
    customers (snd (add_customer c s')) = customers s'.
Proof.
  intros c self s'. subst s'.
  unfold add_customer, bindM, store_customer, logger_info.
  cbn [fst snd customers active_playbooks log append_log set_customer].
  split; [reflexivity|]. split; [apply get_set_same|].
  split; [intros k Hk; apply get_set_other; congruence|].
  split; [apply set_length|]. split; [reflexivity|].
  split; [reflexivity|]. apply set_set.
Qed.

Lemma same_static_fields_refl (c : CustomerProfile) : same_static_fields c c.
Proof. repeat split. Qed.

Lemma same_static_fields_trans (c1 c2 c3 : CustomerProfile) :
  same_static_fields c1 c2 -> same_static_fields c2 c3 ->
  same_static_fields c1 c3.
Proof.
  unfold same_static_fields.
  intros (A1 & A2 & A3 & A4 & A5 & A6 & A7 & A8 & A9 & A10 & A11 & A12)
         (B1 & B2 & B3 & B4 & B5 & B6 & B7 & B8 & B9 & B10 & B11 & B12).
  repeat split; congruence.
Qed.

(** The profile [update_customer_health] leaves under the id. *)
Lemma updated_profile_fields (customer : CustomerProfile) (h : HealthMetrics)
    (now : datetime) (b : bool) :
  let c' :=
    if b then set_executive_escalation_required (set_health customer h now)
               true
    else set_health customer h now in
  current_health c' = Some h /\
  health_history c' = (health_history customer ++ [h])%list /\
  last_engagement c' = Some now /\
  same_static_fields customer c'.
Proof. destruct b; repeat split. Qed.

Lemma update_customer_health_log (cid : string) (data : SignalBag)
    (now : datetime) (self : Engine) (customer : CustomerProfile)
    (h : HealthMetrics) :
  Dict.get (customers self) cid = Some customer ->
  calculate_health_metrics customer data now = Ok h ->
  fst (update_customer_health cid data now self) = Ok h /\
  exists l,
    log (snd (update_customer_health cid data now self)) =
      (log self ++ l ++
       [(INFO, UpdatedHealth (name customer) (calculate_composite_score h)
                 (get_health_tier h))])%list.
Proof.
  intros G E.
  destruct (update_customer_health_inv _ cid data now self customer h G E
              (trigger_closed_log _))
    as (s4 & (Hc & l & Hl & _) & U).
  rewrite U. cbn [fst snd]. split; [reflexivity|].
  cbn [log set_customer] in Hl.
  destruct (current_health customer) as [p|];
    [destruct (calculate_composite_score h <?
               calculate_composite_score p - 15)|];
    cbn [log append_log set_customer]; rewrite Hl.
  - exists (l ++
            [(WARNING,
              SignificantHealthDrop (name customer)
                (calculate_composite_score p) (calculate_composite_score h));
             (WARNING,
              ExecutiveEscalationRequired (name customer)
                "significant_health_drop")])%list.
    rewrite <- !app_assoc. reflexivity.
  - exists l. rewrite <- !app_assoc. reflexivity.
  - exists l. rewrite <- !app_assoc. reflexivity.
Qed.

(** X3. A call of [update_customer_health] whose metrics are computed
    returns those metrics and records them: the profile under the id has
    them as [current_health] and as the new last entry of
    [health_history], whose earlier entries are kept, [last_engagement]
    is the time of the call, and the fields that describe the customer
    are untouched; no other customer's profile changes; the last record
    logged is the information record with the composite score and the
    tier of the new metrics. *)
Theorem update_customer_health_records :
  forall cid data now self customer h,
    Dict.get (customers self) cid = Some customer ->
    calculate_health_metrics customer data now = Ok h ->
    let r := update_customer_health cid data now self in
    fst r = Ok h /\
    (exists c',
       Dict.get (customers (snd r)) cid = Some c' /\
       current_health c' = Some h /\
       health_history c' = (health_history customer ++ [h])%list /\
       last_engagement c' = Some now /\
       same_static_fields customer c') /\
    (forall k, k <> cid ->
       Dict.get (customers (snd r)) k = Dict.get (customers self) k) /\
    (exists l,
       log (snd r) =
         (log self ++ l ++
          [(INFO, UpdatedHealth (name customer) (calculate_composite_score h)
                    (get_health_tier h))])%list).
Proof.
  intros cid data now self customer h G E r. subst r.
  destruct (update_customer_health_log cid data now self customer h G E)
    as [Hr Hl].
  split; [exact Hr|].
  rewrite (update_customer_health_customers _ _ _ _ _ _ G E).
  split; [|split; [|exact Hl]].
  - eexists. split; [apply get_set_same|].
    apply updated_profile_fields.
  - intros k Hk. apply get_set_other. congruence.
Qed.

(** One call of an updating method on the profile of a customer. *)
Lemma update_step_profile (self self' : Engine) (cid : string)
    (c : CustomerProfile) :
  update_step self self' ->
  Dict.get (customers self) cid = Some c ->
  exists c',
    Dict.get (customers self') cid = Some c' /\
    same_static_fields c c' /\
    ((health_history c' = health_history c /\
      current_health c' = current_health c) \/
     exists h, health_history c' = (health_history c ++ [h])%list /\
               current_health c' = Some h).
Proof.
  intros Hstep G.
  assert (Hsame : exists c', Dict.get (customers self) cid = Some c' /\
            same_static_fields c c' /\
            ((health_history c' = health_history c /\
              current_health c' = current_health c) \/
             exists h, health_history c' = (health_history c ++ [h])%list /\
                       current_health c' = Some h)).
  { exists c. split; [exact G|]. split; [apply same_static_fields_refl|].
    left. split; reflexivity. }
  destruct Hstep as [cid' data now self|].
  - destruct (Dict.get (customers self) cid') as [customer|] eqn:G'.
    + destruct (calculate_health_metrics customer data now) as [h|e] eqn:E.
      * rewrite (update_customer_health_customers _ _ _ _ _ _ G' E).
        destruct (String.eqb_spec cid' cid) as [->|Hne].
        -- rewrite get_set_same. eexists. split; [reflexivity|].
           assert (customer = c) by congruence. subst customer.
           destruct (updated_profile_fields c h now
                       (significant_drop (current_health c) h))
             as (H1 & H2 & _ & H4).
           split; [exact H4|]. right. exists h. split; assumption.
        -- rewrite (get_set_other _ _ _ _ Hne). exact Hsame.
      * rewrite (update_customer_health_raises _ _ _ _ _ _ G' E).
        exact Hsame.
    + rewrite (update_customer_health_unregistered _ _ _ _ G').
      exact Hsame.
  - rewrite update_playbook_action_customers. exact Hsame.
Qed.

(** X4. Through every sequence of calls of [update_customer_health] and
    [update_playbook_action], returning or raising, the health history of
    a registered customer is only appended to: the history afterwards is
    the history before followed by the metrics computed since, the
    current health is the last of these (the previous one when there are
    none), and the fields that describe the customer, [is_post_incident]
    and [trust_rebuilding_required] among them, are never assigned. *)
Theorem health_history_append_only (self self' : Engine) (cid : string)
    (c : CustomerProfile) :
  Dict.get (customers self) cid = Some c ->
  updates self self' ->
  exists c' l,
    Dict.get (customers self') cid = Some c' /\
    health_history c' = (health_history c ++ l)%list /\
    current_health c' = last (map Some l) (current_health c) /\
    same_static_fields c c'.
Proof.
  intros G Hu. induction Hu as [self|self self' self'' Hu IH Hstep].
  - exists c, []. rewrite app_nil_r. split; [exact G|].
    split; [reflexivity|]. split; [reflexivity|].
    apply same_static_fields_refl.
  - destruct (IH G) as (c1 & l & G1 & Hh & Hcur & Hs).
    destruct (update_step_profile _ _ cid c1 Hstep G1)
      as (c2 & G2 & Hs2 & [[Hh2 Hc2]|[h [Hh2 Hc2]]]).
    + exists c2, l. split; [exact G2|]. split; [congruence|].
      split; [congruence|].
      apply (same_static_fields_trans _ _ _ Hs Hs2).
    + exists c2, (l ++ [h])%list. split; [exact G2|].
      split; [rewrite Hh2, Hh, <- app_assoc; reflexivity|].
      split; [|apply (same_static_fields_trans _ _ _ Hs Hs2)].
      rewrite Hc2, map_app. cbn [map]. rewrite last_last. reflexivity.
Qed.

(** *** The update of an action *)

(** [_complete_playbook] assigns the status, the current score and the
    summary of the playbook, and no registry. *)
Lemma complete_playbook_shape (pb : RecoveryPlaybook) (self : Engine) :
  exists cur summary s' l,
    _complete_playbook pb self
      = (Ok (set_outcome pb "completed" cur summary), s') /\
    customers s' = customers self /\
    active_playbooks s' = active_playbooks self /\
    log s' = (log self ++ l)%list.
Proof.
  unfold _complete_playbook.
  cbn [pb_customer_id set_outcome].
  destruct (Dict.get (customers self) (pb_customer_id pb)) as [c|];
    [destruct c as [? ? ? ? ? ? ? ? ? ? [h|] ? ? ? ? ?]|];
    try (do 3 eexists; exists [(INFO, CompletedPlaybook (playbook_id pb)
                                        (pb_customer_id pb))];
         split; [reflexivity|]; repeat split; reflexivity).
  cbn [baseline_health_score set_outcome].
  destruct (baseline_health_score pb) as [b|];
    [destruct (truthy b)|];
    try (do 3 eexists; exists [(INFO, CompletedPlaybook (playbook_id pb)
                                        (pb_customer_id pb))];
         split; [reflexivity|]; repeat split; reflexivity).
  destruct (10 <=? calculate_composite_score h - b) eqn:E10;
    [|destruct (0 <=? calculate_composite_score h - b) eqn:E0].
  - do 3 eexists.
    exists [(INFO, SignificantImprovement (playbook_id pb)
                     (calculate_composite_score h - b));
            (INFO, CompletedPlaybook (playbook_id pb) (pb_customer_id pb))].
    split; [unfold bindM; cbn; rewrite ?E10, ?E0; cbn; reflexivity|].
    split; [reflexivity|]. split; [reflexivity|].
    cbn [log append_log]. rewrite <- app_assoc. reflexivity.
  - do 3 eexists.
    exists [(INFO, ModestImprovement (playbook_id pb)
                     (calculate_composite_score h - b));
            (INFO, CompletedPlaybook (playbook_id pb) (pb_customer_id pb))].
    split; [unfold bindM; cbn; rewrite ?E10, ?E0; cbn; reflexivity|].
    split; [reflexivity|]. split; [reflexivity|].
    cbn [log append_log]. rewrite <- app_assoc. reflexivity.
  - do 3 eexists.
    exists [(WARNING, NoImprovement (playbook_id pb)
                        (calculate_composite_score h - b));
            (INFO, CompletedPlaybook (playbook_id pb) (pb_customer_id pb))].
    split; [unfold bindM; cbn; rewrite ?E10, ?E0; cbn; reflexivity|].
    split; [reflexivity|]. split; [reflexivity|].
    cbn [log append_log]. rewrite <- app_assoc. reflexivity.
Qed.

(** A call that finds its playbook and its action stores, under the key
    of the playbook, the playbook with the updated actions, the derived
    percentage and, possibly, a new status and outcome. *)
Lemma update_playbook_action_shape (pid aid : string) (st : ActionStatus)
    (notes : string) (metrics : option (Dict.t PyValue)) (now : datetime)
    (self : Engine) (pb : RecoveryPlaybook) (a : PlaybookAction) :
  Dict.get (active_playbooks self) pid = Some pb ->
  find_action aid (actions pb) = Some a ->
  let actions' :=
    replace_action aid (fun a => update_action a st notes metrics now)
      (actions pb) in
  exists st' cur summary s' l,
    update_playbook_action pid aid st notes metrics now self = (Ok tt, s') /\
    customers s' = customers self /\
    active_playbooks s' =
      Dict.set (active_playbooks self) pid
        (set_outcome (set_actions pb actions' (percentage_of actions'))
           st' cur summary) /\
    (st' = "completed" \/ st' = pb_status pb) /\
    log s' = (log self ++ (INFO, UpdatedAction aid pid st) :: l)%list.
Proof.
  intros H F actions'.
  unfold update_playbook_action. rewrite H, F. fold actions'.
  destruct (find_action_length _ _ _ F) as [n Hn].
  assert (Hlen : List.length actions' = S n).
  { subst actions'. rewrite replace_action_length. exact Hn. }
  unfold bindM at 1. unfold lift, int_truediv. rewrite Hlen.
  rewrite <- Hlen. fold (percentage_of actions').
  set (pb1 := set_actions pb actions' (percentage_of actions')).
  unfold bindM at 1. unfold store_playbook at 1.
  unfold bindM at 1. unfold logger_info at 1.
  cbn [completion_percentage pb1 set_actions].
  destruct (percentage_of actions' =? 100) eqn:E.
  - set (s1 := append_log (set_playbook self pid pb1)
                 (INFO, UpdatedAction aid pid st)).
    destruct (complete_playbook_shape pb1 s1)
      as (cur & summary & s2 & l & E2 & Hc & Hp & Hl).
    exists "completed", cur, summary. eexists. exists l. split.
    { unfold bindM. rewrite E2. reflexivity. }
    cbn [customers active_playbooks log set_playbook].
    rewrite Hc, Hp, Hl. subst s1.
    cbn [customers active_playbooks log append_log set_playbook].
    rewrite set_set.
    split; [reflexivity|]. split; [reflexivity|].
    split; [left; reflexivity|].
    rewrite <- app_assoc. reflexivity.
  - exists (pb_status pb), (current_health_score pb), (outcome_summary pb).
    eexists. exists []. split; [reflexivity|].
    split; [reflexivity|]. split; [reflexivity|].
    split; [right; reflexivity|]. reflexivity.
Qed.

Lemma find_action_replace_same (aid : string)
    (f : PlaybookAction -> PlaybookAction) (l : list PlaybookAction)
    (a : PlaybookAction) :
  (forall x, action_id (f x) = action_id x) ->
  find_action aid l = Some a ->
  find_action aid (replace_action aid f l) = Some (f a).
Proof.
  intros Hf. unfold find_action.
  induction l as [|x l IH]; simpl; [discriminate|].
  destruct (String.eqb (action_id x) aid) eqn:E; simpl.
  - rewrite Hf, E. congruence.
  - rewrite E. exact IH.
Qed.

Lemma find_action_replace_other (aid aid' : string)
    (f : PlaybookAction -> PlaybookAction) (l : list PlaybookAction) :
  (forall x, action_id (f x) = action_id x) ->
  aid' <> aid ->
  find_action aid' (replace_action aid f l) = find_action aid' l.
Proof.
  intros Hf Hne. unfold find_action.
  induction l as [|x l IH]; simpl; [reflexivity|].
  destruct (String.eqb (action_id x) aid) eqn:E; simpl.
  - rewrite Hf. apply String.eqb_eq in E.
    destruct (String.eqb_spec (action_id x) aid'); [congruence|reflexivity].
  - rewrite IH. reflexivity.
Qed.

Lemma map_action_id_replace (aid : string)
    (f : PlaybookAction -> PlaybookAction) (l : list PlaybookAction) :
  (forall x, action_id (f x) = action_id x) ->
  map action_id (replace_action aid f l) = map action_id l.
Proof.
  intros Hf. induction l as [|x l IH]; simpl; [reflexivity|].
  destruct (String.eqb (action_id x) aid); simpl.
  - rewrite Hf. reflexivity.
  - rewrite IH. reflexivity.
Qed.

Lemma get_mem {V : Type} (d : Dict.t V) (k : string) (v : V) :
  Dict.get d k = Some v -> Dict.mem d k = true.
Proof. unfold Dict.mem. intros ->. reflexivity. Qed.

(** X5. A call of [update_playbook_action] that finds its playbook and its
    action returns and touches that action only: no customer changes, no
    other playbook changes and none is added; in the playbook the fields
    set at creation (its id, kind, customer, dates, baseline) and the
    order and ids of the actions are kept, a lookup of the action id now
    gives the action with the new status and notes (stamped with the time
    of the call when the status is Completed, its earlier stamp kept
    otherwise), and a lookup of any other action id gives what it gave
    before.  A playbook that was completed stays completed, even when the
    action is moved away from Completed. *)
Theorem update_playbook_action_frame :
  forall pid aid st notes metrics now self pb a,
    Dict.get (active_playbooks self) pid = Some pb ->
    find_action aid (actions pb) = Some a ->
    let r := update_playbook_action pid aid st notes metrics now self in
    let a' := update_action a st notes metrics now in
    fst r = Ok tt /\
    customers (snd r) = customers self /\
    (forall k, k <> pid ->
       Dict.get (active_playbooks (snd r)) k =
       Dict.get (active_playbooks self) k) /\
    List.length (active_playbooks (snd r)) =
      List.length (active_playbooks self) /\
    (exists pb',
       Dict.get (active_playbooks (snd r)) pid = Some pb' /\
       same_playbook_header pb pb' /\
       map action_id (actions pb') = map action_id (actions pb) /\
       find_action aid (actions pb') = Some a' /\
       (forall aid', aid' <> aid ->
          find_action aid' (actions pb') = find_action aid' (actions pb)) /\
       (pb_status pb = "completed" -> pb_status pb' = "completed")) /\
    status a' = st /\ outcome_notes a' = notes /\
    completion_date a' =
      (if ActionStatus_eqb st COMPLETED then Some now
       else completion_date a).
Proof.
  intros pid aid st notes metrics now self pb a G F r a'. subst r a'.
  destruct (update_playbook_action_shape pid aid st notes metrics now self
              pb a G F)
    as (st' & cur & summary & s' & l & U & Hc & Hp & Hst & _).
  rewrite U. cbn [fst snd]. rewrite Hp.
  assert (Hf : forall x, action_id (update_action x st notes metrics now) =
                         action_id x) by reflexivity.
  split; [reflexivity|]. split; [exact Hc|].
  split; [intros k Hk; apply get_set_other; congruence|].
  split; [rewrite set_length, (get_mem _ _ _ G); reflexivity|].
  split; [|repeat split].
  eexists. split; [apply get_set_same|].
  cbn [actions set_outcome set_actions pb_status].
  split; [repeat split|].
  split; [apply (map_action_id_replace _ _ _ Hf)|].
  split; [apply (find_action_replace_same _ _ _ _ Hf F)|].
  split; [intros aid' Hne; apply (find_action_replace_other _ _ _ _ Hf Hne)|].
  intros Hcompleted. destruct Hst as [->| ->]; [reflexivity|assumption].
Qed.

(** *** The trigger rules, rule by rule *)

Lemma trigger_playbook_explicit (customer : CustomerProfile)
    (t : PlaybookType) (now : datetime) (s : Engine) :
  exists s',
    _trigger_playbook customer t now s = (Ok tt, s') /\
    customers s' = customers s /\
    active_playbooks s' =
      match instantiated customer t now with
      | Some pb => Dict.set (active_playbooks s) (playbook_id pb) pb
      | None => active_playbooks s
      end /\
    log s' =
      (log s ++
       match instantiated customer t now with
       | Some pb =>
           [ (INFO, TriggeredPlaybook t (name customer) (playbook_id pb));
             (INFO, PlaybookAssigned (playbook_id pb) (assigned_csm pb)) ]
       | None => [ (WARNING, PlaybookNotImplemented t) ]
       end)%list.
Proof.
  destruct t; unfold _trigger_playbook, instantiated;
    try (eexists; split; [reflexivity|]; repeat split; reflexivity).
  - set (pb := match current_health customer with
               | Some h => set_baseline_health_score
                             (create_post_incident_recovery_playbook
                                customer now)
                             (Some (calculate_composite_score h))
               | None => create_post_incident_recovery_playbook customer now
               end).
    eexists. split; [reflexivity|].
    cbn [customers active_playbooks log append_log set_playbook].
    split; [reflexivity|]. split; [reflexivity|].
    rewrite <- app_assoc. reflexivity.
  - set (pb := match current_health customer with
               | Some h => set_baseline_health_score
                             (create_engagement_revival_playbook
                                customer now)
                             (Some (calculate_composite_score h))
               | None => create_engagement_revival_playbook customer now
               end).
    eexists. split; [reflexivity|].
    cbn [customers active_playbooks log append_log set_playbook].
    split; [reflexivity|]. split; [reflexivity|].
    rewrite <- app_assoc. reflexivity.
Qed.

Lemma ensure_playbook_explicit (customer : CustomerProfile)
    (t : PlaybookType) (now : datetime) (s : Engine) :
  exists s',
    ensure_playbook customer t now s = (Ok tt, s') /\
    customers s' = customers s /\
    active_playbooks s' = ensured customer t now (active_playbooks s) /\
    log s' = (log s ++ ensured_log customer t now (active_playbooks s))%list.
Proof.
  unfold ensure_playbook, bindM, ensured, ensured_log.
  rewrite has_active_playbook_eq.
  destruct (has_active (active_playbooks s) (customer_id customer) t);
    cbn [negb].
  - exists s. rewrite app_nil_r. repeat split; reflexivity.
  - apply trigger_playbook_explicit.
Qed.

Lemma rule_explicit (b : bool) (customer : CustomerProfile)
    (t : PlaybookType) (now : datetime) (s : Engine) :
  exists s',
    (if b then ensure_playbook customer t now else ret tt) s = (Ok tt, s') /\
    customers s' = customers s /\
    active_playbooks s' =
      rules_registry customer now (if b then [t] else [])
        (active_playbooks s) /\
    log s' =
      (log s ++
       rules_log customer now (if b then [t] else []) (active_playbooks s))
      %list.
Proof.
  destruct b.
  - destruct (ensure_playbook_explicit customer t now s)
      as (s' & E & Hc & Hp & Hl).
    exists s'. cbn [rules_registry fold_left rules_log].
    rewrite app_nil_r. repeat split; assumption.
  - exists s. cbn [rules_registry fold_left rules_log].
    rewrite app_nil_r. repeat split; reflexivity.
Qed.

Lemma rules_registry_app (customer : CustomerProfile) (now : datetime)
    (k1 k2 : list PlaybookType) (d : Dict.t RecoveryPlaybook) :
  rules_registry customer now (k1 ++ k2) d =
    rules_registry customer now k2 (rules_registry customer now k1 d).
Proof. unfold rules_registry. apply fold_left_app. Qed.

Lemma rules_log_app (customer : CustomerProfile) (now : datetime)
    (k1 k2 : list PlaybookType) (d : Dict.t RecoveryPlaybook) :
  rules_log customer now (k1 ++ k2) d =
    (rules_log customer now k1 d ++
     rules_log customer now k2 (rules_registry customer now k1 d))%list.
Proof.
  revert d. induction k1 as [|t k1 IH]; intros d; simpl.
  - reflexivity.
  - rewrite IH, <- app_assoc. reflexivity.
Qed.

(** The whole of [_check_playbook_triggers]: what it returns and the
    state it leaves. *)
Lemma check_triggers_explicit (customer : CustomerProfile)
    (previous_health : option HealthMetrics) (new_health : HealthMetrics)
    (now : datetime) (self : Engine) :
  let kinds := applicable_kinds customer new_health in
  exists s',
    _check_playbook_triggers customer previous_health new_health now self =
      (Ok (if significant_drop previous_health new_health
           then set_executive_escalation_required customer true
           else customer), s') /\
    customers s' = customers self /\
    active_playbooks s' =
      rules_registry customer now kinds (active_playbooks self) /\
    log s' =
      (log self ++ rules_log customer now kinds (active_playbooks self) ++
       drop_log customer previous_health new_health)%list.
Proof.
  intros kinds. subst kinds. unfold applicable_kinds.
  unfold _check_playbook_triggers.
  destruct (rule_explicit
              (is_post_incident customer && trust_rebuilding_required customer)
              customer POST_INCIDENT_RECOVERY now self)
    as (s1 & E1 & C1 & P1 & L1).
  assert (S2 : exists s2,
             (match get_health_tier new_health with
              | CRITICAL | RED_ALERT =>
                  ensure_playbook customer CHURN_PREVENTION now
              | _ => ret tt
              end) s1 = (Ok tt, s2) /\
             customers s2 = customers s1 /\
             active_playbooks s2 =
               rules_registry customer now
                 (match get_health_tier new_health with
                  | CRITICAL | RED_ALERT => [CHURN_PREVENTION]
                  | _ => []
                  end) (active_playbooks s1) /\
             log s2 =
               (log s1 ++
                rules_log customer now
                  (match get_health_tier new_health with
                   | CRITICAL | RED_ALERT => [CHURN_PREVENTION]
                   | _ => []
                   end) (active_playbooks s1))%list).
  { destruct (get_health_tier new_health).
    - apply (rule_explicit false customer CHURN_PREVENTION now s1).
    - apply (rule_explicit false customer CHURN_PREVENTION now s1).
    - apply (rule_explicit true customer CHURN_PREVENTION now s1).
    - apply (rule_explicit true). }
  destruct S2 as (s2 & E2 & C2 & P2 & L2).
  destruct (rule_explicit (engagement_score new_health <? 60)
              customer ENGAGEMENT_REVIVAL now s2)
    as (s3 & E3 & C3 & P3 & L3).
  destruct (rule_explicit (value_realization_score new_health <? 50)
              customer VALUE_ACCELERATION now s3)
    as (s4 & E4 & C4 & P4 & L4).
  unfold bindM at 1. unfold bindM at 1. unfold bindM at 1. unfold bindM at 1.
  rewrite E1, E2, E3, E4.
  assert (HC : customers s4 = customers self) by congruence.
  assert (HP : active_playbooks s4 =
               rules_registry customer now
                 ((if is_post_incident customer &&
                      trust_rebuilding_required customer
                   then [POST_INCIDENT_RECOVERY] else []) ++
                  (match get_health_tier new_health with
                   | CRITICAL | RED_ALERT => [CHURN_PREVENTION]
                   | _ => []
                   end) ++
                  (if engagement_score new_health <? 60
                   then [ENGAGEMENT_REVIVAL] else []) ++
                  (if value_realization_score new_health <? 50
                   then [VALUE_ACCELERATION] else []))
                 (active_playbooks self)).
  { rewrite !rules_registry_app, <- P1, <- P2, <- P3. exact P4. }
  assert (HL : log s4 =
               (log self ++
                rules_log customer now
                  ((if is_post_incident customer &&
                       trust_rebuilding_required customer
                    then [POST_INCIDENT_RECOVERY] else []) ++
                   (match get_health_tier new_health with
                    | CRITICAL | RED_ALERT => [CHURN_PREVENTION]
                    | _ => []
                    end) ++
                   (if engagement_score new_health <? 60
                    then [ENGAGEMENT_REVIVAL] else []) ++
                   (if value_realization_score new_health <? 50
                    then [VALUE_ACCELERATION] else []))
                  (active_playbooks self))%list).
  { rewrite !rules_log_app, <- P1, <- P2, <- P3.
    rewrite L4, L3, L2, L1, <- !app_assoc. reflexivity. }
  unfold drop_log, significant_drop.
  destruct previous_health as [p|].
  - destruct (calculate_composite_score new_health <?
              calculate_composite_score p - 15).
    + eexists. split; [reflexivity|].
      cbn [customers active_playbooks log append_log].
      split; [exact HC|]. split; [exact HP|].
      rewrite HL, <- !app_assoc. reflexivity.
    + exists s4. rewrite app_nil_r. repeat split; assumption.
  - exists s4. rewrite app_nil_r. repeat split; assumption.
Qed.

(** The whole of a call of [update_customer_health] that computes its
    metrics. *)
Lemma update_customer_health_explicit (cid : string) (data : SignalBag)
    (now : datetime) (self : Engine) (customer : CustomerProfile)
    (h : HealthMetrics) :
  Dict.get (customers self) cid = Some customer ->
  calculate_health_metrics customer data now = Ok h ->
  let c1 := set_health customer h now in
  let kinds := applicable_kinds c1 h in
  exists s',
    update_customer_health cid data now self = (Ok h, s') /\
    active_playbooks s' =
      rules_registry c1 now kinds (active_playbooks self) /\
    log s' =
      (log self ++ rules_log c1 now kinds (active_playbooks self) ++
       drop_log c1 (current_health customer) h ++
       [(INFO, UpdatedHealth (name customer) (calculate_composite_score h)
                 (get_health_tier h))])%list.
Proof.
  intros G E c1 kinds.
  destruct (check_triggers_explicit c1 (current_health customer) h now
              (set_customer self cid c1)) as (s4 & E4 & C4 & P4 & L4).
  unfold update_customer_health. rewrite G.
  unfold bindM at 1. unfold lift. rewrite E.
  unfold bindM at 1. unfold store_customer at 1.
  unfold bindM at 1. fold c1. rewrite E4.
  eexists. split; [reflexivity|].
  cbn [customers active_playbooks log append_log set_customer].
  split; [exact P4|].
  rewrite L4. cbn [log set_customer].
  destruct (significant_drop (current_health customer) h);
    rewrite <- !app_assoc; reflexivity.
Qed.

(** *** What the trigger rules register *)

Lemma ensured_no_template (customer : CustomerProfile) (t : PlaybookType)
    (now : datetime) (d : Dict.t RecoveryPlaybook) :
  instantiated customer t now = None -> ensured customer t now d = d.
Proof.
  intros H. unfold ensured. rewrite H.
  destruct (has_active d (customer_id customer) t); reflexivity.
Qed.

Lemma rules_registry_applicable (customer : CustomerProfile)
    (h : HealthMetrics) (now : datetime) (d : Dict.t RecoveryPlaybook) :
  rules_registry customer now (applicable_kinds customer h) d =
    let d1 :=
      if is_post_incident customer && trust_rebuilding_required customer
      then ensured customer POST_INCIDENT_RECOVERY now d else d in
    if engagement_score h <? 60
    then ensured customer ENGAGEMENT_REVIVAL now d1 else d1.
Proof.
  unfold applicable_kinds. rewrite !rules_registry_app.
  destruct (is_post_incident customer && trust_rebuilding_required customer);
    destruct (get_health_tier h);
    destruct (engagement_score h <? 60);
    destruct (value_realization_score h <? 50);
    cbn [rules_registry fold_left];
    rewrite ?(ensured_no_template customer CHURN_PREVENTION) by reflexivity;
    rewrite ?(ensured_no_template customer VALUE_ACCELERATION) by reflexivity;
    reflexivity.
Qed.

Lemma pir_id_not_er_id (cid cid' : string) (now now' : datetime) :
  pir_id cid now <> er_id cid' now'.
Proof. unfold pir_id, er_id. cbn [String.append]. discriminate. Qed.

Lemma has_active_set (d : Dict.t RecoveryPlaybook) (k : string)
    (pb : RecoveryPlaybook) (cid : string) (t : PlaybookType) :
  has_active (Dict.set d k pb) cid t = true ->
  has_active d cid t = true \/ is_active_for cid t pb = true.
Proof.
  unfold has_active, Dict.values.
  induction d as [|[k' v'] d IH]; simpl.
  - rewrite orb_false_r. auto.
  - destruct (String.eqb k' k); simpl.
    + destruct (is_active_for cid t pb); [auto|]. simpl.
      intros ->. left. apply orb_true_r.
    + destruct (is_active_for cid t v'); simpl; [auto|]. exact IH.
Qed.

Lemma ensured_get_other (customer : CustomerProfile) (t : PlaybookType)
    (now : datetime) (d : Dict.t RecoveryPlaybook) (k : string) :
  (forall pb, instantiated customer t now = Some pb -> playbook_id pb <> k) ->
  Dict.get (ensured customer t now d) k = Dict.get d k.
Proof.
  intros H. unfold ensured.
  destruct (has_active d (customer_id customer) t); [reflexivity|].
  destruct (instantiated customer t now) as [pb|]; [|reflexivity].
  apply get_set_other. apply H. reflexivity.
Qed.

Lemma instantiated_post_incident (customer : CustomerProfile)
    (h : HealthMetrics) (now : datetime) :
  current_health customer = Some h ->
  instantiated customer POST_INCIDENT_RECOVERY now =
    Some (set_baseline_health_score
            (create_post_incident_recovery_playbook customer now)
            (Some (calculate_composite_score h))).
Proof. intros H. unfold instantiated. rewrite H. reflexivity. Qed.

Lemma instantiated_engagement_revival (customer : CustomerProfile)
    (h : HealthMetrics) (now : datetime) :
  current_health customer = Some h ->
  instantiated customer ENGAGEMENT_REVIVAL now =
    Some (set_baseline_health_score
            (create_engagement_revival_playbook customer now)
            (Some (calculate_composite_score h))).
Proof. intros H. unfold instantiated. rewrite H. reflexivity. Qed.

Lemma instantiated_id (customer : CustomerProfile) (t : PlaybookType)
    (now : datetime) (pb : RecoveryPlaybook) :
  instantiated customer t now = Some pb ->
  (t = POST_INCIDENT_RECOVERY /\
   playbook_id pb = pir_id (customer_id customer) now) \/
  (t = ENGAGEMENT_REVIVAL /\
   playbook_id pb = er_id (customer_id customer) now).
Proof.
  unfold instantiated. destruct t; try discriminate;
    intros [= <-]; [left|right]; (split; [reflexivity|]);
    destruct (current_health customer); reflexivity.
Qed.

(** X6. What a call of [update_customer_health] that computes its metrics
    registers.  For a post-incident customer that requires trust
    rebuilding and has no active post-incident playbook, the registry
    afterwards holds, under the id [PIR-<customer_id>-<date>], the
    post-incident template with the composite of the NEW metrics as its
    baseline, whatever was stored under that id before (a completed
    playbook of the same day is replaced); likewise the engagement-revival
    template under [ER-<customer_id>-<date>] when the new engagement score
    is below 60 and no such playbook is active.  Every other entry of the
    registry is as it was, and so is each of the two when its rule does
    not apply. *)
Theorem triggered_playbooks_registered :
  forall cid data now self customer h,
    Dict.get (customers self) cid = Some customer ->
    calculate_health_metrics customer data now = Ok h ->
    let s' := snd (update_customer_health cid data now self) in
    let c1 := set_health customer h now in
    let d := active_playbooks self in
    let id := customer_id customer in
    let post_incident :=
      is_post_incident customer && trust_rebuilding_required customer in
    (post_incident = true ->
     has_active d id POST_INCIDENT_RECOVERY = false ->
     Dict.get (active_playbooks s') (pir_id id now) =
       Some (set_baseline_health_score
               (create_post_incident_recovery_playbook c1 now)
               (Some (calculate_composite_score h)))) /\
    ((engagement_score h <? 60) = true ->
     has_active d id ENGAGEMENT_REVIVAL = false ->
     Dict.get (active_playbooks s') (er_id id now) =
       Some (set_baseline_health_score
               (create_engagement_revival_playbook c1 now)
               (Some (calculate_composite_score h)))) /\
    (post_incident = false \/ has_active d id POST_INCIDENT_RECOVERY = true ->
     Dict.get (active_playbooks s') (pir_id id now) =
       Dict.get d (pir_id id now)) /\
    ((engagement_score h <? 60) = false ->
     Dict.get (active_playbooks s') (er_id id now) =
       Dict.get d (er_id id now)) /\
    (forall k, k <> pir_id id now -> k <> er_id id now ->
       Dict.get (active_playbooks s') k = Dict.get d k).
Proof.
  intros cid data now self customer h G E s' c1 d id post_incident.
  destruct (update_customer_health_explicit cid data now self customer h G E)
    as (s1 & U & P & _).
  subst s'. rewrite U. cbn [snd]. rewrite P.
  rewrite rules_registry_applicable. fold d.
  change (is_post_incident (set_health customer h now) &&
          trust_rebuilding_required (set_health customer h now))
    with post_incident.
  fold c1.
  assert (Hpir : instantiated c1 POST_INCIDENT_RECOVERY now =
                 Some (set_baseline_health_score
                         (create_post_incident_recovery_playbook c1 now)
                         (Some (calculate_composite_score h))))
    by (apply instantiated_post_incident; reflexivity).
  assert (Her : instantiated c1 ENGAGEMENT_REVIVAL now =
                Some (set_baseline_health_score
                        (create_engagement_revival_playbook c1 now)
                        (Some (calculate_composite_score h))))
    by (apply instantiated_engagement_revival; reflexivity).
  assert (GetER : forall d1 k, k <> er_id id now ->
            Dict.get (ensured c1 ENGAGEMENT_REVIVAL now d1) k = Dict.get d1 k).
  { intros d1 k Hk. apply ensured_get_other. rewrite Her.
    intros pb [= <-]. intros Heq. apply Hk. symmetry. exact Heq. }
  assert (GetPIR : forall d1 k, k <> pir_id id now ->
            Dict.get (ensured c1 POST_INCIDENT_RECOVERY now d1) k =
            Dict.get d1 k).
  { intros d1 k Hk. apply ensured_get_other. rewrite Hpir.
    intros pb [= <-]. intros Heq. apply Hk. symmetry. exact Heq. }
  cbv zeta.
  split; [|split; [|split; [|split]]].
  - intros Hpost Hnone. rewrite Hpost.
    assert (Hd1 : Dict.get (ensured c1 POST_INCIDENT_RECOVERY now d)
                    (pir_id id now) =
                  Some (set_baseline_health_score
                          (create_post_incident_recovery_playbook c1 now)
                          (Some (calculate_composite_score h)))).
    { unfold ensured.
      change (customer_id c1) with id. rewrite Hnone, Hpir.
      apply get_set_same. }
    destruct (engagement_score h <? 60); [|exact Hd1].
    rewrite GetER by apply pir_id_not_er_id. exact Hd1.
  - intros Heng Hnone. rewrite Heng.
    set (d1 := if post_incident
               then ensured c1 POST_INCIDENT_RECOVERY now d else d).
    assert (Hnone1 : has_active d1 id ENGAGEMENT_REVIVAL = false).
    { subst d1. destruct post_incident; [|exact Hnone].
      unfold ensured.
      destruct (has_active d (customer_id c1) POST_INCIDENT_RECOVERY);
        [exact Hnone|].
      rewrite Hpir.
      destruct (has_active (Dict.set d _ _) id ENGAGEMENT_REVIVAL) eqn:Hact;
        [|reflexivity].
      apply has_active_set in Hact. destruct Hact as [Hact|Hact].
      - congruence.
      - unfold is_active_for in Hact. cbn in Hact.
        rewrite andb_false_r in Hact. discriminate. }
    unfold ensured. change (customer_id c1) with id.
    rewrite Hnone1, Her. apply get_set_same.
  - intros Hno.
    assert (Hd1 : Dict.get
                    (if post_incident
                     then ensured c1 POST_INCIDENT_RECOVERY now d else d)
                    (pir_id id now) = Dict.get d (pir_id id now)).
    { destruct Hno as [-> | Hact]; [reflexivity|].
      destruct post_incident; [|reflexivity].
      unfold ensured. change (customer_id c1) with id. rewrite Hact.
      reflexivity. }
    destruct (engagement_score h <? 60); [|exact Hd1].
    rewrite GetER by apply pir_id_not_er_id. exact Hd1.
  - intros ->.
    destruct post_incident; [|reflexivity].
    apply GetPIR. intros Heq. symmetry in Heq.
    exact (pir_id_not_er_id _ _ _ _ Heq).
  - intros k Hk1 Hk2.
    destruct (engagement_score h <? 60); [rewrite GetER by assumption|];
      (destruct post_incident; [apply GetPIR; assumption|reflexivity]).
Qed.

(** *** The registries of an engine driven through its methods *)

Lemma get_In_entry {V : Type} (d : Dict.t V) (k : string) (v : V) :
  Dict.get d k = Some v -> In (k, v) d.
Proof.
  induction d as [|[k' v'] d IH]; simpl; [discriminate|].
  destruct (String.eqb_spec k' k) as [->|Hne].
  - intros [= ->]. left. reflexivity.
  - intros H. right. apply IH, H.
Qed.

Lemma set_In_inv {V : Type} (d : Dict.t V) (k k' : string) (v v' : V) :
  In (k, v) (Dict.set d k' v') -> (k = k' /\ v = v') \/ In (k, v) d.
Proof.
  induction d as [|[k0 v0] d IH]; simpl.
  - intros [[= <- <-]|[]]. left. split; reflexivity.
  - destruct (String.eqb k0 k'); simpl.
    + intros [[= <- <-]|H]; [left; split; reflexivity|right; right; exact H].
    + intros [H|H]; [right; left; exact H|].
      destruct (IH H) as [?|?]; [left; assumption|right; right; assumption].
Qed.

Lemma set_In_other {V : Type} (d : Dict.t V) (k k' : string) (v v' : V) :
  In (k, v) d -> k <> k' -> In (k, v) (Dict.set d k' v').
Proof.
  intros H Hne. induction d as [|[k0 v0] d IH]; simpl; [destruct H|].
  destruct (String.eqb_spec k0 k') as [->|Hne0]; simpl.
  - destruct H as [[= <- <-]|H]; [congruence|right; exact H].
  - destruct H as [H|H]; [left; exact H|right; apply IH, H].
Qed.

Lemma Forall_entries_set {V : Type} (P : string * V -> Prop) (d : Dict.t V)
    (k : string) (v : V) :
  Forall P d -> P (k, v) -> Forall P (Dict.set d k v).
Proof.
  intros Hd Hv. apply Forall_forall. intros [k0 v0] Hin.
  destruct (set_In_inv _ _ _ _ _ Hin) as [[-> ->]|Hin'];
    [exact Hv|].
  rewrite Forall_forall in Hd. apply Hd, Hin'.
Qed.

Lemma mem_false_not_In {V : Type} (d : Dict.t V) (k : string) :
  Dict.mem d k = false -> ~ In k (map fst d).
Proof.
  unfold Dict.mem. induction d as [|[k' v'] d IH]; simpl; [tauto|].
  destruct (String.eqb_spec k' k) as [->|Hne]; [discriminate|].
  intros H [Heq|Hin]; [congruence|]. apply (IH H Hin).
Qed.

Lemma set_keys {V : Type} (d : Dict.t V) (k : string) (v : V) :
  map fst (Dict.set d k v) =
    if Dict.mem d k then map fst d else (map fst d ++ [k])%list.
Proof.
  unfold Dict.mem. induction d as [|[k' v'] d IH]; simpl; [reflexivity|].
  destruct (String.eqb_spec k' k) as [->|Hne]; simpl; [reflexivity|].
  rewrite IH. destruct (Dict.get d k); reflexivity.
Qed.

Lemma set_keys_NoDup {V : Type} (d : Dict.t V) (k : string) (v : V) :
  NoDup (map fst d) -> NoDup (map fst (Dict.set d k v)).
Proof.
  intros H. rewrite set_keys. destruct (Dict.mem d k) eqn:E; [exact H|].
  apply NoDup_app; [exact H|repeat constructor; intros []|].
  intros x Hx [<-|[]]. exact (mem_false_not_In _ _ E Hx).
Qed.

Lemma mem_set_mono {V : Type} (d : Dict.t V) (k k' : string) (v : V) :
  Dict.mem d k = true -> Dict.mem (Dict.set d k' v) k = true.
Proof.
  unfold Dict.mem. destruct (String.eqb_spec k' k) as [->|Hne].
  - rewrite get_set_same. reflexivity.
  - rewrite (get_set_other _ _ _ _ Hne). auto.
Qed.

Lemma mem_set_same {V : Type} (d : Dict.t V) (k : string) (v : V) :
  Dict.mem (Dict.set d k v) k = true.
Proof. unfold Dict.mem. rewrite get_set_same. reflexivity. Qed.

Lemma playbook_entry_ok_mono (cs cs' : Dict.t CustomerProfile)
    (kv : string * RecoveryPlaybook) :
  (forall k, Dict.mem cs k = true -> Dict.mem cs' k = true) ->
  playbook_entry_ok cs kv -> playbook_entry_ok cs' kv.
Proof.
  intros Hm (H1 & H2 & H3 & H4 & H5).
  repeat split; try assumption. apply Hm, H4.
Qed.

(** The playbook a rule registers is an entry the invariant accepts. *)
Lemma instantiated_entry_ok (cs : Dict.t CustomerProfile)
    (customer : CustomerProfile) (h : HealthMetrics) (t : PlaybookType)
    (now : datetime) (pb : RecoveryPlaybook) :
  current_health customer = Some h ->
  Dict.mem cs (customer_id customer) = true ->
  instantiated customer t now = Some pb ->
  playbook_entry_ok cs (playbook_id pb, pb).
Proof.
  intros Hh Hm. unfold instantiated. rewrite Hh.
  destruct t; try discriminate; intros [= <-].
  - split; [reflexivity|].
    split; [left; split; [reflexivity|split; [exists now|]]; reflexivity|].
    split; [left; reflexivity|]. split; [exact Hm|].
    exists h. reflexivity.
  - split; [reflexivity|].
    split; [right; split; [reflexivity|split; [exists now|]]; reflexivity|].
    split; [left; reflexivity|]. split; [exact Hm|].
    exists h. reflexivity.
Qed.

Lemma ensured_ok (cs : Dict.t CustomerProfile) (customer : CustomerProfile)
    (h : HealthMetrics) (t : PlaybookType) (now : datetime)
    (d : Dict.t RecoveryPlaybook) :
  current_health customer = Some h ->
  Dict.mem cs (customer_id customer) = true ->
  NoDup (map fst d) /\ Forall (playbook_entry_ok cs) d ->
  NoDup (map fst (ensured customer t now d)) /\
  Forall (playbook_entry_ok cs) (ensured customer t now d).
Proof.
  intros Hh Hm [Hn Hf]. unfold ensured.
  destruct (has_active d (customer_id customer) t); [split; assumption|].
  destruct (instantiated customer t now) as [pb|] eqn:E;
    [|split; assumption].
  split; [apply set_keys_NoDup, Hn|].
  apply Forall_entries_set; [exact Hf|].
  apply (instantiated_entry_ok cs customer h t now pb Hh Hm E).
Qed.

Lemma rules_registry_ok (cs : Dict.t CustomerProfile)
    (customer : CustomerProfile) (h : HealthMetrics) (now : datetime)
    (kinds : list PlaybookType) (d : Dict.t RecoveryPlaybook) :
  current_health customer = Some h ->
  Dict.mem cs (customer_id customer) = true ->
  NoDup (map fst d) /\ Forall (playbook_entry_ok cs) d ->
  NoDup (map fst (rules_registry customer now kinds d)) /\
  Forall (playbook_entry_ok cs) (rules_registry customer now kinds d).
Proof.
  intros Hh Hm. revert d. unfold rules_registry.
  induction kinds as [|t kinds IH]; intros d Hd; simpl; [exact Hd|].
  apply IH. apply (ensured_ok cs customer h t now d Hh Hm Hd).
Qed.

Lemma registry_ok_init : registry_ok init.
Proof. repeat split; constructor. Qed.

Lemma step_registry_ok (self self' : Engine) :
  step self self' -> registry_ok self -> registry_ok self'.
Proof.
  intros Hstep (HnC & HnP & HfC & HfP).
  destruct Hstep as [c self|cid data now self|pid aid st notes metrics now self].
  - (* add_customer *)
    unfold add_customer, bindM, store_customer, logger_info.
    cbn [snd]. unfold registry_ok.
    cbn [customers active_playbooks append_log set_customer].
    split; [apply set_keys_NoDup, HnC|]. split; [exact HnP|].
    split; [apply Forall_entries_set; [exact HfC|reflexivity]|].
    eapply Forall_impl; [|exact HfP].
    intros kv. apply playbook_entry_ok_mono.
    intros k. apply mem_set_mono.
  - (* update_customer_health *)
    destruct (Dict.get (customers self) cid) as [customer|] eqn:G.
    + destruct (calculate_health_metrics customer data now) as [h|e] eqn:E.
      * assert (Hid : customer_id customer = cid).
        { rewrite Forall_forall in HfC.
          apply (HfC (cid, customer)), get_In_entry, G. }
        destruct (update_customer_health_explicit cid data now self
                    customer h G E) as (s1 & U & P & _).
        assert (HC := update_customer_health_customers _ _ _ _ _ _ G E).
        rewrite U in HC |- *. cbn [snd] in HC |- *.
        unfold registry_ok. rewrite HC, P.
        set (c' := if significant_drop (current_health customer) h
                   then set_executive_escalation_required
                          (set_health customer h now) true
                   else set_health customer h now).
        assert (Hid' : customer_id c' = cid).
        { subst c'. destruct (significant_drop _ _); exact Hid. }
        split; [apply set_keys_NoDup, HnC|].
        assert (Hmono : forall k, Dict.mem (customers self) k = true ->
                  Dict.mem (Dict.set (customers self) cid c') k = true)
          by (intros k; apply mem_set_mono).
        assert (HR : NoDup (map fst
                        (rules_registry (set_health customer h now) now
                           (applicable_kinds (set_health customer h now) h)
                           (active_playbooks self))) /\
                     Forall (playbook_entry_ok
                               (Dict.set (customers self) cid c'))
                       (rules_registry (set_health customer h now) now
                          (applicable_kinds (set_health customer h now) h)
                          (active_playbooks self))).
        { apply (rules_registry_ok _ _ h); [reflexivity| |].
          - cbn [customer_id set_health]. rewrite Hid. apply mem_set_same.
          - split; [exact HnP|].
            eapply Forall_impl; [|exact HfP].
            intros kv. apply playbook_entry_ok_mono, Hmono. }
        split; [apply HR|].
        split; [apply Forall_entries_set; [exact HfC|exact Hid']|apply HR].
      * rewrite (update_customer_health_raises _ _ _ _ _ _ G E).
        repeat split; assumption.
    + rewrite (update_customer_health_unregistered _ _ _ _ G).
      repeat split; assumption.
  - (* update_playbook_action *)
    destruct (Dict.get (active_playbooks self) pid) as [pb|] eqn:G.
    + destruct (find_action aid (actions pb)) as [a|] eqn:F.
      * destruct (update_playbook_action_shape pid aid st notes metrics now
                    self pb a G F)
          as (st' & cur & summary & s' & l & U & Hc & Hp & Hst & _).
        rewrite U. cbn [snd]. unfold registry_ok. rewrite Hc, Hp.
        split; [exact HnC|]. split; [apply set_keys_NoDup, HnP|].
        split; [exact HfC|].
        apply Forall_entries_set; [exact HfP|].
        assert (Hpb : playbook_entry_ok (customers self) (pid, pb)).
        { rewrite Forall_forall in HfP. apply HfP, get_In_entry, G. }
        destruct Hpb as (H1 & H2 & H3 & H4 & H5).
        cbn [fst snd] in H1, H2, H3, H4, H5.
        split; [exact H1|]. cbn [fst snd].
        assert (Hf : forall x, action_id
                       (update_action x st notes metrics now) = action_id x)
          by reflexivity.
        split.
        { destruct H2 as [(T & I & A)|(T & I & A)]; [left|right];
            (split; [exact T|]; split; [exact I|]);
            cbn [actions set_outcome set_actions];
            rewrite (map_action_id_replace _ _ _ Hf); exact A. }
        split.
        { cbn [pb_status set_outcome].
          destruct Hst as [->| ->]; [right; reflexivity|exact H3]. }
        split; [exact H4|exact H5].
      * rewrite (update_playbook_action_no_action _ _ _ _ _ _ _ _ G F).
        repeat split; assumption.
    + rewrite (update_playbook_action_no_playbook _ _ _ _ _ _ _ G).
      repeat split; assumption.
Qed.

Lemma reachable_registry_ok (self : Engine) :
  reachable self -> registry_ok self.
Proof.
  induction 1 as [|self self' _ IH Hstep].
  - apply registry_ok_init.
  - apply (step_registry_ok _ _ Hstep IH).
Qed.

(** X7. In every state of an engine built by [__init__] and driven through
    [add_customer], [update_customer_health] and [update_playbook_action]
    (returning or raising): a customer is registered under its own
    [customer_id]; a playbook is registered under its own [playbook_id],
    it is a post-incident playbook with an id of the form
    [PIR-<customer>-<day>] and the five actions [pir_001] to [pir_005] or
    an engagement-revival playbook with an id of the form
    [ER-<customer>-<day>] and the four actions [er_001] to [er_004] (no
    other kind is ever registered; the day is that of a reading of the
    clock, which nothing relates to [triggered_at]), its status
    is active or completed, its customer is registered, and its baseline
    is the composite score of some metrics, hence between 0 and 100. *)
Theorem reachable_registries_consistent (self : Engine) :
  reachable self ->
  (forall k c, Dict.get (customers self) k = Some c -> customer_id c = k) /\
  (forall k pb,
     Dict.get (active_playbooks self) k = Some pb ->
     playbook_id pb = k /\
     template_instance pb /\
     (pb_status pb = "active" \/ pb_status pb = "completed") /\
     Dict.mem (customers self) (pb_customer_id pb) = true /\
     exists b, baseline_health_score pb = Some b /\
               (0 <=? b) = true /\ (b <=? 100) = true).
Proof.
  intros Hr. destruct (reachable_registry_ok self Hr) as (_ & _ & HfC & HfP).
  rewrite Forall_forall in HfC, HfP. split.
  - intros k c G. apply (HfC (k, c)), get_In_entry, G.
  - intros k pb G.
    destruct (HfP (k, pb) (get_In_entry _ _ _ G))
      as (H1 & H2 & H3 & H4 & h & H5).
    cbn [fst snd] in H1, H2, H3, H4, H5.
    repeat split; try assumption.
    exists (calculate_composite_score h).
    split; [exact H5|]. apply composite_range.
Qed.

(** *** The rules on an engine driven through its methods *)

Lemma has_active_In (d : Dict.t RecoveryPlaybook) (cid : string)
    (t : PlaybookType) :
  has_active d cid t = true <->
  exists k pb, In (k, pb) d /\ is_active_for cid t pb = true.
Proof.
  unfold has_active, Dict.values. rewrite existsb_exists. split.
  - intros (pb & Hin & Hact). apply in_map_iff in Hin.
    destruct Hin as ([k pb'] & <- & Hin). exists k, pb'. split; assumption.
  - intros (k & pb & Hin & Hact). exists pb. split; [|exact Hact].
    apply in_map_iff. exists (k, pb). split; [reflexivity|exact Hin].
Qed.

Lemma has_active_set_same (d : Dict.t RecoveryPlaybook) (k : string)
    (pb : RecoveryPlaybook) (cid : string) (t : PlaybookType) :
  is_active_for cid t pb = true ->
  has_active (Dict.set d k pb) cid t = true.
Proof.
  intros H. apply has_active_In. exists k, pb. split; [|exact H].
  apply get_In_entry, get_set_same.
Qed.

Lemma has_active_set_other (d : Dict.t RecoveryPlaybook) (k : string)
    (pb : RecoveryPlaybook) (cid : string) (t : PlaybookType) :
  has_active d cid t = true ->
  (forall k0 pb0, In (k0, pb0) d -> is_active_for cid t pb0 = true ->
                  k0 <> k) ->
  has_active (Dict.set d k pb) cid t = true.
Proof.
  intros H Hk. apply has_active_In in H. destruct H as (k0 & pb0 & Hin & Hact).
  apply has_active_In. exists k0, pb0. split; [|exact Hact].
  apply set_In_other; [exact Hin|]. apply (Hk k0 pb0 Hin Hact).
Qed.


(** An active post-incident playbook is not stored under the id of an
    engagement-revival playbook. *)
Lemma active_post_incident_key (cs : Dict.t CustomerProfile)
    (d : Dict.t RecoveryPlaybook) (cid cid' : string) (now : datetime)
    (k0 : string) (pb0 : RecoveryPlaybook) :
  Forall (playbook_entry_ok cs) d ->
  In (k0, pb0) d ->
  is_active_for cid POST_INCIDENT_RECOVERY pb0 = true ->
  k0 <> er_id cid' now.
Proof.
  intros Hf Hin Hact. rewrite Forall_forall in Hf.
  destruct (Hf _ Hin) as (Hk & Ht & _). cbn [fst snd] in Hk, Ht.
  apply is_active_for_inv in Hact. destruct Hact as (_ & Hty & _).
  destruct Ht as [(_ & [day I] & _)|(T & _)]; [|congruence].
  rewrite <- Hk, I. apply pir_id_not_er_id.
Qed.

(** X8. On an engine driven through its methods, a call of
    [update_customer_health] that computes its metrics leaves the customer
    with an active playbook of every kind whose rule applies and that has
    a template: an active post-incident playbook when the customer is
    post-incident and requires trust rebuilding, an active
    engagement-revival playbook when the new engagement score is below
    60.  As nothing clears the two flags and a completed playbook is not
    active, a post-incident customer gets a new post-incident playbook at
    the first update after each completion. *)
Theorem applicable_playbooks_active (self : Engine) (cid : string)
    (data : SignalBag) (now : datetime) (customer : CustomerProfile)
    (h : HealthMetrics) :
  reachable self ->
  Dict.get (customers self) cid = Some customer ->
  calculate_health_metrics customer data now = Ok h ->
  let s' := snd (update_customer_health cid data now self) in
  (is_post_incident customer && trust_rebuilding_required customer = true ->
   has_active (active_playbooks s') cid POST_INCIDENT_RECOVERY = true) /\
  ((engagement_score h <? 60) = true ->
   has_active (active_playbooks s') cid ENGAGEMENT_REVIVAL = true).
Proof.
  intros Hr G E s'.
  destruct (reachable_registry_ok self Hr) as (_ & HnP & HfC & HfP).
  assert (Hid : customer_id customer = cid).
  { rewrite Forall_forall in HfC.
    apply (HfC (cid, customer)), get_In_entry, G. }
  destruct (update_customer_health_explicit cid data now self customer h G E)
    as (s1 & U & P & _).
  subst s'. rewrite U. cbn [snd]. rewrite P.
  rewrite rules_registry_applicable.
  set (c1 := set_health customer h now).
  change (is_post_incident c1 && trust_rebuilding_required c1)
    with (is_post_incident customer && trust_rebuilding_required customer).
  assert (Hc1 : customer_id c1 = cid) by exact Hid.
  assert (Hpir : instantiated c1 POST_INCIDENT_RECOVERY now =
                 Some (set_baseline_health_score
                         (create_post_incident_recovery_playbook c1 now)
                         (Some (calculate_composite_score h))))
    by (apply instantiated_post_incident; reflexivity).
  assert (Her : instantiated c1 ENGAGEMENT_REVIVAL now =
                Some (set_baseline_health_score
                        (create_engagement_revival_playbook c1 now)
                        (Some (calculate_composite_score h))))
    by (apply instantiated_engagement_revival; reflexivity).
  assert (Hmem : Dict.mem (customers self) (customer_id c1) = true).
  { rewrite Hc1. apply (get_mem _ _ _ G). }
  cbv zeta. split.
  - intros Hpost. rewrite Hpost.
    set (d1 := ensured c1 POST_INCIDENT_RECOVERY now (active_playbooks self)).
    assert (Hok1 : Forall (playbook_entry_ok (customers self)) d1).
    { apply (ensured_ok _ c1 h POST_INCIDENT_RECOVERY now _ eq_refl Hmem).
      split; assumption. }
    assert (Hact1 : has_active d1 cid POST_INCIDENT_RECOVERY = true).
    { subst d1. unfold ensured. rewrite Hc1.
      destruct (has_active (active_playbooks self) cid
                  POST_INCIDENT_RECOVERY) eqn:Hact; [exact Hact|].
      rewrite Hpir. apply has_active_set_same.
      unfold is_active_for. cbn [pb_customer_id playbook_type pb_status
        set_baseline_health_score create_post_incident_recovery_playbook].
      rewrite Hc1, String.eqb_refl. reflexivity. }
    destruct (engagement_score h <? 60); [|exact Hact1].
    unfold ensured.
    destruct (has_active d1 (customer_id c1) ENGAGEMENT_REVIVAL);
      [exact Hact1|].
    rewrite Her. apply has_active_set_other; [exact Hact1|].
    intros k0 pb0 Hin Hact.
    apply (active_post_incident_key _ _ _ _ _ _ _ Hok1 Hin Hact).
  - intros Heng. rewrite Heng. unfold ensured at 1. rewrite Hc1.
    match goal with
    | |- has_active (if has_active ?d cid ENGAGEMENT_REVIVAL then _ else _)
           _ _ = true =>
        destruct (has_active d cid ENGAGEMENT_REVIVAL) eqn:Hact;
          [exact Hact|]
    end.
    rewrite Her. apply has_active_set_same.
    unfold is_active_for. cbn [pb_customer_id playbook_type pb_status
      set_baseline_health_score create_engagement_revival_playbook].
    rewrite Hc1, String.eqb_refl. reflexivity.
Qed.




(** *** Nothing is ever removed *)





(** *** The counts of a report *)

Lemma tier_count_incr (d : TierCounts) (t t' : HealthTier) :
  tier_count (incr_tier d t) t' =
    (tier_count d t' + if HealthTier_eqb t t' then 1 else 0)%nat.
Proof. destruct t, t'; simpl; lia. Qed.

Lemma report_step_counts (acc : TierCounts * nat * list float)
    (c : CustomerProfile) :
  (forall t,
     tier_count (fst (fst (report_step acc c))) t =
       (tier_count (fst (fst acc)) t + if in_tier t c then 1 else 0)%nat) /\
  snd (fst (report_step acc c)) =
    (snd (fst acc) + if has_health c && is_post_incident c then 1 else 0)%nat.
Proof.
  destruct acc as [[d n] imps].
  unfold report_step, in_tier, has_health.
  destruct (current_health c) as [h|];
    [|cbn [fst snd andb]; split; [intros t|]; lia].
  destruct (is_post_incident c);
    [destruct (health_history c) as [|first [|second rest]]|];
    cbn [fst snd andb]; (split; [intros t; apply tier_count_incr|lia]).
Qed.

Lemma fold_report_counts (l : list CustomerProfile)
    (acc : TierCounts * nat * list float) :
  (forall t,
     tier_count (fst (fst (fold_left report_step l acc))) t =
       (tier_count (fst (fst acc)) t + List.length (filter (in_tier t) l))%nat)
  /\
  snd (fst (fold_left report_step l acc)) =
    (snd (fst acc) +
     List.length (filter (fun c => has_health c && is_post_incident c) l))%nat.
Proof.
  revert acc. induction l as [|c l IH]; intros acc; simpl.
  - split; [intros t|]; lia.
  - destruct (IH (report_step acc c)) as [IH1 IH2].
    destruct (report_step_counts acc c) as [H1 H2].
    split.
    + intros t. rewrite IH1, H1. destruct (in_tier t c); simpl; lia.
    + rewrite IH2, H2.
      destruct (has_health c && is_post_incident c); simpl; lia.
Qed.

Lemma filter_length_impl {A : Type} (f g : A -> bool) (l : list A) :
  (forall x, f x = true -> g x = true) ->
  List.length (filter f l) <= List.length (filter g l).
Proof.
  intros H. induction l as [|x l IH]; simpl; [lia|].
  destruct (f x) eqn:Ef.
  - rewrite (H x Ef). simpl. lia.
  - destruct (g x); simpl; lia.
Qed.

Lemma filter_length_disjoint {A : Type} (f g : A -> bool) (l : list A) :
  (forall x, f x = true -> g x = false) ->
  List.length (filter f l) + List.length (filter g l) <= List.length l.
Proof.
  intros H. induction l as [|x l IH]; simpl; [lia|].
  destruct (f x) eqn:Ef.
  - rewrite (H x Ef). simpl. lia.
  - destruct (g x); simpl; lia.
Qed.

Lemma filter_cons_length {A : Type} (f : A -> bool) (x : A) (l : list A) :
  List.length (filter f (x :: l)) =
    ((if f x then 1 else 0) + List.length (filter f l))%nat.
Proof. simpl. destruct (f x); reflexivity. Qed.

Lemma tier_partition (l : list CustomerProfile) :
  (List.length (filter (in_tier HEALTHY) l) +
   List.length (filter (in_tier AT_RISK) l) +
   List.length (filter (in_tier CRITICAL) l) +
   List.length (filter (in_tier RED_ALERT) l))%nat =
  List.length (filter has_health l).
Proof.
  induction l as [|c l IH]; [reflexivity|].
  rewrite !filter_cons_length.
  assert (H : ((if in_tier HEALTHY c then 1 else 0) +
               (if in_tier AT_RISK c then 1 else 0) +
               (if in_tier CRITICAL c then 1 else 0) +
               (if in_tier RED_ALERT c then 1 else 0))%nat =
              (if has_health c then 1 else 0)%nat).
  { unfold in_tier, has_health. destruct (current_health c) as [h|];
      [|reflexivity].
    destruct (get_health_tier h); reflexivity. }
  lia.
Qed.

Lemma positive_not_negative (i : float) :
  (0 <? i) = true -> (i <? 0) = false.
Proof.
  intros H. destruct (i <? 0) eqn:E; [|reflexivity].
  apply ltb_leb in E. apply ltb_not_leb in H. congruence.
Qed.

Lemma at_least_15_positive (i : float) :
  (15 <=? i) = true -> (0 <? i) = true.
Proof.
  rewrite leb_spec, ltb_spec.
  change (Prim2SF 15) with (S754_finite false 8444249301319680 (-49)).
  change (Prim2SF 0) with (S754_zero false).
  unfold SFleb, SFltb, SFcompare.
  destruct (Prim2SF i) as [s|[|]| |[|] m e]; intros H;
    try discriminate H; reflexivity.
Qed.

Lemma has_improvement_counted (c : CustomerProfile) :
  has_improvement c = true -> has_health c && is_post_incident c = true.
Proof.
  unfold has_improvement, has_health.
  destruct (current_health c); [|discriminate].
  destruct (is_post_incident c); [reflexivity|discriminate].
Qed.

(** X11. The counts of [generate_recovery_report].  [total_customers] is
    the number of customers the report covers (all of them, also for an
    empty [customer_id]; the one asked for; none when it is unknown).
    Each counter of [health_distribution] is the number of covered
    customers that have a current health in that tier, so the four add up
    to the number of covered customers with a current health.
    [post_incident_customers] counts those of them that are
    post-incident.  The improvements and the declines together are no
    more than the post-incident customers, which are no more than the
    total, and every significant improvement is an improvement.  The
    active-playbook count and the playbook effectiveness are taken over
    the whole registry, whatever customer the report was asked for. *)
Theorem report_counts_consistent (self : Engine)
    (customer_id : option string) (now : datetime) :
  let r := generate_recovery_report self customer_id now in
  let covered := reported_customers self customer_id in
  let m := recovery_metrics r in
  report_generated_at r = now /\
  total_customers r = List.length covered /\
  (forall t,
     tier_count (health_distribution r) t =
       List.length (filter (in_tier t) covered)) /\
  (healthy (health_distribution r) + at_risk (health_distribution r) +
   critical (health_distribution r) + red_alert (health_distribution r))%nat =
    List.length (filter has_health covered) /\
  post_incident_customers r =
    List.length
      (filter (fun c => has_health c && is_post_incident c) covered) /\
  customers_with_improvement m + customers_with_decline m <=
    post_incident_customers r /\
  post_incident_customers r <= total_customers r /\
  significant_improvements m <= customers_with_improvement m /\
  report_active_playbooks r =
    List.length
      (filter (fun pb => String.eqb (pb_status pb) "active")
              (Dict.values (active_playbooks self))) /\
  playbook_effectiveness r = _calculate_playbook_effectiveness self /\
  generate_recovery_report self (Some EmptyString) now =
    generate_recovery_report self None now /\
  (forall cid, cid <> EmptyString ->
               Dict.get (customers self) cid = None ->
               total_customers (generate_recovery_report self (Some cid) now)
                 = 0%nat).
Proof.
  intros r covered m. subst m r.
  unfold generate_recovery_report. fold (reported_customers self customer_id).
  fold covered.
  assert (Hfold := fold_report_counts covered
            ({| healthy := 0; at_risk := 0; critical := 0; red_alert := 0 |},
             O, [])).
  assert (Himp := fold_report_step covered
            ({| healthy := 0; at_risk := 0; critical := 0; red_alert := 0 |},
             O, [])).
  destruct (fold_left report_step covered
              ({| healthy := 0; at_risk := 0; critical := 0; red_alert := 0 |},
               O, [])) as [[d n] imps].
  cbn [fst snd tier_count app] in Hfold, Himp.
  destruct Hfold as [Ht Hn].
  cbn [report_generated_at total_customers health_distribution
       post_incident_customers recovery_metrics report_active_playbooks
       playbook_effectiveness customers_with_improvement
       customers_with_decline significant_improvements].
  assert (Hpost : n = List.length
                        (filter (fun c => has_health c && is_post_incident c)
                                covered)) by lia.
  assert (Hlen : List.length imps <= n).
  { rewrite Himp, Hpost, length_map.
    apply filter_length_impl, has_improvement_counted. }
  split; [reflexivity|]. split; [reflexivity|].
  split; [intros t; rewrite Ht; destruct t; reflexivity|].
  split.
  { rewrite <- tier_partition.
    assert (H1 := Ht HEALTHY). assert (H2 := Ht AT_RISK).
    assert (H3 := Ht CRITICAL). assert (H4 := Ht RED_ALERT).
    cbn [tier_count healthy at_risk critical red_alert] in H1, H2, H3, H4.
    lia. }
  split; [exact Hpost|].
  split.
  { assert (H := filter_length_disjoint (fun i => 0 <? i) (fun i => i <? 0)
                   imps positive_not_negative).
    lia. }
  split; [rewrite Hpost; apply filter_length_le|].
  split; [apply filter_length_impl, at_least_15_positive|].
  split; [reflexivity|]. split; [reflexivity|].
  split; [reflexivity|].
  intros cid Hne G. destruct cid as [|a cid]; [congruence|].
  rewrite G. reflexivity.
Qed.

(** *** The actions of the registered playbooks *)

Lemma ensured_values_Forall (P : RecoveryPlaybook -> Prop)
    (customer : CustomerProfile) (t : PlaybookType) (now : datetime)
    (d : Dict.t RecoveryPlaybook) :
  (forall pb, instantiated customer t now = Some pb -> P pb) ->
  Forall P (Dict.values d) ->
  Forall P (Dict.values (ensured customer t now d)).
Proof.
  intros Hi Hd. unfold ensured.
  destruct (has_active d (customer_id customer) t); [exact Hd|].
  destruct (instantiated customer t now) as [pb|]; [|exact Hd].
  apply Forall_set; [exact Hd|]. apply Hi. reflexivity.
Qed.

Lemma rules_registry_values_Forall (P : RecoveryPlaybook -> Prop)
    (customer : CustomerProfile) (now : datetime)
    (kinds : list PlaybookType) (d : Dict.t RecoveryPlaybook) :
  (forall t pb, instantiated customer t now = Some pb -> P pb) ->
  Forall P (Dict.values d) ->
  Forall P (Dict.values (rules_registry customer now kinds d)).
Proof.
  intros Hi. unfold rules_registry. revert d.
  induction kinds as [|t kinds IH]; intros d Hd; simpl; [exact Hd|].
  apply IH. apply ensured_values_Forall; [apply Hi|exact Hd].
Qed.

(** A property of playbooks that the templates establish and the update
    of an action keeps holds of every registered playbook after a call,
    when it held before. *)
Lemma step_playbooks_Forall (P : RecoveryPlaybook -> Prop) :
  (forall customer t now pb, instantiated customer t now = Some pb -> P pb) ->
  (forall pb aid st notes metrics now pct st' cur summary,
     P pb ->
     P (set_outcome
          (set_actions pb
             (replace_action aid
                (fun a => update_action a st notes metrics now) (actions pb))
             pct)
          st' cur summary)) ->
  forall self self',
    step self self' ->
    Forall P (Dict.values (active_playbooks self)) ->
    Forall P (Dict.values (active_playbooks self')).
Proof.
  intros Hi Hu self self' Hstep HP.
  destruct Hstep as [c self|cid data now self|pid aid st notes metrics now self].
  - exact HP.
  - destruct (Dict.get (customers self) cid) as [customer|] eqn:G.
    + destruct (calculate_health_metrics customer data now) as [h|e] eqn:E.
      * destruct (update_customer_health_explicit cid data now self
                    customer h G E) as (s1 & U & P1 & _).
        rewrite U. cbn [snd]. rewrite P1.
        apply rules_registry_values_Forall; [|exact HP].
        intros t pb. apply Hi.
      * rewrite (update_customer_health_raises _ _ _ _ _ _ G E). exact HP.
    + rewrite (update_customer_health_unregistered _ _ _ _ G). exact HP.
  - destruct (Dict.get (active_playbooks self) pid) as [pb|] eqn:G.
    + destruct (find_action aid (actions pb)) as [a|] eqn:F.
      * destruct (update_playbook_action_shape pid aid st notes metrics now
                    self pb a G F)
          as (st' & cur & summary & s' & l & U & _ & Hp & _).
        rewrite U. cbn [snd]. rewrite Hp.
        apply Forall_set; [exact HP|]. apply Hu.
        rewrite Forall_forall in HP. apply HP, (get_In _ _ _ G).
      * rewrite (update_playbook_action_no_action _ _ _ _ _ _ _ _ G F).
        exact HP.
    + rewrite (update_playbook_action_no_playbook _ _ _ _ _ _ _ G).
      exact HP.
Qed.

Lemma Forall_replace_action (P : PlaybookAction -> Prop) (aid : string)
    (f : PlaybookAction -> PlaybookAction) (l : list PlaybookAction) :
  (forall a, P a -> P (f a)) -> Forall P l ->
  Forall P (replace_action aid f l).
Proof.
  intros Hf. induction 1 as [|a l Ha Hl IH]; simpl; [constructor|].
  destruct (String.eqb (action_id a) aid); constructor; auto.
Qed.

Lemma instantiated_actions_ok (customer : CustomerProfile)
    (t : PlaybookType) (now : datetime) (pb : RecoveryPlaybook) :
  instantiated customer t now = Some pb -> actions_ok pb.
Proof.
  unfold instantiated.
  destruct t; try discriminate; intros [= <-];
    destruct (current_health customer); split;
    cbn [actions set_baseline_health_score
         create_post_incident_recovery_playbook
         create_engagement_revival_playbook map action_id].
  all: try (repeat constructor; cbn [In]; intuition discriminate).
  all: repeat constructor;
    cbn [triggered_at target_completion_date due_date
         set_baseline_health_score create_post_incident_recovery_playbook
         create_engagement_revival_playbook];
    unfold days, weeks; try lia; discriminate.
Qed.

Lemma updated_actions_ok (pb : RecoveryPlaybook) (aid : string)
    (st : ActionStatus) (notes : string) (metrics : option (Dict.t PyValue))
    (now : datetime) (pct : float) (st' : string) (cur : option float)
    (summary : string) :
  actions_ok pb ->
  actions_ok
    (set_outcome
       (set_actions pb
          (replace_action aid
             (fun a => update_action a st notes metrics now) (actions pb))
          pct)
       st' cur summary).
Proof.
  intros [Hn Hf]. split; cbn [actions set_outcome set_actions].
  - rewrite map_action_id_replace by reflexivity. exact Hn.
  - apply Forall_replace_action.
    + intros a [Hd Hc]. split; [exact Hd|].
      cbn [status completion_date update_action]. intros ->. discriminate.
    + eapply Forall_impl; [|exact Hf]. intros a [Hd Hc]. split; assumption.
Qed.

Lemma reachable_actions_ok (self : Engine) :
  reachable self -> Forall actions_ok (Dict.values (active_playbooks self)).
Proof.
  induction 1 as [|self self' _ IH Hstep]; [constructor|].
  apply (step_playbooks_Forall actions_ok) with (self := self);
    try assumption.
  - intros customer t now pb. apply instantiated_actions_ok.
  - intros. apply updated_actions_ok. assumption.
Qed.

Lemma find_action_NoDup (l : list PlaybookAction) (a : PlaybookAction) :
  NoDup (map action_id l) -> In a l ->
  find_action (action_id a) l = Some a.
Proof.
  unfold find_action. induction l as [|x l IH]; simpl; [intros _ []|].
  intros Hn [->|Hin].
  - rewrite String.eqb_refl. reflexivity.
  - inversion Hn as [|? ? Hx Hn']. subst.
    destruct (String.eqb_spec (action_id x) (action_id a)) as [Heq|_].
    + exfalso. apply Hx. rewrite Heq. apply in_map, Hin.
    + apply IH; assumption.
Qed.

(** X12. In every state of an engine driven through its methods, the
    actions of a registered playbook have pairwise distinct ids, so that
    [update_playbook_action] with the id of an action finds that very
    action; every action is due after the playbook was triggered and no
    later than its target completion date; and every action whose status
    is Completed carries a completion date. *)
Theorem reachable_actions_well_formed (self : Engine) :
  reachable self ->
  forall k pb,
    Dict.get (active_playbooks self) k = Some pb ->
    NoDup (map action_id (actions pb)) /\
    forall a,
      In a (actions pb) ->
      find_action (action_id a) (actions pb) = Some a /\
      (triggered_at pb < due_date a <= target_completion_date pb)%Z /\
      (status a = COMPLETED -> completion_date a <> None).
Proof.
  intros Hr k pb G.
  assert (H := reachable_actions_ok self Hr).
  rewrite Forall_forall in H.
  destruct (H pb (get_In _ _ _ G)) as [Hn Hf].
  split; [exact Hn|]. intros a Hin.
  split; [apply (find_action_NoDup _ _ Hn Hin)|].
  rewrite Forall_forall in Hf. apply (Hf a Hin).
Qed.

(** *** The metrics of a customer, and the calls that fail *)

(** [calculate_health_metrics] in closed form, from the results of the
    four calculators. *)
Lemma health_metrics_closed_form (c : CustomerProfile) (d : SignalBag)
    (now : datetime) (e v r k : float) :
  calculate_engagement_score d = Ok e ->
  calculate_value_realization_score d = Ok v ->
  calculate_relationship_health_score d = Ok r ->
  calculate_risk_indicators_score d = Ok k ->
  let enterprise := String.eqb (segment c) "enterprise" in
  let r1 := if is_post_incident c then r * 1.5 else r in
  calculate_health_metrics c d now =
    Ok {| engagement_score := py_min 100 e;
          value_realization_score :=
            py_min 100 (if enterprise then v * 1.2 else v);
          relationship_health_score :=
            py_min 100 (if enterprise then r1 * 1.1 else r1);
          risk_indicators_score :=
            py_min 100 (if is_post_incident c then k * 1.3 else k);
          calculated_at := now |}.
Proof.
  intros He Hv Hr Hk enterprise r1. subst enterprise r1.
  unfold calculate_health_metrics. rewrite He, Hv, Hr, Hk.
  cbn [bind].
  destruct (is_post_incident c), (String.eqb (segment c) "enterprise");
    reflexivity.
Qed.

(** Conversely, metrics are returned only when each of the four
    calculators has returned. *)
Lemma health_metrics_returned (c : CustomerProfile) (d : SignalBag)
    (now : datetime) (h : HealthMetrics) :
  calculate_health_metrics c d now = Ok h ->
  exists e v r k,
    calculate_engagement_score d = Ok e /\
    calculate_value_realization_score d = Ok v /\
    calculate_relationship_health_score d = Ok r /\
    calculate_risk_indicators_score d = Ok k.
Proof.
  unfold calculate_health_metrics.
  destruct (calculate_engagement_score d) as [e|x1]; [|discriminate].
  destruct (calculate_value_realization_score d) as [v|x2]; [|discriminate].
  destruct (calculate_relationship_health_score d) as [r|x3];
    [|discriminate].
  destruct (calculate_risk_indicators_score d) as [k|x4]; [|discriminate].
  intros _. exists e, v, r, k. repeat split; reflexivity.
Qed.

(** X13. [calculate_health_metrics] returns metrics exactly when each of
    the four calculators returns a sub-score, and the metrics are then
    these: the engagement score of the calculator, the value-realization
    score times 1.2 for an enterprise customer, the relationship score
    times 1.5 for a post-incident customer and then times 1.1 for an
    enterprise customer, the risk score times 1.3 for a post-incident
    customer, each clamped from above by [min(100, .)], with the time of
    the call.  The sub-scores of returned metrics are at most 100 (NaN
    and infinity included: [min(100, .)] gives 100 for them). *)
Theorem health_metrics_adjusted_and_clamped (c : CustomerProfile)
    (d : SignalBag) (now : datetime) (h : HealthMetrics) :
  (calculate_health_metrics c d now = Ok h <->
   exists e v r k,
     calculate_engagement_score d = Ok e /\
     calculate_value_realization_score d = Ok v /\
     calculate_relationship_health_score d = Ok r /\
     calculate_risk_indicators_score d = Ok k /\
     let enterprise := String.eqb (segment c) "enterprise" in
     let r1 := if is_post_incident c then r * 1.5 else r in
     h = {| engagement_score := py_min 100 e;
            value_realization_score :=
              py_min 100 (if enterprise then v * 1.2 else v);
            relationship_health_score :=
              py_min 100 (if enterprise then r1 * 1.1 else r1);
            risk_indicators_score :=
              py_min 100 (if is_post_incident c then k * 1.3 else k);
            calculated_at := now |}) /\
  (calculate_health_metrics c d now = Ok h ->
   calculated_at h = now /\
   (engagement_score h <=? 100) = true /\
   (value_realization_score h <=? 100) = true /\
   (relationship_health_score h <=? 100) = true /\
   (risk_indicators_score h <=? 100) = true).
Proof.
  assert (Hiff : calculate_health_metrics c d now = Ok h ->
            exists e v r k,
              calculate_engagement_score d = Ok e /\
              calculate_value_realization_score d = Ok v /\
              calculate_relationship_health_score d = Ok r /\
              calculate_risk_indicators_score d = Ok k /\
              h = {| engagement_score := py_min 100 e;
                     value_realization_score :=
                       py_min 100 (if String.eqb (segment c) "enterprise"
                                   then v * 1.2 else v);
                     relationship_health_score :=
                       py_min 100
                         (if String.eqb (segment c) "enterprise"
                          then (if is_post_incident c then r * 1.5 else r)
                               * 1.1
                          else (if is_post_incident c then r * 1.5 else r));
                     risk_indicators_score :=
                       py_min 100 (if is_post_incident c then k * 1.3
                                   else k);
                     calculated_at := now |}).
  { intros H.
    destruct (health_metrics_returned c d now h H)
      as (e & v & r & k & H1 & H2 & H3 & H4).
    exists e, v, r, k. repeat (split; [assumption|]).
    assert (C := health_metrics_closed_form c d now e v r k H1 H2 H3 H4).
    cbv zeta in C. rewrite C in H. injection H as <-. reflexivity. }
  split; [split|].
  - intros H. destruct (Hiff H) as (e & v & r & k & H1 & H2 & H3 & H4 & E).
    exists e, v, r, k. repeat (split; [assumption|]). exact E.
  - intros (e & v & r & k & H1 & H2 & H3 & H4 & E). cbv zeta in E.
    rewrite E. apply (health_metrics_closed_form c d now e v r k H1 H2 H3 H4).
  - intros H. destruct (Hiff H) as (e & v & r & k & _ & _ & _ & _ & ->).
    cbn [calculated_at engagement_score value_realization_score
         relationship_health_score risk_indicators_score].
    split; [reflexivity|].
    repeat split; apply py_min_100_le.
Qed.

(** X14. A call that raises changes nothing.  [update_customer_health]
    looks the customer up before it reads the signals, so an unregistered
    customer gives the [ValueError] whatever the signals are; for a
    registered customer an exception of [calculate_health_metrics] is
    passed on as it is, and the metrics are computed before anything is
    written.  A call of [update_customer_health] that raises has raised
    one of these two, and a call of [update_playbook_action] that
    raises has raised a [ValueError]; in each case the state afterwards is
    the state before: no profile, no history, no playbook and no log
    record is written by a failed call. *)
Theorem failed_calls_change_nothing :
  (forall cid data now self,
     Dict.get (customers self) cid = None ->
     update_customer_health cid data now self =
       (Raise (ValueError ("Customer " ++ cid ++ " not found")), self)) /\
  (forall cid data now self customer e,
     Dict.get (customers self) cid = Some customer ->
     calculate_health_metrics customer data now = Raise e ->
     update_customer_health cid data now self = (Raise e, self)) /\
  (forall cid data now self e,
     fst (update_customer_health cid data now self) = Raise e ->
     snd (update_customer_health cid data now self) = self /\
     ((Dict.get (customers self) cid = None /\
       e = ValueError ("Customer " ++ cid ++ " not found")) \/
      (exists customer,
         Dict.get (customers self) cid = Some customer /\
         calculate_health_metrics customer data now = Raise e))) /\
  (forall pid aid st notes metrics now self e,
     fst (update_playbook_action pid aid st notes metrics now self)
       = Raise e ->
     snd (update_playbook_action pid aid st notes metrics now self) = self /\
     exists msg, e = ValueError msg).
Proof.
  split; [|split; [|split]].
  - intros cid data now self G.
    apply (update_customer_health_unregistered _ _ _ _ G).
  - intros cid data now self customer e G E.
    apply (update_customer_health_raises _ _ _ _ _ _ G E).
  - intros cid data now self e H.
    destruct (Dict.get (customers self) cid) as [customer|] eqn:G.
    + destruct (calculate_health_metrics customer data now) as [h|e'] eqn:E.
      * destruct (update_customer_health_log cid data now self customer h
                    G E) as [Hr _].
        rewrite Hr in H. discriminate.
      * rewrite (update_customer_health_raises _ _ _ _ _ _ G E) in H |- *.
        cbn [fst snd] in H |- *. injection H as <-.
        split; [reflexivity|]. right.
        exists customer. split; [reflexivity|exact E].
    + rewrite (update_customer_health_unregistered _ _ _ _ G) in H |- *.
      cbn [fst snd] in H |- *. injection H as <-.
      split; [reflexivity|]. left. split; reflexivity.
  - intros pid aid st notes metrics now self e H.
    destruct (Dict.get (active_playbooks self) pid) as [pb|] eqn:G.
    + destruct (find_action aid (actions pb)) as [a|] eqn:F.
      * destruct (update_playbook_action_shape pid aid st notes metrics now
                    self pb a G F)
          as (st' & cur & summary & s' & l & U & _).
        rewrite U in H. discriminate.
      * rewrite (update_playbook_action_no_action _ _ _ _ _ _ _ _ G F)
          in H |- *.
        cbn [fst snd] in H |- *. injection H as <-.
        split; [reflexivity|]. eexists. reflexivity.
    + rewrite (update_playbook_action_no_playbook _ _ _ _ _ _ _ G) in H |- *.
      cbn [fst snd] in H |- *. injection H as <-.
      split; [reflexivity|]. eexists. reflexivity.
Qed.

(** *** The signals of the calculators *)

Lemma get_default_set_other (d : SignalBag) (k k' : string)
    (v default : float) :
  k <> k' ->
  Dict.get_default (Dict.set d k v) k' default = Dict.get_default d k' default.
Proof.
  intros H. unfold Dict.get_default. rewrite (get_set_other _ _ _ _ H).
  reflexivity.
Qed.

Lemma engagement_reads_its_signals (d : SignalBag) (k : string) (v : float) :
  ~ In k engagement_signals ->
  calculate_engagement_score (Dict.set d k v) = calculate_engagement_score d.
Proof.
  intros H. unfold calculate_engagement_score.
  rewrite !get_default_set_other
    by (intros ->; apply H; cbn; tauto).
  reflexivity.
Qed.

Lemma value_realization_reads_its_signals (d : SignalBag) (k : string)
    (v : float) :
  ~ In k value_realization_signals ->
  calculate_value_realization_score (Dict.set d k v) =
    calculate_value_realization_score d.
Proof.
  intros H. unfold calculate_value_realization_score.
  rewrite !get_default_set_other
    by (intros ->; apply H; cbn; tauto).
  reflexivity.
Qed.

Lemma relationship_reads_its_signals (d : SignalBag) (k : string)
    (v : float) :
  ~ In k relationship_signals ->
  calculate_relationship_health_score (Dict.set d k v) =
    calculate_relationship_health_score d.
Proof.
  intros H. unfold calculate_relationship_health_score.
  rewrite !get_default_set_other
    by (intros ->; apply H; cbn; tauto).
  reflexivity.
Qed.

Lemma risk_reads_its_signals (d : SignalBag) (k : string) (v : float) :
  ~ In k risk_signals ->
  calculate_risk_indicators_score (Dict.set d k v) =
    calculate_risk_indicators_score d.
Proof.
  intros H. unfold calculate_risk_indicators_score.
  rewrite !get_default_set_other
    by (intros ->; apply H; cbn; tauto).
  reflexivity.
Qed.

(** X15. Each calculator reads its own signals only: assigning any other
    key of the SignalBag leaves its result (a score or the exception) as
    it was.  The four lists of signals have no name in common, so a
    signal influences one sub-score at most, and a key that is no signal
    at all (a misspelt one, say) is ignored by [calculate_health_metrics]
    without any error. *)
Theorem calculators_read_their_own_signals :
  (forall d k v,
     (~ In k engagement_signals ->
      calculate_engagement_score (Dict.set d k v) =
        calculate_engagement_score d) /\
     (~ In k value_realization_signals ->
      calculate_value_realization_score (Dict.set d k v) =
        calculate_value_realization_score d) /\
     (~ In k relationship_signals ->
      calculate_relationship_health_score (Dict.set d k v) =
        calculate_relationship_health_score d) /\
     (~ In k risk_signals ->
      calculate_risk_indicators_score (Dict.set d k v) =
        calculate_risk_indicators_score d)) /\
  NoDup (engagement_signals ++ value_realization_signals ++
         relationship_signals ++ risk_signals) /\
  (forall c d now k v,
     ~ In k (engagement_signals ++ value_realization_signals ++
             relationship_signals ++ risk_signals) ->
     calculate_health_metrics c (Dict.set d k v) now =
       calculate_health_metrics c d now).
Proof.
  split; [|split].
  - intros d k v. split; [apply engagement_reads_its_signals|].
    split; [apply value_realization_reads_its_signals|].
    split; [apply relationship_reads_its_signals
           |apply risk_reads_its_signals].
  - unfold engagement_signals, value_realization_signals,
      relationship_signals, risk_signals. cbn [app].
    repeat (constructor; [cbn [In]; intuition discriminate|]).
    constructor.
  - intros c d now k v H. rewrite !in_app_iff in H.
    unfold calculate_health_metrics.
    rewrite engagement_reads_its_signals by tauto.
    rewrite value_realization_reads_its_signals by tauto.
    rewrite relationship_reads_its_signals by tauto.
    rewrite risk_reads_its_signals by tauto.
    reflexivity.
Qed.

(** *** The outcome of a completed playbook *)

Lemma at_least_10_nonneg (i : float) :
  (10 <=? i) = true -> (0 <=? i) = true.
Proof.
  rewrite !leb_spec.
  change (Prim2SF 10) with (S754_finite false 5629499534213120 (-49)).
  change (Prim2SF 0) with (S754_zero false).
  unfold SFleb, SFcompare.
  destruct (Prim2SF i) as [s|[|]| |[|] m e]; intros H;
    try discriminate H; reflexivity.
Qed.

(** X16. [_complete_playbook] always returns, marks the playbook
    completed, changes neither registry and keeps everything else of the
    playbook; its last log record is the completion record.  The current
    health score is recorded exactly when the playbook's customer is
    registered and has a current health, and it is the composite of that
    health; otherwise the score is left as it was, and the playbook is
    completed all the same.  The outcome summary is written, and one
    improvement record is logged, exactly when in addition a baseline is
    recorded and is not zero (a baseline of exactly 0.0 counts as
    missing); the record is a warning exactly when the improvement is not
    at least 0. *)
Theorem complete_playbook_outcome :
  forall pb self,
    let r := _complete_playbook pb self in
    exists pb' l,
      fst r = Ok pb' /\
      customers (snd r) = customers self /\
      active_playbooks (snd r) = active_playbooks self /\
      log (snd r) =
        (log self ++ l ++
         [(INFO, CompletedPlaybook (playbook_id pb) (pb_customer_id pb))])%list
      /\
      pb_status pb' = "completed" /\
      same_playbook_header pb pb' /\
      actions pb' = actions pb /\
      completion_percentage pb' = completion_percentage pb /\
      match Dict.get (customers self) (pb_customer_id pb) with
      | Some c =>
          match current_health c with
          | Some h =>
              let current := calculate_composite_score h in
              current_health_score pb' = Some current /\
              match baseline_health_score pb with
              | Some b =>
                  if truthy b then
                    outcome_summary pb' =
                      "Health score improved by " ++
                      format_1f (current - b) ++ " points" /\
                    exists lvl msg,
                      l = [(lvl, msg)] /\
                      (lvl = WARNING <-> (0 <=? current - b) = false)
                  else outcome_summary pb' = outcome_summary pb /\ l = []
              | None => outcome_summary pb' = outcome_summary pb /\ l = []
              end
          | None =>
              current_health_score pb' = current_health_score pb /\
              outcome_summary pb' = outcome_summary pb /\ l = []
          end
      | None =>
          current_health_score pb' = current_health_score pb /\
          outcome_summary pb' = outcome_summary pb /\ l = []
      end.
Proof.
  intros pb self r. subst r.
  unfold _complete_playbook.
  cbn [pb_customer_id set_outcome].
  destruct (Dict.get (customers self) (pb_customer_id pb)) as [c|];
    [destruct c as [? ? ? ? ? ? ? ? ? ? [h|] ? ? ? ? ?]|];
    cbn [current_health];
    try (eexists; exists []; split; [reflexivity|];
         repeat split; reflexivity).
  cbn [baseline_health_score set_outcome].
  destruct (baseline_health_score pb) as [b|];
    [destruct (truthy b)|];
    try (eexists; exists []; split; [reflexivity|];
         repeat split; reflexivity).
  destruct (10 <=? calculate_composite_score h - b) eqn:E10;
    [|destruct (0 <=? calculate_composite_score h - b) eqn:E0].
  - eexists.
    exists [(INFO, SignificantImprovement (playbook_id pb)
                     (calculate_composite_score h - b))].
    split; [unfold bindM; cbn; rewrite ?E10; cbn; reflexivity|].
    unfold bindM; cbn; rewrite ?E10; cbn.
    split; [reflexivity|]. split; [reflexivity|].
    split; [rewrite <- app_assoc; reflexivity|].
    split; [reflexivity|]. split; [repeat split|].
    split; [reflexivity|]. split; [reflexivity|].
    split; [reflexivity|]. split; [reflexivity|].
    do 2 eexists. split; [reflexivity|].
    rewrite (at_least_10_nonneg _ E10). split; discriminate.
  - eexists.
    exists [(INFO, ModestImprovement (playbook_id pb)
                     (calculate_composite_score h - b))].
    split; [unfold bindM; cbn; rewrite ?E10, ?E0; cbn; reflexivity|].
    unfold bindM; cbn; rewrite ?E10, ?E0; cbn.
    split; [reflexivity|]. split; [reflexivity|].
    split; [rewrite <- app_assoc; reflexivity|].
    split; [reflexivity|]. split; [repeat split|].
    split; [reflexivity|]. split; [reflexivity|].
    split; [reflexivity|]. split; [reflexivity|].
    do 2 eexists. split; [reflexivity|]. split; discriminate.
  - eexists.
    exists [(WARNING, NoImprovement (playbook_id pb)
                        (calculate_composite_score h - b))].
    split; [unfold bindM; cbn; rewrite ?E10, ?E0; cbn; reflexivity|].
    unfold bindM; cbn; rewrite ?E10, ?E0; cbn.
    split; [reflexivity|]. split; [reflexivity|].
    split; [rewrite <- app_assoc; reflexivity|].
    split; [reflexivity|]. split; [repeat split|].
    split; [reflexivity|]. split; [reflexivity|].
    split; [reflexivity|]. split; [reflexivity|].
    do 2 eexists. split; [reflexivity|]. split; reflexivity.
Qed.

(** *** The counts of the playbook effectiveness *)

Lemma type_partition (l : list RecoveryPlaybook) :
  (List.length
     (filter (fun pb => PlaybookType_eqb (playbook_type pb)
                          POST_INCIDENT_RECOVERY) l) +
   List.length
     (filter (fun pb => PlaybookType_eqb (playbook_type pb)
                          ENGAGEMENT_REVIVAL) l) +
   List.length
     (filter (fun pb => PlaybookType_eqb (playbook_type pb)
                          VALUE_ACCELERATION) l) +
   List.length
     (filter (fun pb => PlaybookType_eqb (playbook_type pb)
                          CHURN_PREVENTION) l) +
   List.length
     (filter (fun pb => PlaybookType_eqb (playbook_type pb)
                          TRUST_REBUILDING) l))%nat =
  List.length l.
Proof.
  induction l as [|pb l IH]; [reflexivity|].
  rewrite !filter_cons_length. cbn [List.length].
  destruct (playbook_type pb); cbn [PlaybookType_eqb]; lia.
Qed.

Lemma effectiveness_entry_counts (self : Engine) (t : PlaybookType)
    (e : Effectiveness) :
  In (t, e) (_calculate_playbook_effectiveness self) ->
  let relevant :=
    filter (fun pb => PlaybookType_eqb (playbook_type pb) t)
           (Dict.values (active_playbooks self)) in
  let completed' :=
    filter (fun pb => String.eqb (pb_status pb) "completed") relevant in
  relevant <> [] /\
  total_triggered e = List.length relevant /\
  completed e = List.length completed' /\
  successful e = List.length (filter is_successful completed') /\
  avg_completion_percentage e =
    np_mean (map completion_percentage relevant).
Proof.
  intros H relevant completed'.
  unfold _calculate_playbook_effectiveness in H.
  apply in_flat_map in H. destruct H as (t' & _ & H).
  destruct (filter (fun pb => PlaybookType_eqb (playbook_type pb) t')
              (Dict.values (active_playbooks self))) as [|pb0 rest] eqn:E;
    [contradiction|].
  destruct H as [H|[]]. injection H as -> <-.
  subst completed' relevant. rewrite E.
  cbn [total_triggered completed successful avg_completion_percentage].
  repeat split; try reflexivity. discriminate.
Qed.

(** X17. The entries of [_calculate_playbook_effectiveness]: there is at
    most one entry per playbook kind; an entry counts at least one
    playbook, its [total_triggered] is the number of registered playbooks
    of the kind (completed ones included), of which [completed] are
    completed and, of these, [successful] successful, so that successful
    <= completed <= total_triggered; its average is [numpy.mean] of the
    completion percentages of all playbooks of the kind; the totals of
    the entries add up to the number of registered playbooks; and on an
    engine driven through its methods only the post-incident and the
    engagement-revival kinds have an entry. *)
Theorem effectiveness_counts_consistent (self : Engine) :
  let eff := _calculate_playbook_effectiveness self in
  NoDup (map fst eff) /\
  list_sum (map (fun te => total_triggered (snd te)) eff) =
    List.length (active_playbooks self) /\
  (forall t e,
     In (t, e) eff ->
     let relevant :=
       filter (fun pb => PlaybookType_eqb (playbook_type pb) t)
              (Dict.values (active_playbooks self)) in
     1 <= total_triggered e /\
     successful e <= completed e /\
     completed e <= total_triggered e /\
     total_triggered e = List.length relevant /\
     avg_completion_percentage e =
       np_mean (map completion_percentage relevant)) /\
  (reachable self ->
   forall t e, In (t, e) eff ->
               t = POST_INCIDENT_RECOVERY \/ t = ENGAGEMENT_REVIVAL).
Proof.
  intros eff. split; [|split; [|split]].
  - subst eff. unfold _calculate_playbook_effectiveness, all_playbook_types.
    cbn [flat_map].
    destruct (filter (fun pb => PlaybookType_eqb (playbook_type pb)
                                  POST_INCIDENT_RECOVERY) _);
      destruct (filter (fun pb => PlaybookType_eqb (playbook_type pb)
                                    ENGAGEMENT_REVIVAL) _);
      destruct (filter (fun pb => PlaybookType_eqb (playbook_type pb)
                                    VALUE_ACCELERATION) _);
      destruct (filter (fun pb => PlaybookType_eqb (playbook_type pb)
                                    CHURN_PREVENTION) _);
      destruct (filter (fun pb => PlaybookType_eqb (playbook_type pb)
                                    TRUST_REBUILDING) _);
      cbn [app map fst];
      repeat (constructor; [cbn [In]; intuition discriminate|]);
      constructor.
  - subst eff. unfold Dict.values.
    rewrite <- (length_map snd (active_playbooks self)).
    fold (Dict.values (active_playbooks self)).
    rewrite <- (type_partition (Dict.values (active_playbooks self))).
    unfold _calculate_playbook_effectiveness, all_playbook_types.
    cbn [flat_map].
    destruct (filter (fun pb => PlaybookType_eqb (playbook_type pb)
                                  POST_INCIDENT_RECOVERY) _);
      destruct (filter (fun pb => PlaybookType_eqb (playbook_type pb)
                                    ENGAGEMENT_REVIVAL) _);
      destruct (filter (fun pb => PlaybookType_eqb (playbook_type pb)
                                    VALUE_ACCELERATION) _);
      destruct (filter (fun pb => PlaybookType_eqb (playbook_type pb)
                                    CHURN_PREVENTION) _);
      destruct (filter (fun pb => PlaybookType_eqb (playbook_type pb)
                                    TRUST_REBUILDING) _);
      cbn [app map snd total_triggered list_sum fold_right List.length];
      lia.
  - intros t e H relevant.
    destruct (effectiveness_entry_counts self t e H)
      as (Hne & Ht & Hc & Hs & Ha).
    fold relevant in Hne, Ht, Hc, Hs, Ha.
    split.
    { rewrite Ht. destruct relevant; [congruence|simpl; lia]. }
    split; [rewrite Hs, Hc; apply filter_length_le|].
    split; [rewrite Hc, Ht; apply filter_length_le|].
    split; assumption.
  - intros Hr t e H.
    destruct (reachable_registry_ok self Hr) as (_ & _ & _ & HfP).
    assert (Hex : exists e, In (t, e) eff) by (exists e; exact H).
    apply effectiveness_present in Hex.
    destruct Hex as (pb & Hin & Hty).
    unfold Dict.values in Hin. apply in_map_iff in Hin.
    destruct Hin as ([k pb'] & Heq & Hin). cbn [snd] in Heq. subst pb'.
    rewrite Forall_forall in HfP.
    destruct (HfP _ Hin) as (_ & Htpl & _). cbn [snd] in Htpl.
    destruct Htpl as [(T & _)|(T & _)]; [left|right]; congruence.
Qed.

(** *** The tiers over the values of the scores *)

Local Open Scope Z_scope.

Lemma Qle_inject_value (n : Z) (x : float) :
  Qle (inject_Z n) (float_value x) <-> n * 2 ^ 1074 <= scaled (Prim2SF x).
Proof.
  unfold Qle, float_value, inject_Z. cbn [Qnum Qden].
  rewrite Pos2Z.inj_pow. change (Z.pos 2) with 2. change (Z.pos 1074) with 1074.
  rewrite Z.mul_1_r. reflexivity.
Qed.

Lemma Qle_value_inject (n : Z) (x : float) :
  Qle (float_value x) (inject_Z n) <-> scaled (Prim2SF x) <= n * 2 ^ 1074.
Proof.
  unfold Qle, float_value, inject_Z. cbn [Qnum Qden].
  rewrite Pos2Z.inj_pow. change (Z.pos 2) with 2. change (Z.pos 1074) with 1074.
  rewrite Z.mul_1_r. reflexivity.
Qed.

Lemma Qlt_value_inject (n : Z) (x : float) :
  Qlt (float_value x) (inject_Z n) <-> scaled (Prim2SF x) < n * 2 ^ 1074.
Proof.
  unfold Qlt, float_value, inject_Z. cbn [Qnum Qden].
  rewrite Pos2Z.inj_pow. change (Z.pos 2) with 2. change (Z.pos 1074) with 1074.
  rewrite Z.mul_1_r. reflexivity.
Qed.

Lemma leb_scaled (x y : float) :
  nonneg_finite (Prim2SF x) -> nonneg_finite (Prim2SF y) ->
  (x <=? y)%float = true <-> scaled (Prim2SF x) <= scaled (Prim2SF y).
Proof. intros Hx Hy. rewrite leb_spec. apply SFleb_scaled; assumption. Qed.

Lemma composite_nonneg_finite (h : HealthMetrics) :
  nonneg_finite (Prim2SF (calculate_composite_score h)).
Proof.
  destruct (composite_range h) as [H0 H100].
  apply between_0_100_nonneg_finite; assumption.
Qed.

Lemma threshold_scaled (c : float) (n : Z) (h : HealthMetrics) :
  nonneg_finite (Prim2SF c) ->
  scaled (Prim2SF c) = n * 2 ^ 1074 ->
  (c <=? calculate_composite_score h)%float = true <->
  n * 2 ^ 1074 <= scaled (Prim2SF (calculate_composite_score h)).
Proof.
  intros Hc Hs. rewrite <- Hs.
  apply leb_scaled; [exact Hc|apply composite_nonneg_finite].
Qed.

Lemma scaled_constants :
  scaled (Prim2SF 80) = 80 * 2 ^ 1074 /\
  scaled (Prim2SF 60) = 60 * 2 ^ 1074 /\
  scaled (Prim2SF 40) = 40 * 2 ^ 1074 /\
  scaled (Prim2SF 100) = 100 * 2 ^ 1074 /\
  scaled (Prim2SF 0) = 0 * 2 ^ 1074.
Proof. repeat split; vm_compute; reflexivity. Qed.

Lemma constants_nonneg_finite :
  nonneg_finite (Prim2SF 80) /\ nonneg_finite (Prim2SF 60) /\
  nonneg_finite (Prim2SF 40) /\ nonneg_finite (Prim2SF 100) /\
  nonneg_finite (Prim2SF 0).
Proof. repeat split; vm_compute; reflexivity. Qed.

(** The tier of metrics from the scaled value of their composite. *)
Lemma tier_scaled (h : HealthMetrics) :
  let a := scaled (Prim2SF (calculate_composite_score h)) in
  0 <= a <= 100 * 2 ^ 1074 /\
  get_health_tier h =
    if 80 * 2 ^ 1074 <=? a then HEALTHY
    else if 60 * 2 ^ 1074 <=? a then AT_RISK
    else if 40 * 2 ^ 1074 <=? a then CRITICAL
    else RED_ALERT.
Proof.
  intros a.
  destruct scaled_constants as (S80 & S60 & S40 & S100 & S0).
  destruct constants_nonneg_finite as (N80 & N60 & N40 & N100 & N0).
  assert (H80 := threshold_scaled 80 80 h N80 S80).
  assert (H60 := threshold_scaled 60 60 h N60 S60).
  assert (H40 := threshold_scaled 40 40 h N40 S40).
  destruct (composite_range h) as [R0 R100].
  assert (N := composite_nonneg_finite h).
  apply (leb_scaled 0 _ N0 N) in R0. apply (leb_scaled _ 100 N N100) in R100.
  rewrite S0 in R0. rewrite S100 in R100.
  fold a in H80, H60, H40, R0, R100.
  split; [lia|].
  unfold get_health_tier. cbv zeta.
  destruct (80 <=? calculate_composite_score h)%float.
  { destruct (Z.leb_spec (80 * 2 ^ 1074) a) as [_|L]; [reflexivity|].
    exfalso. apply (Z.lt_irrefl a).
    apply Z.lt_le_trans with (1 := L). apply H80. reflexivity. }
  destruct (Z.leb_spec (80 * 2 ^ 1074) a) as [L|_].
  { apply H80 in L. discriminate. }
  destruct (60 <=? calculate_composite_score h)%float.
  { destruct (Z.leb_spec (60 * 2 ^ 1074) a) as [_|L]; [reflexivity|].
    exfalso. apply (Z.lt_irrefl a).
    apply Z.lt_le_trans with (1 := L). apply H60. reflexivity. }
  destruct (Z.leb_spec (60 * 2 ^ 1074) a) as [L|_].
  { apply H60 in L. discriminate. }
  destruct (40 <=? calculate_composite_score h)%float.
  { destruct (Z.leb_spec (40 * 2 ^ 1074) a) as [_|L]; [reflexivity|].
    exfalso. apply (Z.lt_irrefl a).
    apply Z.lt_le_trans with (1 := L). apply H40. reflexivity. }
  destruct (Z.leb_spec (40 * 2 ^ 1074) a) as [L|_].
  { apply H40 in L. discriminate. }
  reflexivity.
Qed.

Local Close Scope Z_scope.

(** X18. The tier of a customer is decided by the rational value of the
    composite score, which lies between 0 and 100: Healthy exactly from
    80, AtRisk exactly from 60 to below 80, Critical exactly from 40 to
    below 60, RedAlert exactly below 40; the binary64 comparisons of
    [get_health_tier] lose nothing.  The tier is monotone: of two
    composite scores the larger never has the worse tier. *)
Theorem tier_by_rational_value :
  (forall h,
     let v := float_value (calculate_composite_score h) in
     Qle (inject_Z 0) v /\ Qle v (inject_Z 100) /\
     (get_health_tier h = HEALTHY <-> Qle (inject_Z 80) v) /\
     (get_health_tier h = AT_RISK <->
      Qle (inject_Z 60) v /\ Qlt v (inject_Z 80)) /\
     (get_health_tier h = CRITICAL <->
      Qle (inject_Z 40) v /\ Qlt v (inject_Z 60)) /\
     (get_health_tier h = RED_ALERT <-> Qlt v (inject_Z 40))) /\
  (forall h1 h2,
     (calculate_composite_score h1 <=? calculate_composite_score h2) = true ->
     tier_rank (get_health_tier h1) <= tier_rank (get_health_tier h2)).
Proof.
  split.
  - intros h v. subst v.
    rewrite !Qle_inject_value, !Qle_value_inject, !Qlt_value_inject.
    destruct (tier_scaled h) as [Hr Ht]. cbv zeta in Hr, Ht.
    set (a := scaled (Prim2SF (calculate_composite_score h))) in *.
    set (U := (2 ^ 1074)%Z) in *.
    rewrite Ht.
    destruct (Z.leb_spec (80 * U) a); [|destruct (Z.leb_spec (60 * U) a);
      [|destruct (Z.leb_spec (40 * U) a)]];
      repeat split; try lia; try discriminate; try reflexivity;
      intros; try lia.
  - intros h1 h2 H.
    apply (leb_scaled _ _ (composite_nonneg_finite h1)
             (composite_nonneg_finite h2)) in H.
    destruct (tier_scaled h1) as [_ ->]. destruct (tier_scaled h2) as [_ ->].
    cbv zeta.
    set (a1 := scaled (Prim2SF (calculate_composite_score h1))) in *.
    set (a2 := scaled (Prim2SF (calculate_composite_score h2))) in *.
    set (U := (2 ^ 1074)%Z) in *.
    destruct (Z.leb_spec (80 * U) a1); destruct (Z.leb_spec (80 * U) a2);
      destruct (Z.leb_spec (60 * U) a1); destruct (Z.leb_spec (60 * U) a2);
      destruct (Z.leb_spec (40 * U) a1); destruct (Z.leb_spec (40 * U) a2);
      cbn [tier_rank]; lia.
Qed.

(** *** The records of an assignment *)

Lemma rule_log_assigned (b : bool) (customer : CustomerProfile)
    (t : PlaybookType) (now : datetime) (d : Dict.t RecoveryPlaybook)
    (pid csm : string) :
  In (INFO, PlaybookAssigned pid csm)
     (rules_log customer now (if b then [t] else []) d) <->
  b = true /\ has_active d (customer_id customer) t = false /\
  exists pb, instantiated customer t now = Some pb /\
             pid = playbook_id pb /\ csm = assigned_csm pb.
Proof.
  destruct b; cbn [rules_log]; [|split; [intros []|intros [? _]; discriminate]].
  rewrite app_nil_r. unfold ensured_log.
  destruct (has_active d (customer_id customer) t).
  - split; [intros []|intros (_ & ? & _); discriminate].
  - destruct (instantiated customer t now) as [pb|].
    + split.
      * intros [H|[H|[]]]; [discriminate|]. injection H as <- <-.
        split; [reflexivity|]. split; [reflexivity|].
        exists pb. repeat split.
      * intros (_ & _ & pb' & [= <-] & -> & ->). right. left. reflexivity.
    + split; [intros [H|[]]; discriminate|].
      intros (_ & _ & pb & H & _). discriminate.
Qed.

Lemma rule_log_triggered (customer : CustomerProfile) (t : PlaybookType)
    (now : datetime) (d : Dict.t RecoveryPlaybook) (pb : RecoveryPlaybook) :
  has_active d (customer_id customer) t = false ->
  instantiated customer t now = Some pb ->
  In (INFO, TriggeredPlaybook t (name customer) (playbook_id pb))
     (rules_log customer now [t] d).
Proof.
  intros Hact Hi. cbn [rules_log]. rewrite app_nil_r.
  unfold ensured_log. rewrite Hact, Hi. left. reflexivity.
Qed.

Lemma rule_registry_no_template (b : bool) (customer : CustomerProfile)
    (t : PlaybookType) (now : datetime) (d : Dict.t RecoveryPlaybook) :
  instantiated customer t now = None ->
  rules_registry customer now (if b then [t] else []) d = d.
Proof.
  intros H. destruct b; cbn [rules_registry fold_left]; [|reflexivity].
  apply ensured_no_template, H.
Qed.

Lemma other_records_not_assigned (customer : CustomerProfile)
    (previous : option HealthMetrics) (h : HealthMetrics)
    (r : LogMessage) (pid csm : string) :
  (forall p c, r <> PlaybookAssigned p c) ->
  In (INFO, PlaybookAssigned pid csm)
     (drop_log customer previous h ++ [(INFO, r)])%list -> False.
Proof.
  intros Hr. unfold drop_log. destruct previous as [p|];
    [destruct (significant_drop (Some p) h)|]; simpl;
    intros H; repeat (destruct H as [H|H]; try discriminate H);
    try contradiction; injection H as H; exact (Hr _ _ H).
Qed.

(** X19. The log of a call of [update_customer_health] that computes its
    metrics holds an assignment record exactly for the playbooks the call
    registers.  Every assignment record names the success manager of the
    customer and the id of a playbook that the registry holds afterwards:
    a playbook of this customer, active, triggered at the time of the
    call and assigned to that manager, whose trigger record is in the log
    as well.  And when a rule registers a playbook (the customer is
    post-incident, requires trust rebuilding and has no active
    post-incident playbook; or the new engagement score is below 60 and
    no engagement-revival playbook is active), the assignment record of
    that playbook is logged. *)
Theorem playbook_assignments_logged :
  forall cid data now self customer h,
    Dict.get (customers self) cid = Some customer ->
    calculate_health_metrics customer data now = Ok h ->
    let s' := snd (update_customer_health cid data now self) in
    let d := active_playbooks self in
    let id := customer_id customer in
    exists l,
      log s' = (log self ++ l)%list /\
      (forall pid csm,
         In (INFO, PlaybookAssigned pid csm) l ->
         csm = success_manager customer /\
         exists pb,
           Dict.get (active_playbooks s') pid = Some pb /\
           playbook_id pb = pid /\ assigned_csm pb = csm /\
           pb_customer_id pb = id /\ pb_status pb = "active" /\
           triggered_at pb = now /\
           In (INFO, TriggeredPlaybook (playbook_type pb) (name customer) pid)
              l) /\
      (is_post_incident customer && trust_rebuilding_required customer = true
       -> has_active d id POST_INCIDENT_RECOVERY = false ->
       In (INFO, PlaybookAssigned (pir_id id now) (success_manager customer))
          l) /\
      ((engagement_score h <? 60) = true ->
       has_active d id ENGAGEMENT_REVIVAL = false ->
       In (INFO, PlaybookAssigned (er_id id now) (success_manager customer))
          l).
Proof.
  intros cid data now self customer h G E s' d id.
  destruct (update_customer_health_explicit cid data now self customer h G E)
    as (s1 & U & P & L).
  subst s'. rewrite U. cbn [snd]. rewrite P, L. clear U P L s1.
  set (c1 := set_health customer h now).
  unfold applicable_kinds.
  change (is_post_incident c1 && trust_rebuilding_required c1)
    with (is_post_incident customer && trust_rebuilding_required customer).
  set (b1 := is_post_incident customer && trust_rebuilding_required customer).
  set (b2 := match get_health_tier h with
             | CRITICAL | RED_ALERT => true
             | _ => false
             end).
  replace (match get_health_tier h with
           | CRITICAL | RED_ALERT => [CHURN_PREVENTION]
           | _ => []
           end) with (if b2 then [CHURN_PREVENTION] else [])
    by (subst b2; destruct (get_health_tier h); reflexivity).
  set (b3 := engagement_score h <? 60).
  set (b4 := value_realization_score h <? 50).
  rewrite !rules_log_app, !rules_registry_app. fold d.
  set (D1 := rules_registry c1 now
               (if b1 then [POST_INCIDENT_RECOVERY] else []) d).
  rewrite (rule_registry_no_template b2 c1 CHURN_PREVENTION now D1 eq_refl).
  set (D3 := rules_registry c1 now
               (if b3 then [ENGAGEMENT_REVIVAL] else []) D1).
  rewrite (rule_registry_no_template b4 c1 VALUE_ACCELERATION now D3 eq_refl).
  set (pirpb := set_baseline_health_score
                  (create_post_incident_recovery_playbook c1 now)
                  (Some (calculate_composite_score h))).
  set (erpb := set_baseline_health_score
                 (create_engagement_revival_playbook c1 now)
                 (Some (calculate_composite_score h))).
  assert (Hpir : instantiated c1 POST_INCIDENT_RECOVERY now = Some pirpb)
    by (apply instantiated_post_incident; reflexivity).
  assert (Her : instantiated c1 ENGAGEMENT_REVIVAL now = Some erpb)
    by (apply instantiated_engagement_revival; reflexivity).
  assert (HD1 : b1 = true ->
                has_active d (customer_id c1) POST_INCIDENT_RECOVERY = false ->
                D1 = Dict.set d (pir_id id now) pirpb).
  { intros Hb Hact. subst D1. rewrite Hb. cbn [rules_registry fold_left].
    unfold ensured. rewrite Hact, Hpir. reflexivity. }
  assert (HD3 : b3 = true ->
                has_active D1 (customer_id c1) ENGAGEMENT_REVIVAL = false ->
                D3 = Dict.set D1 (er_id id now) erpb).
  { intros Hb Hact. subst D3. rewrite Hb. cbn [rules_registry fold_left].
    unfold ensured. rewrite Hact, Her. reflexivity. }
  assert (HD3other : forall k, k <> er_id id now ->
                       Dict.get D3 k = Dict.get D1 k).
  { intros k Hk. subst D3. destruct b3; cbn [rules_registry fold_left];
      [|reflexivity].
    apply ensured_get_other. rewrite Her. intros pb [= <-] Heq.
    apply Hk. symmetry. exact Heq. }
  assert (HD1er : has_active d id ENGAGEMENT_REVIVAL = false ->
                  has_active D1 id ENGAGEMENT_REVIVAL = false).
  { intros Hnone. subst D1. destruct b1; cbn [rules_registry fold_left];
      [|exact Hnone].
    unfold ensured.
    destruct (has_active d (customer_id c1) POST_INCIDENT_RECOVERY);
      [exact Hnone|].
    rewrite Hpir.
    destruct (has_active (Dict.set d _ _) id ENGAGEMENT_REVIVAL) eqn:Hact;
      [|reflexivity].
    apply has_active_set in Hact. destruct Hact as [Hact|Hact].
    - congruence.
    - unfold is_active_for in Hact. cbn in Hact.
      rewrite andb_false_r in Hact. discriminate. }
  eexists. split; [reflexivity|]. split; [|split].
  - intros pid csm Hin.
    rewrite !in_app_iff, !rule_log_assigned in Hin.
    destruct Hin as [[Hin|[Hin|[Hin|Hin]]]|Hin].
    + destruct Hin as (Hb & Hact & pb & Hi & -> & ->).
      rewrite Hpir in Hi. injection Hi as <-.
      split; [reflexivity|]. exists pirpb.
      split.
      { rewrite HD3other by (apply pir_id_not_er_id).
        rewrite (HD1 Hb Hact). apply get_set_same. }
      repeat split.
      rewrite !in_app_iff. left. left. rewrite Hb.
      apply (rule_log_triggered c1 POST_INCIDENT_RECOVERY now d pirpb Hact
               Hpir).
    + destruct Hin as (_ & _ & pb & Hi & _). discriminate.
    + destruct Hin as (Hb & Hact & pb & Hi & -> & ->).
      rewrite Her in Hi. injection Hi as <-.
      split; [reflexivity|]. exists erpb.
      split; [rewrite (HD3 Hb Hact); apply get_set_same|].
      repeat split.
      rewrite !in_app_iff. left. right. right. left. rewrite Hb.
      apply (rule_log_triggered c1 ENGAGEMENT_REVIVAL now D1 erpb Hact Her).
    + destruct Hin as (_ & _ & pb & Hi & _). discriminate.
    + exfalso.
      apply (other_records_not_assigned c1 (current_health customer) h
               (UpdatedHealth (name customer) (calculate_composite_score h)
                  (get_health_tier h)) pid csm);
        [intros p c; discriminate|].
      apply in_app_iff. exact Hin.
  - intros Hb Hact. rewrite !in_app_iff, !rule_log_assigned.
    left. left. split; [exact Hb|]. split; [exact Hact|].
    exists pirpb. split; [exact Hpir|]. split; reflexivity.
  - intros Hb Hact. rewrite !in_app_iff, !rule_log_assigned.
    left. right. right. left. split; [exact Hb|].
    split; [apply HD1er, Hact|].
    exists erpb. split; [exact Her|]. split; reflexivity.
Qed.

End Properties.

(* ================================================================= *)
(** ** The properties on the runs *)

#[local] Existing Instance example_library.

Lemma run3_reachable : reachable run3.
Proof.
  apply (reachable_step run2 run3);
    [|exact (step_update_customer_health "CUST-001" enterprise_data 2%Z
               run2)].
  apply (reachable_step run1 run2);
    [|exact (step_update_customer_health "CUST-001" healthy_data 1%Z run1)].
  apply (reachable_step init run1);
    [|exact (step_add_customer enterprise_customer init)].
  exact reachable_init.
Defined.

Lemma run3_at_most_one_active_witness :
  reachable run3 /\ at_most_one_active run3.
Proof.
  split; [exact run3_reachable|].
  exact (proj2 at_most_one_active_playbook_per_kind run3 run3_reachable).
Defined.

Lemma run4_completion_percentage_witness :
  reachable run3 /\
  update_playbook_action "PIR-CUST-001-20250101" "pir_001" COMPLETED "done"
    None 3%Z run3 = (Ok tt, run4) /\
  exists pb pb' a,
    Dict.get (active_playbooks run3) "PIR-CUST-001-20250101" = Some pb /\
    find_action "pir_001" (actions pb) = Some a /\
    Dict.get (active_playbooks run4) "PIR-CUST-001-20250101" = Some pb' /\
    completion_percentage pb' =
      float_of_nat (completed_count (actions pb')) /
      float_of_nat (List.length (actions pb')) * 100 /\
    ((completion_percentage pb' =? 100) = true <->
     all_completed (actions pb')) /\
    (forward (status a) COMPLETED = true ->
     (completion_percentage pb <=? completion_percentage pb') = true) /\
    (if completion_percentage pb' =? 100
     then pb_status pb' = "completed"
     else pb_status pb' = pb_status pb /\
          current_health_score pb' = current_health_score pb /\
          outcome_summary pb' = outcome_summary pb).
Proof.
  assert (H : update_playbook_action "PIR-CUST-001-20250101" "pir_001"
                COMPLETED "done" None 3%Z run3 = (Ok tt, run4))
    by (vm_compute; reflexivity).
  split; [exact run3_reachable|]. split; [exact H|].
  exact (proj1 completion_percentage_lifecycle _ _ _ _ _ _ _ _
           run3_reachable H).
Defined.

Lemma run3_escalation_witness :
  Dict.get (customers run2) "CUST-001" = Some (profile_in run2 "CUST-001") /\
  current_health (profile_in run2 "CUST-001") = Some run2_health /\
  calculate_health_metrics (profile_in run2 "CUST-001") enterprise_data 2%Z
    = Ok run3_health /\
  (calculate_composite_score run3_health <?
   calculate_composite_score run2_health - 15) = true /\
  exists entries c',
    log run3 = (log run2 ++ entries)%list /\
    existsb is_escalation entries =
      (calculate_composite_score run3_health <?
       calculate_composite_score run2_health - 15) /\
    Dict.get (customers run3) "CUST-001" = Some c' /\
    executive_escalation_required c' =
      executive_escalation_required (profile_in run2 "CUST-001") ||
      (calculate_composite_score run3_health <?
       calculate_composite_score run2_health - 15).
Proof.
  assert (H1 : Dict.get (customers run2) "CUST-001" =
               Some (profile_in run2 "CUST-001"))
    by (vm_compute; reflexivity).
  assert (H2 : current_health (profile_in run2 "CUST-001") = Some run2_health)
    by (vm_compute; reflexivity).
  assert (H3 : calculate_health_metrics (profile_in run2 "CUST-001")
                 enterprise_data 2%Z = Ok run3_health)
    by (vm_compute; reflexivity).
  split; [exact H1|]. split; [exact H2|]. split; [exact H3|].
  split; [vm_compute; reflexivity|].
  exact (proj1 executive_escalation_on_drop "CUST-001" enterprise_data 2%Z
           run2 _ _ _ H1 H2 H3).
Defined.

Lemma unregistered_customer_witness :
  Dict.get (customers run1) "CUST-404" = None /\
  snd (update_customer_health "CUST-404" [] 0%Z run1) = run1.
Proof.
  split; [reflexivity|].
  exact (proj2 (proj1 not_found_and_unimplemented "CUST-404" [] 0%Z run1)
           eq_refl).
Defined.

Lemma run5_escalation_flag_witness :
  Dict.get (customers run3) "CUST-001" = Some (profile_in run3 "CUST-001") /\
  executive_escalation_required (profile_in run3 "CUST-001") = true /\
  updates run3 run5 /\
  exists c', Dict.get (customers run5) "CUST-001" = Some c' /\
             executive_escalation_required c' = true.
Proof.
  assert (H1 : Dict.get (customers run3) "CUST-001" =
               Some (profile_in run3 "CUST-001"))
    by (vm_compute; reflexivity).
  assert (H2 : executive_escalation_required (profile_in run3 "CUST-001")
               = true) by (vm_compute; reflexivity).
  assert (H3 : updates run3 run5).
  { apply (updates_step run3 run4 run5).
    - apply (updates_step run3 run3 run4); [apply updates_refl|].
      exact (update_step_action "PIR-CUST-001-20250101" "pir_001" COMPLETED
               "done" None 3%Z run3).
    - exact (update_step_health "CUST-001" healthy_data 4%Z run4). }
  split; [exact H1|]. split; [exact H2|]. split; [exact H3|].
  exact (escalation_flag_stays_set run3 run5 "CUST-001" _ H1 H2 H3).
Defined.

(** C9 as stated fails: the customer of [steady3] is not post-incident
    and has two history entries, from 51.7 to 96.1; the report averages
    nothing and gives 0 where the mean over the customers with two
    entries is 44.4; and it has no entry, hence no rate of 0, for the
    post-incident kind, of which the registry holds no playbook. *)
Lemma report_skips_steady_customers :
  average_health_improvement
    (recovery_metrics (generate_recovery_report steady3 None 9%Z)) = 0 /\
  spec_health_improvements steady3 = [44.410416666666656] /\
  np_mean (spec_health_improvements steady3) = 44.410416666666656 /\
  ~ (exists e,
       In (POST_INCIDENT_RECOVERY, e)
          (playbook_effectiveness
             (generate_recovery_report steady3 None 9%Z))).
Proof.
  split; [vm_compute; reflexivity|].
  split; [vm_compute; reflexivity|].
  split; [vm_compute; reflexivity|].
  intros [e H]. vm_compute in H. destruct H as [H|H]; [discriminate|exact H].
Defined.

Lemma steady7_report_witness :
  let r := generate_recovery_report steady7 None 9%Z in
  let e := {| total_triggered := 1; completed := 1; successful := 1;
              success_rate := 1; avg_completion_percentage := 100 |} in
  In (ENGAGEMENT_REVIVAL, e) (playbook_effectiveness r) /\
  scores_nonzero steady7 /\
  completed e = List.length (completed_of steady7 ENGAGEMENT_REVIVAL) /\
  success_rate e =
    match completed_of steady7 ENGAGEMENT_REVIVAL with
    | [] => 0
    | _ :: _ => float_of_nat (successful e) / float_of_nat (completed e)
    end /\
  successful e =
    List.length (filter score_improved
                   (completed_of steady7 ENGAGEMENT_REVIVAL)).
Proof.
  intros r e.
  assert (H : In (ENGAGEMENT_REVIVAL, e) (playbook_effectiveness r))
    by (vm_compute; left; reflexivity).
  assert (N : scores_nonzero steady7).
  { unfold scores_nonzero.
    assert (E : Dict.values (active_playbooks steady7) =
                [profile_playbook steady7 "ER-CUST-002-20250101"])
      by (vm_compute; reflexivity).
    rewrite E. repeat constructor; intros v Hv; vm_compute in Hv;
      injection Hv as Hv; rewrite <- Hv; reflexivity. }
  assert (T := recovery_report_aggregates steady7 None 9%Z).
  cbv zeta in T. destruct T as (_ & _ & T).
  destruct (T ENGAGEMENT_REVIVAL e H) as (Hc & Hr & Hs).
  split; [exact H|]. split; [exact N|]. split; [exact Hc|].
  split; [exact Hr|]. exact (Hs N).
Defined.

(** *** The further properties on the runs *)

Lemma run1_profile : Dict.get (customers run1) "CUST-001"
                     = Some enterprise_customer.
Proof. vm_compute. reflexivity. Qed.

Lemma run2_metrics :
  calculate_health_metrics enterprise_customer healthy_data 1%Z
  = Ok run2_health.
Proof. vm_compute. reflexivity. Qed.

Lemma run2_profile : Dict.get (customers run2) "CUST-001"
                     = Some (profile_in run2 "CUST-001").
Proof. vm_compute. reflexivity. Qed.

Lemma run3_metrics :
  calculate_health_metrics (profile_in run2 "CUST-001") enterprise_data 2%Z
  = Ok run3_health.
Proof. vm_compute. reflexivity. Qed.

Lemma run2_reachable : reachable run2.
Proof.
  apply (reachable_step run1 run2);
    [|exact (step_update_customer_health "CUST-001" healthy_data 1%Z run1)].
  apply (reachable_step init run1);
    [|exact (step_add_customer enterprise_customer init)].
  exact reachable_init.
Qed.

Lemma run3_run5_updates : updates run3 run5.
Proof.
  apply (updates_step run3 run4 run5).
  - apply (updates_step run3 run3 run4); [apply updates_refl|].
    exact (update_step_action "PIR-CUST-001-20250101" "pir_001" COMPLETED
             "done" None 3%Z run3).
  - exact (update_step_health "CUST-001" healthy_data 4%Z run4).
Qed.


Lemma run2_health_records_witness :
  Dict.get (customers run1) "CUST-001" = Some enterprise_customer /\
  calculate_health_metrics enterprise_customer healthy_data 1%Z
    = Ok run2_health /\
  fst (update_customer_health "CUST-001" healthy_data 1%Z run1)
    = Ok run2_health /\
  exists c',
    Dict.get (customers run2) "CUST-001" = Some c' /\
    current_health c' = Some run2_health /\
    health_history c' = [run2_health] /\
    last_engagement c' = Some 1%Z /\
    same_static_fields enterprise_customer c'.
Proof.
  assert (T := update_customer_health_records "CUST-001" healthy_data 1%Z
                 run1 enterprise_customer run2_health run1_profile
                 run2_metrics).
  cbv zeta in T. destruct T as (T1 & T2 & _).
  split; [exact run1_profile|]. split; [exact run2_metrics|].
  split; [exact T1|exact T2].
Defined.

Lemma run5_history_witness :
  Dict.get (customers run3) "CUST-001" = Some (profile_in run3 "CUST-001") /\
  updates run3 run5 /\
  exists c' l,
    Dict.get (customers run5) "CUST-001" = Some c' /\
    health_history c' =
      (health_history (profile_in run3 "CUST-001") ++ l)%list /\
    current_health c' =
      last (map Some l) (current_health (profile_in run3 "CUST-001")) /\
    same_static_fields (profile_in run3 "CUST-001") c'.
Proof.
  assert (H1 : Dict.get (customers run3) "CUST-001" =
               Some (profile_in run3 "CUST-001"))
    by (vm_compute; reflexivity).
  split; [exact H1|]. split; [exact run3_run5_updates|].
  exact (health_history_append_only run3 run5 "CUST-001" _ H1
           run3_run5_updates).
Defined.

Lemma run4_action_frame_witness :
  Dict.get (active_playbooks run3) "PIR-CUST-001-20250101"
    = Some (profile_playbook run3 "PIR-CUST-001-20250101") /\
  (exists a,
     find_action "pir_001"
       (actions (profile_playbook run3 "PIR-CUST-001-20250101")) = Some a) /\
  customers run4 = customers run3 /\
  List.length (active_playbooks run4) = List.length (active_playbooks run3).
Proof.
  assert (H1 : Dict.get (active_playbooks run3) "PIR-CUST-001-20250101"
               = Some (profile_playbook run3 "PIR-CUST-001-20250101"))
    by (vm_compute; reflexivity).
  assert (H2 : exists a,
             find_action "pir_001"
               (actions (profile_playbook run3 "PIR-CUST-001-20250101"))
             = Some a)
    by (vm_compute; eexists; reflexivity).
  split; [exact H1|]. split; [exact H2|].
  destruct H2 as [a H2].
  assert (T := update_playbook_action_frame "PIR-CUST-001-20250101" "pir_001"
                 COMPLETED "done" None 3%Z run3 _ a H1 H2).
  cbv zeta in T. destruct T as (_ & T2 & _ & T4 & _).
  split; [exact T2|exact T4].
Defined.

Lemma run2_triggered_playbooks_witness :
  Dict.get (customers run1) "CUST-001" = Some enterprise_customer /\
  calculate_health_metrics enterprise_customer healthy_data 1%Z
    = Ok run2_health /\
  has_active (active_playbooks run1) "CUST-001" POST_INCIDENT_RECOVERY
    = false /\
  Dict.get (active_playbooks run2) (pir_id "CUST-001" 1%Z) =
    Some (set_baseline_health_score
            (create_post_incident_recovery_playbook
               (set_health enterprise_customer run2_health 1%Z) 1%Z)
            (Some (calculate_composite_score run2_health))).
Proof.
  assert (T := triggered_playbooks_registered "CUST-001" healthy_data 1%Z
                 run1 enterprise_customer run2_health run1_profile
                 run2_metrics).
  cbv zeta in T. destruct T as (T1 & _).
  split; [exact run1_profile|]. split; [exact run2_metrics|].
  split; [reflexivity|].
  exact (T1 eq_refl eq_refl).
Defined.

Lemma run3_registries_witness :
  reachable run3 /\
  (forall k c, Dict.get (customers run3) k = Some c -> customer_id c = k) /\
  (forall k pb,
     Dict.get (active_playbooks run3) k = Some pb ->
     playbook_id pb = k /\
     template_instance pb /\
     (pb_status pb = "active" \/ pb_status pb = "completed") /\
     Dict.mem (customers run3) (pb_customer_id pb) = true /\
     exists b, baseline_health_score pb = Some b /\
               (0 <=? b) = true /\ (b <=? 100) = true).
Proof.
  split; [exact run3_reachable|].
  exact (reachable_registries_consistent run3 run3_reachable).
Defined.

Lemma run3_applicable_active_witness :
  reachable run2 /\
  Dict.get (customers run2) "CUST-001" = Some (profile_in run2 "CUST-001") /\
  calculate_health_metrics (profile_in run2 "CUST-001") enterprise_data 2%Z
    = Ok run3_health /\
  has_active (active_playbooks run3) "CUST-001" POST_INCIDENT_RECOVERY
    = true /\
  has_active (active_playbooks run3) "CUST-001" ENGAGEMENT_REVIVAL = true.
Proof.
  assert (T := applicable_playbooks_active run2 "CUST-001" enterprise_data
                 2%Z _ run3_health run2_reachable run2_profile run3_metrics).
  cbv zeta in T. destruct T as (T1 & T2).
  split; [exact run2_reachable|]. split; [exact run2_profile|].
  split; [exact run3_metrics|].
  split; [apply T1|apply T2]; vm_compute; reflexivity.
Defined.



Lemma run3_actions_witness :
  reachable run3 /\
  forall k pb,
    Dict.get (active_playbooks run3) k = Some pb ->
    NoDup (map action_id (actions pb)) /\
    forall a,
      In a (actions pb) ->
      find_action (action_id a) (actions pb) = Some a /\
      (triggered_at pb < due_date a <= target_completion_date pb)%Z /\
      (status a = COMPLETED -> completion_date a <> None).
Proof.
  split; [exact run3_reachable|].
  exact (reachable_actions_well_formed run3 run3_reachable).
Defined.

Lemma run2_assignments_witness :
  Dict.get (customers run1) "CUST-001" = Some enterprise_customer /\
  calculate_health_metrics enterprise_customer healthy_data 1%Z
    = Ok run2_health /\
  exists l,
    log run2 = (log run1 ++ l)%list /\
    In (INFO, PlaybookAssigned (pir_id "CUST-001" 1%Z)
                "csm-sarah@company.com") l.
Proof.
  assert (T := playbook_assignments_logged "CUST-001" healthy_data 1%Z
                 run1 enterprise_customer run2_health run1_profile
                 run2_metrics).
  cbv zeta in T. destruct T as (l & Hl & _ & T3 & _).
  split; [exact run1_profile|]. split; [exact run2_metrics|].
  exists l. split; [exact Hl|]. apply T3; reflexivity.
Defined.

Lemma run2_metrics_clamped_witness :
  calculate_health_metrics enterprise_customer healthy_data 1%Z
    = Ok run2_health /\
  calculated_at run2_health = 1%Z /\
  (engagement_score run2_health <=? 100) = true /\
  (value_realization_score run2_health <=? 100) = true /\
  (relationship_health_score run2_health <=? 100) = true /\
  (risk_indicators_score run2_health <=? 100) = true.
Proof.
  split; [exact run2_metrics|].
  exact (proj2 (health_metrics_adjusted_and_clamped enterprise_customer
                  healthy_data 1%Z run2_health) run2_metrics).
Defined.

Lemma run1_zero_target_witness :
  Dict.get (customers run1) "CUST-001" = Some enterprise_customer /\
  calculate_health_metrics enterprise_customer
    [("target_days_to_value", 0)] 1%Z = Raise ZeroDivisionError /\
  update_customer_health "CUST-001" [("target_days_to_value", 0)] 1%Z run1
    = (Raise ZeroDivisionError, run1).
Proof.
  assert (E : calculate_health_metrics enterprise_customer
                [("target_days_to_value", 0)] 1%Z = Raise ZeroDivisionError)
    by (vm_compute; reflexivity).
  split; [exact run1_profile|]. split; [exact E|].
  exact (proj1 (proj2 failed_calls_change_nothing) "CUST-001"
           [("target_days_to_value", 0)] 1%Z run1 enterprise_customer
           ZeroDivisionError run1_profile E).
Defined.
